(** * Youtube-downloader-converter: the download worker of
      [app/pages/downloads_page.py]

    A shallow embedding of [_DownloadWorker] (format selection, the
    line-by-line interpretation of the downloader's output, the post-run
    validation, cancellation and partial-file cleanup, the token helpers) and
    of [DownloadsPage._generate_unique_filename], with the properties that the
    specification states about them; then of the part of [DownloadsPage] that
    starts a download (presets, the check of duplicates and of the formats)
    and of the handlers that show a run on its card, with properties of
    their own.

    Conventions.
    - Python [str] values are [string]s (byte strings; the non-ASCII
      characters of the Spanish messages are their UTF-8 bytes).  Whitespace is
      the ASCII whitespace that [str.strip]/[str.split] recognise.  Python
      strips and splits at the white space outside ASCII as well (NO-BREAK
      SPACE and the like): a text is taken to have none where it is stripped
      or split, as the output of the downloader has none, and a statement
      about another text says so.
    - Paths are POSIX paths.  The code hands the output directory to
      [glob.glob] unescaped, inside [<dir>/*.part], [<dir>/*.ytdl] and
      [<dir>/*]: [FS.glob] is that search for a directory without the pattern
      characters [*], [?] and [[] ([FS.has_magic]), and the statements about
      the cleanup and about the recovery of the artifact are for such
      directories.
    - Python [float] is IEEE-754 binary64: a finite value is the rational it
      denotes and every operation rounds to nearest, ties to even
      ([PyFloat.round64]).  Signed zeros are not distinguished.
    - Exceptions are values of [pyexn]; a [try]/[except] is [try_except].
    - Signals emitted by the worker and the records it appends to
      [ytdlp_debug.log] are the [event]s of a run, in emission order.
    - [print] calls have no effect on any of this and are left out. *)

From Stdlib Require Import String Ascii List ZArith QArith Qabs Qround Lia Bool.
From Stdlib Require Import DecimalString DecimalPos.
Import ListNotations.

Open Scope list_scope.
Open Scope string_scope.
Open Scope Z_scope.

(* ------------------------------------------------------------------ *)
(** ** Python strings *)

Module PyStr.

(** [s.startswith(p)] *)
Definition startswith (s p : string) : bool := String.prefix p s.

(** [s[len(p):]] when [s.startswith(p)] *)
Fixpoint drop_prefix (p s : string) : option string :=
  match p, s with
  | EmptyString, _ => Some s
  | String a p', String b s' =>
      if Ascii.eqb a b then drop_prefix p' s' else None
  | String _ _, EmptyString => None
  end.

(** [needle in s] *)
Fixpoint contains (needle s : string) : bool :=
  String.prefix needle s ||
  match s with
  | EmptyString => false
  | String _ s' => contains needle s'
  end.

Fixpoint rev_acc (s acc : string) : string :=
  match s with
  | EmptyString => acc
  | String c s' => rev_acc s' (String c acc)
  end.

Definition rev (s : string) : string := rev_acc s EmptyString.

(** [s.endswith(p)] *)
Definition endswith (s p : string) : bool := String.prefix (rev p) (rev s).

(** The characters for which [str.isspace] holds, among the ASCII ones.
    ([lstrip], [rstrip], [strip] and [split] below are Python's for a text
    whose white space is ASCII where they look at it.) *)
Definition is_space (c : ascii) : bool :=
  let n := Z.of_nat (nat_of_ascii c) in
  ((n =? 32) || ((9 <=? n) && (n <=? 13)) || ((28 <=? n) && (n <=? 31)))%Z.

Fixpoint lstrip (s : string) : string :=
  match s with
  | EmptyString => EmptyString
  | String c s' => if is_space c then lstrip s' else s
  end.

Definition rstrip (s : string) : string := rev (lstrip (rev s)).

(** [s.strip()] *)
Definition strip (s : string) : string := rstrip (lstrip s).

Fixpoint lstrip_char (ch : ascii) (s : string) : string :=
  match s with
  | EmptyString => EmptyString
  | String c s' => if Ascii.eqb c ch then lstrip_char ch s' else s
  end.

(** [s.rstrip(ch)] for a one-character [ch] *)
Definition rstrip_char (ch : ascii) (s : string) : string :=
  rev (lstrip_char ch (rev s)).

(** [s.split(sep, 1)] when [sep in s]: the text before and after the first
    occurrence of [sep]. *)
Fixpoint partition (sep s : string) : option (string * string) :=
  match drop_prefix sep s with
  | Some rest => Some (EmptyString, rest)
  | None =>
      match s with
      | EmptyString => None
      | String c s' =>
          match partition sep s' with
          | Some (a, b) => Some (String c a, b)
          | None => None
          end
      end
  end.

(** [s.split(sep, 1)] *)
Definition split1 (sep s : string) : list string :=
  match partition sep s with
  | Some (a, b) => [a; b]
  | None => [s]
  end.

(** [s.split(c)] for a one-character separator *)
Fixpoint split_char (c : ascii) (s : string) : list string :=
  match s with
  | EmptyString => [EmptyString]
  | String a s' =>
      if Ascii.eqb a c then EmptyString :: split_char c s'
      else match split_char c s' with
           | h :: t => String a h :: t
           | [] => [String a EmptyString]
           end
  end.

(** [s.split()] : the maximal runs of non-whitespace characters *)
Fixpoint split (s : string) : list string :=
  match s with
  | EmptyString => []
  | String a s' =>
      if is_space a then split s'
      else match s' with
           | EmptyString => [String a EmptyString]
           | String b _ =>
               if is_space b then String a EmptyString :: split s'
               else match split s' with
                    | h :: t => String a h :: t
                    | [] => [String a EmptyString]
                    end
           end
  end.

Definition lower_char (c : ascii) : ascii :=
  let n := nat_of_ascii c in
  if ((65 <=? n) && (n <=? 90))%nat then ascii_of_nat (n + 32) else c.

(** [s.lower()] (on the ASCII letters) *)
Fixpoint lower (s : string) : string :=
  match s with
  | EmptyString => EmptyString
  | String c s' => String (lower_char c) (lower s')
  end.

(** [s[:-n]] *)
Definition drop_last (n : nat) (s : string) : string :=
  String.substring 0 (String.length s - n) s.

(** Truth value of a string: non-empty. *)
Definition truthy (s : string) : bool :=
  match s with EmptyString => false | _ => true end.

(** [str(n)] for an integer *)
Definition of_Z (z : Z) : string := NilZero.string_of_int (Z.to_int z).

Definition is_digit (c : ascii) : bool :=
  let n := nat_of_ascii c in ((48 <=? n) && (n <=? 57))%nat.

Definition digit_val (c : ascii) : Z := Z.of_nat (nat_of_ascii c) - 48.

End PyStr.

(* ------------------------------------------------------------------ *)
(** ** Exceptions *)

(** The exception classes that [run] tells apart in its handlers.  Every other
    [Exception] (including the [ValueError], [IndexError], [OverflowError] and
    [ZeroDivisionError] of the built-ins) is [PyException msg], with
    [str(e) = msg]. *)
Inductive pyexn : Type :=
| SubprocessError (timeout : bool) (msg : string)   (* [timeout]: it is a [TimeoutExpired] *)
| FileNotFoundError
| PermissionError
| PyException (msg : string).

Inductive result (A : Type) : Type :=
| Ok (a : A)
| Raise (e : pyexn).
Arguments Ok {A} a.
Arguments Raise {A} e.

Definition rbind {A B} (r : result A) (k : A -> result B) : result B :=
  match r with
  | Ok a => k a
  | Raise e => Raise e
  end.

(** [try: body  except Exception: handler] for pure computations *)
Definition try_except {A} (body : result A) (handler : pyexn -> result A) : result A :=
  match body with
  | Ok a => Ok a
  | Raise e => handler e
  end.

(** [l[i]] *)
Definition index {A} (l : list A) (i : nat) : result A :=
  match nth_error l i with
  | Some a => Ok a
  | None => Raise (PyException "list index out of range")
  end.

Notation "'let?' x := c 'in' k" := (rbind c (fun x => k))
  (at level 10, x name, c at level 100, k at level 200).

(* ------------------------------------------------------------------ *)
(** ** Python floats (IEEE-754 binary64) *)

Module PyFloat.

Inductive pyfloat : Type :=
| Fin (q : Q)        (* a finite double, as the rational it denotes, in lowest terms *)
| Inf (neg : bool)   (* [float("inf")], [float("-inf")] *)
| NaN.

(** [floor (log2 (n / d))] for positive [n], [d] *)
Definition ilog2 (n d : Z) : Z :=
  let e0 := Z.log2 n - Z.log2 d in
  if 0 <=? e0
  then (if d * 2 ^ e0 <=? n then e0 else e0 - 1)
  else (if d <=? n * 2 ^ (- e0) then e0 else e0 - 1).

(** The integer nearest to [n / d] ([d > 0], [n >= 0]), ties to even *)
Definition div_half_even (n d : Z) : Z :=
  let q := n / d in
  let r := n mod d in
  match 2 * r ?= d with
  | Lt => q
  | Gt => q + 1
  | Eq => if Z.even q then q else q + 1
  end.

(** [m * 2^e] as a rational in lowest terms *)
Definition scale2 (m e : Z) : Q :=
  if 0 <=? e then inject_Z (m * 2 ^ e)
  else Qred (Qmake m (Z.to_pos (2 ^ (- e)))).

(** [m * 10^e] as a rational in lowest terms *)
Definition scale10 (m e : Z) : Q :=
  if 0 <=? e then inject_Z (m * 10 ^ e)
  else Qred (Qmake m (Z.to_pos (10 ^ (- e)))).

(** Rounding of a real to binary64: 53 significant bits, least exponent
    [-1074], nearest with ties to even, overflow to infinity. *)
Definition round64 (q : Q) : pyfloat :=
  let n := Qnum q in
  let d := Zpos (Qden q) in
  if n =? 0 then Fin 0%Q
  else
    let a := Z.abs n in
    let e := ilog2 a d in
    let ex := Z.max (e - 52) (-1074) in
    let m := if 0 <=? ex then div_half_even a (d * 2 ^ ex)
             else div_half_even (a * 2 ^ (- ex)) d in
    if (971 <? ex) || ((ex =? 971) && (m =? 2 ^ 53)) then Inf (n <? 0)
    else Fin (scale2 (Z.sgn n * m) ex).

(** [float(n)] for an integer *)
Definition of_Z (z : Z) : pyfloat := round64 (inject_Z z).

Definition is_zero (q : Q) : bool := Qnum q =? 0.

Definition fmul (a b : pyfloat) : pyfloat :=
  match a, b with
  | NaN, _ | _, NaN => NaN
  | Fin x, Fin y => round64 (x * y)
  | Inf s, Fin y => if is_zero y then NaN else Inf (xorb s (Qnum y <? 0))
  | Fin x, Inf s => if is_zero x then NaN else Inf (xorb s (Qnum x <? 0))
  | Inf s, Inf t => Inf (xorb s t)
  end.

(** [a / b]; a zero divisor raises [ZeroDivisionError] *)
Definition fdiv (a b : pyfloat) : result pyfloat :=
  match a, b with
  | NaN, Fin y => if is_zero y then Raise (PyException "float division by zero") else Ok NaN
  | NaN, _ | _, NaN => Ok NaN
  | Fin x, Fin y =>
      if is_zero y then Raise (PyException "float division by zero")
      else Ok (round64 (x / y))
  | Inf s, Fin y =>
      if is_zero y then Raise (PyException "float division by zero")
      else Ok (Inf (xorb s (Qnum y <? 0)))
  | Fin _, Inf _ => Ok (Fin 0%Q)
  | Inf _, Inf _ => Ok NaN
  end.

Definition fsub (a b : pyfloat) : pyfloat :=
  match a, b with
  | NaN, _ | _, NaN => NaN
  | Fin x, Fin y => round64 (x - y)
  | Inf s, Fin _ => Inf s
  | Fin _, Inf s => Inf (negb s)
  | Inf s, Inf t => if Bool.eqb s t then NaN else Inf s
  end.

(** Comparison; [None] when an operand is NaN (every ordering test is then
    false). *)
Definition compare (a b : pyfloat) : option comparison :=
  match a, b with
  | NaN, _ | _, NaN => None
  | Fin x, Fin y => Some (Qcompare x y)
  | Inf s, Inf t => Some (if Bool.eqb s t then Eq else if s then Lt else Gt)
  | Inf s, Fin _ => Some (if s then Lt else Gt)
  | Fin _, Inf s => Some (if s then Gt else Lt)
  end.

(** [a > b] *)
Definition gt (a b : pyfloat) : bool :=
  match compare a b with Some Gt => true | _ => false end.

(** [a >= b] *)
Definition ge (a b : pyfloat) : bool :=
  match compare a b with Some Gt | Some Eq => true | _ => false end.

(** [a < b] *)
Definition lt (a b : pyfloat) : bool :=
  match compare a b with Some Lt => true | _ => false end.

(** Truth value of a float: non-zero. *)
Definition truthy (a : pyfloat) : bool :=
  match a with Fin q => negb (is_zero q) | _ => true end.

(** [int(a)]: truncation toward zero *)
Definition to_int (a : pyfloat) : result Z :=
  match a with
  | Fin q => Ok (Z.quot (Qnum q) (Zpos (Qden q)))
  | Inf _ => Raise (PyException "cannot convert float infinity to integer")
  | NaN => Raise (PyException "cannot convert float NaN to integer")
  end.

(** *** [float(s)] *)

(** A digit part: digits, single underscores allowed between two digits.
    Returns the value read, the number of digits and the unread text. *)
Fixpoint digitpart (s : string) (acc cnt : Z) : Z * Z * string :=
  match s with
  | EmptyString => (acc, cnt, s)
  | String c s' =>
      if PyStr.is_digit c then digitpart s' (acc * 10 + PyStr.digit_val c) (cnt + 1)
      else if Ascii.eqb c "_" then
        match s' with
        | String d _ =>
            if (PyStr.is_digit d && (0 <? cnt))%bool then digitpart s' acc cnt else (acc, cnt, s)
        | EmptyString => (acc, cnt, s)
        end
      else (acc, cnt, s)
  end.

Definition starts_with_digit (s : string) : bool :=
  match s with String c _ => PyStr.is_digit c | EmptyString => false end.

(** Optional sign: [(negative, rest)] *)
Definition read_sign (s : string) : bool * string :=
  match s with
  | String "-" s' => (true, s')
  | String "+" s' => (false, s')
  | _ => (false, s)
  end.

(** [exponent ::= ("e" | "E") [sign] digitpart], or nothing *)
Definition read_exponent (s : string) : option (Z * string) :=
  match s with
  | String c s' =>
      if (Ascii.eqb c "e" || Ascii.eqb c "E")%bool then
        let '(neg, s1) := read_sign s' in
        if starts_with_digit s1 then
          let '(v, _, rest) := digitpart s1 0 0 in
          Some (if neg then - v else v, rest)
        else None
      else Some (0, s)
  | EmptyString => Some (0, s)
  end.

(** [number ::= [digitpart] "." digitpart | digitpart ["."]]: the digits as
    one integer, the count of fraction digits, the unread text *)
Definition read_number (s : string) : option (Z * Z * string) :=
  if starts_with_digit s then
    let '(ip, _, r1) := digitpart s 0 0 in
    match r1 with
    | String "." r2 =>
        if starts_with_digit r2 then
          let '(all, nfrac, r3) := digitpart r2 ip 0 in Some (all, nfrac, r3)
        else Some (ip, 0, r2)
    | _ => Some (ip, 0, r1)
    end
  else
    match s with
    | String "." r2 =>
        if starts_with_digit r2 then
          let '(all, nfrac, r3) := digitpart r2 0 0 in Some (all, nfrac, r3)
        else None
    | _ => None
    end.

Definition value_error (s : string) : pyexn :=
  PyException ("could not convert string to float: '" ++ s ++ "'").

(** [float(s)]: surrounding whitespace, a sign, then [inf], [infinity], [nan]
    (any case) or a decimal number with an optional exponent. *)
Definition of_string (s : string) : result pyfloat :=
  let t := PyStr.strip s in
  let '(neg, body) := read_sign t in
  let low := PyStr.lower body in
  if (String.eqb low "inf" || String.eqb low "infinity")%bool then Ok (Inf neg)
  else if String.eqb low "nan" then Ok NaN
  else
    match read_number body with
    | None => Raise (value_error s)
    | Some (digits, nfrac, r) =>
        match read_exponent r with
        | Some (e, EmptyString) =>
            Ok (round64 (scale10 (if neg then - digits else digits) (e - nfrac)))
        | _ => Raise (value_error s)
        end
    end.

(** *** Formatting *)

Fixpoint zeros (n : nat) : string :=
  match n with O => EmptyString | S k => String "0" (zeros k) end.

(** The decimal digits of [z >= 0], left-padded with zeros to [width] *)
Definition pad_digits (width : nat) (z : Z) : string :=
  let d := PyStr.of_Z z in
  zeros (width - String.length d) ++ d.

(** [f"{a:.Nf}"]: fixed point with [prec] digits after the point, the exact
    value rounded to nearest, ties to even *)
Definition format_f (prec : nat) (a : pyfloat) : string :=
  match a with
  | NaN => "nan"
  | Inf s => if s then "-inf" else "inf"
  | Fin q =>
      let p := 10 ^ Z.of_nat prec in
      let r := div_half_even (Z.abs (Qnum q) * p) (Zpos (Qden q)) in
      let sign := if Qnum q <? 0 then "-" else "" in
      match prec with
      | O => sign ++ PyStr.of_Z r
      | _ => sign ++ PyStr.of_Z (r / p) ++ "." ++ pad_digits prec (r mod p)
      end
  end.

(** [floor (log10 (n / d))] for positive [n], [d] *)
Definition ilog10 (n d : Z) : Z :=
  let e0 := Z.log2 n - Z.log2 d in
  let est := (e0 * 30103) / 100000 in
  let ge10 (e : Z) : bool :=
    if 0 <=? e then d * 10 ^ e <=? n else d <=? n * 10 ^ (- e) in
  if ge10 (est + 1) then est + 1 else if ge10 est then est else est - 1.

(** The shortest digit string that reads back as the same double: tries
    [nd], [nd+1], ... significant digits.  Returns the digits as an integer
    of [nd'] digits and the decimal exponent of the first digit. *)
Fixpoint shortest (fuel : nat) (nd : Z) (q : Q) (e10 : Z) : Z * Z * Z :=
  let r := div_half_even
             (Qnum (q * scale10 1 (nd - 1 - e10))%Q)
             (Zpos (Qden (q * scale10 1 (nd - 1 - e10))%Q)) in
  let back := round64 (scale10 r (e10 - nd + 1)) in
  match fuel with
  | O => (r, nd, e10)
  | S k =>
      match back with
      | Fin q' => if Qeq_bool q' q
                  then (if r =? 10 ^ nd then (1, 1, e10 + 1) else (r, nd, e10))
                  else shortest k (nd + 1) q e10
      | _ => shortest k (nd + 1) q e10
      end
  end.

Fixpoint strip_zeros (fuel : nat) (r nd : Z) : Z * Z :=
  match fuel with
  | O => (r, nd)
  | S k => if (1 <? nd) && (r mod 10 =? 0) then strip_zeros k (r / 10) (nd - 1) else (r, nd)
  end.

(** [repr(a)] (also [str(a)] and [f"{a}"]) *)
Definition repr (a : pyfloat) : string :=
  match a with
  | NaN => "nan"
  | Inf s => if s then "-inf" else "inf"
  | Fin q =>
      if is_zero q then "0.0"
      else
        let aq := Qabs q in
        let sign := if Qnum q <? 0 then "-" else "" in
        let '(r0, nd0, e10) := shortest 17 1 aq (ilog10 (Qnum aq) (Zpos (Qden aq))) in
        let '(r, nd) := strip_zeros 17 r0 nd0 in
        let ds := PyStr.of_Z r in
        if (-4 <=? e10) && (e10 <? 16) then
          if e10 <? 0 then sign ++ "0." ++ zeros (Z.to_nat (- e10 - 1)) ++ ds
          else if nd - 1 <=? e10 then sign ++ ds ++ zeros (Z.to_nat (e10 - (nd - 1))) ++ ".0"
          else sign ++ String.substring 0 (Z.to_nat (e10 + 1)) ds ++ "."
                    ++ String.substring (Z.to_nat (e10 + 1)) (Z.to_nat (nd - 1 - e10)) ds
        else
          let mant := match ds with
                      | String c EmptyString => ds
                      | String c rest => String c ("." ++ rest)
                      | EmptyString => ds
                      end in
          sign ++ mant ++ "e" ++ (if e10 <? 0 then "-" else "+") ++ pad_digits 2 (Z.abs e10)
  end.

End PyFloat.
Export PyFloat(pyfloat, Fin, Inf, NaN).

(* ------------------------------------------------------------------ *)
(** ** Python integers: [int(s)] and [f"{n:02d}"] *)

Module PyInt.

(** [int(s)]: surrounding whitespace, a sign, decimal digits (single
    underscores allowed between digits), nothing else. *)
Definition of_string (s : string) : result Z :=
  let t := PyStr.strip s in
  let '(neg, body) := PyFloat.read_sign t in
  if PyFloat.starts_with_digit body then
    match PyFloat.digitpart body 0 0 with
    | (v, _, EmptyString) => Ok (if neg then - v else v)
    | _ => Raise (PyException ("invalid literal for int() with base 10: '" ++ s ++ "'"))
    end
  else Raise (PyException ("invalid literal for int() with base 10: '" ++ s ++ "'")).

(** [f"{n:02d}"]: at least two characters, zero-filled after the sign *)
Definition format_02d (n : Z) : string :=
  if n <? 0 then "-" ++ PyFloat.pad_digits 1 (- n) else PyFloat.pad_digits 2 n.

End PyInt.

(* ------------------------------------------------------------------ *)
(** ** The token helpers of [_DownloadWorker] *)

(** The longest prefix of ASCII digits and the rest: [[0-9]*] *)
Fixpoint span_digits (s : string) : string * string :=
  match s with
  | EmptyString => (EmptyString, EmptyString)
  | String c s' =>
      if PyStr.is_digit c
      then let '(d, r) := span_digits s' in (String c d, r)
      else (EmptyString, s)
  end.

(** [re.match(r"([0-9]+(?:\.[0-9]+)?)([KMG]i?B)", token)]: groups 1 and 2 of
    the match at the start of [token], if any.  Each greedy choice is forced
    (a digit or a dot is never a unit letter), so no backtracking is lost. *)
Definition re_match_size (token : string) : option (string * string) :=
  let '(ip, r1) := span_digits token in
  match ip with
  | EmptyString => None
  | _ =>
      let '(num, r2) :=
        match r1 with
        | String "." r1' =>
            let '(fp, r3) := span_digits r1' in
            match fp with
            | EmptyString => (ip, r1)
            | _ => (ip ++ "." ++ fp, r3)
            end
        | _ => (ip, r1)
        end in
      match r2 with
      | String u r4 =>
          if (Ascii.eqb u "K" || Ascii.eqb u "M" || Ascii.eqb u "G")%bool then
            match r4 with
            | String "i" (String "B" _) => Some (num, String u "iB")
            | String "B" _ => Some (num, String u "B")
            | _ => None
            end
          else None
      | EmptyString => None
      end
  end.

(** [_DownloadWorker._humanize_yt_dlp_size] *)
Definition _humanize_yt_dlp_size (token : string) : result string :=
  try_except
    (match re_match_size token with
     | None => Ok ""
     | Some (g1, unit) =>
         let? value := PyFloat.of_string g1 in
         if PyStr.startswith unit "G" then Ok (PyFloat.format_f 2 value ++ " GB")
         else if PyStr.startswith unit "M" then Ok (PyFloat.format_f 2 value ++ " MB")
         else if PyStr.startswith unit "K" then Ok (PyFloat.format_f 0 value ++ " KB")
         else Ok (PyFloat.repr value ++ " B")
     end)
    (fun _ => Ok "").

(** [1024.0], [1024.0 ** 2], [1024.0 ** 3] *)
Definition f1024 (k : Z) : pyfloat := Fin (inject_Z (1024 ^ k)).

(** [_DownloadWorker._size_token_to_bytes]; [None] is Python's [None] *)
Definition _size_token_to_bytes (token : string) : result (option pyfloat) :=
  try_except
    (match re_match_size token with
     | None => Ok None
     | Some (g1, unit) =>
         let? value := PyFloat.of_string g1 in
         let factor :=
           if PyStr.startswith unit "K" then f1024 1
           else if PyStr.startswith unit "M" then f1024 2
           else if PyStr.startswith unit "G" then f1024 3
           else f1024 0 in
         Ok (Some (PyFloat.fmul value factor))
     end)
    (fun _ => Ok None).

(** [_DownloadWorker._humanize_bytes] *)
Definition _humanize_bytes (nbytes : pyfloat) : result string :=
  try_except
    (if PyFloat.ge nbytes (f1024 3) then
       let? v := PyFloat.fdiv nbytes (f1024 3) in Ok (PyFloat.format_f 2 v ++ " GB")
     else if PyFloat.ge nbytes (f1024 2) then
       let? v := PyFloat.fdiv nbytes (f1024 2) in Ok (PyFloat.format_f 2 v ++ " MB")
     else if PyFloat.ge nbytes (f1024 1) then
       let? v := PyFloat.fdiv nbytes (f1024 1) in Ok (PyFloat.format_f 0 v ++ " KB")
     else
       let? n := PyFloat.to_int nbytes in Ok (PyStr.of_Z n ++ " B"))
    (fun _ => Ok "").

(** [_DownloadWorker._humanize_speed] *)
Definition _humanize_speed (token : string) : result string :=
  try_except
    (if PyStr.endswith (PyStr.lower token) "/s" then
       let base := PyStr.drop_last 2 token in
       let? text := _humanize_yt_dlp_size base in
       if PyStr.truthy text then Ok (text ++ "/s") else Ok token
     else Ok token)
    (fun _ => Ok token).

(** [_DownloadWorker._format_eta] *)
Definition _format_eta (eta_token : string) : result string :=
  try_except
    (let parts := PyStr.split_char ":" eta_token in
     match parts with
     | [mm; ss] =>
         let? m := PyInt.of_string mm in
         let? s := PyInt.of_string ss in
         Ok (PyInt.format_02d m ++ ":" ++ PyInt.format_02d s)
     | [hh; mm; ss] =>
         let? h := PyInt.of_string hh in
         let? m := PyInt.of_string mm in
         let? s := PyInt.of_string ss in
         Ok (PyStr.of_Z h ++ ":" ++ PyInt.format_02d m ++ ":" ++ PyInt.format_02d s)
     | _ =>
         let? f := PyFloat.of_string eta_token in
         let? secs := PyFloat.to_int f in
         if 3600 <=? secs then
           let h := secs / 3600 in
           let m := (secs mod 3600) / 60 in
           let s := secs mod 60 in
           Ok (PyStr.of_Z h ++ ":" ++ PyInt.format_02d m ++ ":" ++ PyInt.format_02d s)
         else
           let m := secs / 60 in
           let s := secs mod 60 in
           Ok (PyInt.format_02d m ++ ":" ++ PyInt.format_02d s)
     end)
    (fun _ => Ok eta_token).

(* ------------------------------------------------------------------ *)
(** ** The file system, as [os], [os.path] and [glob] show it

    Paths are POSIX paths.  The file system is the list of its entries in
    directory-scan order (the order in which [glob] reports them).  An entry is
    a regular file or a directory; [locked] marks an entry that the operating
    system refuses to delete (a file held open by another process on Windows,
    a file in a read-only directory). *)

Module FS.

Record entry : Type := {
  is_file : bool;
  size : Z;
  ctime : Q;
  locked : bool
}.

Definition t : Type := list (string * entry).

Fixpoint lookup (fs : t) (p : string) : option entry :=
  match fs with
  | [] => None
  | (k, e) :: rest => if String.eqb k p then Some e else lookup rest p
  end.

(** [os.path.exists(p)] *)
Definition exists_ (fs : t) (p : string) : bool :=
  match lookup fs p with Some _ => true | None => false end.

(** [os.path.isfile(p)] *)
Definition isfile (fs : t) (p : string) : bool :=
  match lookup fs p with Some e => is_file e | None => false end.

(** [os.path.getsize(p)] *)
Definition getsize (fs : t) (p : string) : result Z :=
  match lookup fs p with Some e => Ok (size e) | None => Raise FileNotFoundError end.

(** [os.path.getctime(p)] *)
Definition getctime (fs : t) (p : string) : result Q :=
  match lookup fs p with Some e => Ok (ctime e) | None => Raise FileNotFoundError end.

(** [os.path.join(a, b)] *)
Definition join (a b : string) : string :=
  if PyStr.startswith b "/" then b
  else if (negb (PyStr.truthy a) || PyStr.endswith a "/")%bool then a ++ b
  else a ++ "/" ++ b.

(** [os.path.basename(p)]: the text after the last ["/"] *)
Definition basename (p : string) : string :=
  List.last (PyStr.split_char "/" p) EmptyString.

(** The name of [p] inside directory [dir], when [p] is a direct child of
    [dir]: [p = os.path.join(dir, name)] with [name] a single path component *)
Definition child_name (dir p : string) : option string :=
  match PyStr.drop_prefix (join dir EmptyString) p with
  | Some name =>
      if (PyStr.truthy name && negb (PyStr.contains "/" name))%bool then Some name else None
  | None => None
  end.

(** [glob.has_magic(p)]: one of the pattern characters [*], [?] and [[] is
    in [p] *)
Definition has_magic (p : string) : bool :=
  (PyStr.contains "*" p || PyStr.contains "?" p || PyStr.contains "[" p)%bool.

(** [glob.glob(os.path.join(dir, "*" + suffix))] for a directory [dir] with
    [has_magic dir = false], which [glob] then takes as it is written: the
    children of [dir] whose name ends with [suffix] and does not start with
    a dot (a leading ["*"] never matches a hidden name), in scan order.  (In
    a directory with a pattern character [glob] sees a pattern, and searches
    the directories that it matches.) *)
Definition glob (fs : t) (dir suffix : string) : list string :=
  List.map fst
    (List.filter
       (fun pe =>
          match child_name dir (fst pe) with
          | Some name => (negb (PyStr.startswith name ".") && PyStr.endswith name suffix)%bool
          | None => false
          end)
       fs).

Definition delete (fs : t) (p : string) : t :=
  List.filter (fun pe => negb (String.eqb (fst pe) p)) fs.

(** [os.remove(p)]: deletes a regular file; raises for a missing path, a
    directory, or a file that cannot be deleted. *)
Definition remove (fs : t) (p : string) : result t :=
  match lookup fs p with
  | None => Raise FileNotFoundError
  | Some e =>
      if (is_file e && negb (locked e))%bool then Ok (delete fs p)
      else Raise PermissionError
  end.

(** [max(paths, key=os.path.getctime)] for a non-empty list: the first path
    with the greatest creation time *)
Fixpoint max_by_ctime (fs : t) (best : string) (best_key : Q) (paths : list string)
  : result string :=
  match paths with
  | [] => Ok best
  | p :: rest =>
      let? k := getctime fs p in
      match Qcompare k best_key with
      | Gt => max_by_ctime fs p k rest
      | _ => max_by_ctime fs best best_key rest
      end
  end.

Definition latest (fs : t) (paths : list string) : result string :=
  match paths with
  | [] => Raise (PyException "max() arg is an empty sequence")
  | p :: rest => let? k := getctime fs p in max_by_ctime fs p k rest
  end.

End FS.

(* ------------------------------------------------------------------ *)
(** ** The worker object, its signals and the state of one [run] *)

(** A [subprocess.Popen] handle, as [poll()] shows it *)
Inductive popen : Type :=
| Running
| Exited (returncode : Z).

(** The attributes that [_DownloadWorker.__init__] creates *)
Record worker : Type := {
  _url : string;
  _output : string;
  _mode : string;
  _no_playlist : bool;
  _channel : string;
  _filesize : option Z;
  _cancelled : bool;
  _process : option popen;
  _download_started : bool;
  _real_progress_detected : bool;
  _last_progress_value : Z;
  _download_size_bytes : pyfloat
}.

(** [_DownloadWorker(url, output_dir, mode, no_playlist, channel)] *)
Definition __init__ (url output_dir mode : string) (no_playlist : bool) (channel : string)
  : worker :=
  {| _url := url; _output := output_dir; _mode := mode; _no_playlist := no_playlist;
     _channel := channel; _filesize := None; _cancelled := false; _process := None;
     _download_started := false; _real_progress_detected := false;
     _last_progress_value := 0; _download_size_bytes := Fin 0%Q |}.

Definition set_cancelled (v : bool) (w : worker) : worker :=
  {| _url := _url w; _output := _output w; _mode := _mode w; _no_playlist := _no_playlist w; _channel := _channel w; _filesize := _filesize w; _cancelled := v; _process := _process w; _download_started := _download_started w; _real_progress_detected := _real_progress_detected w; _last_progress_value := _last_progress_value w; _download_size_bytes := _download_size_bytes w |}.

Definition set_process (v : option popen) (w : worker) : worker :=
  {| _url := _url w; _output := _output w; _mode := _mode w; _no_playlist := _no_playlist w; _channel := _channel w; _filesize := _filesize w; _cancelled := _cancelled w; _process := v; _download_started := _download_started w; _real_progress_detected := _real_progress_detected w; _last_progress_value := _last_progress_value w; _download_size_bytes := _download_size_bytes w |}.

Definition set_download_started (v : bool) (w : worker) : worker :=
  {| _url := _url w; _output := _output w; _mode := _mode w; _no_playlist := _no_playlist w; _channel := _channel w; _filesize := _filesize w; _cancelled := _cancelled w; _process := _process w; _download_started := v; _real_progress_detected := _real_progress_detected w; _last_progress_value := _last_progress_value w; _download_size_bytes := _download_size_bytes w |}.

Definition set_real_progress_detected (v : bool) (w : worker) : worker :=
  {| _url := _url w; _output := _output w; _mode := _mode w; _no_playlist := _no_playlist w; _channel := _channel w; _filesize := _filesize w; _cancelled := _cancelled w; _process := _process w; _download_started := _download_started w; _real_progress_detected := v; _last_progress_value := _last_progress_value w; _download_size_bytes := _download_size_bytes w |}.

Definition set_last_progress_value (v : Z) (w : worker) : worker :=
  {| _url := _url w; _output := _output w; _mode := _mode w; _no_playlist := _no_playlist w; _channel := _channel w; _filesize := _filesize w; _cancelled := _cancelled w; _process := _process w; _download_started := _download_started w; _real_progress_detected := _real_progress_detected w; _last_progress_value := v; _download_size_bytes := _download_size_bytes w |}.

Definition set_download_size_bytes (v : pyfloat) (w : worker) : worker :=
  {| _url := _url w; _output := _output w; _mode := _mode w; _no_playlist := _no_playlist w; _channel := _channel w; _filesize := _filesize w; _cancelled := _cancelled w; _process := _process w; _download_started := _download_started w; _real_progress_detected := _real_progress_detected w; _last_progress_value := _last_progress_value w; _download_size_bytes := v |}.

(** What the worker appends to [ytdlp_debug.log] (opening or writing the file
    may fail; the failure is swallowed by a bare [except]) *)
Inductive log_record : Type :=
| ErrorLine (line : string)          (* "[ERROR] {line}\n" *)
| DuplicateLine (line : string)      (* "[ERROR DUPLICADO] {line}\n" *)
| Traceback (message : string).      (* "\n[ERROR] {traceback.format_exc()}\n" for an exception with this message *)

(** The observable actions of a run, in order: the five Qt signals, the log
    records, and what the cancellation branch of the loop asks for. *)
Inductive event : Type :=
| progressChanged (value : Z)
| sizeTextChanged (text : string)
| downloadStatsChanged (text : string)
| finished (title path : string)
| errorOccurred (msg : string)
| debug_log (r : log_record)
| proc_stop (timeout : Z)     (* [proc.terminate(); proc.wait(timeout=...)], exceptions ignored *)
| cleanup_partial_files.      (* the call of [self._cleanup_partial_files()] *)

(** The worker attributes and the local variables of [run], with the events
    emitted so far *)
Record run_state : Type := {
  self : worker;
  last_path : option string;
  download_completed : bool;
  conversion_started : bool;
  last_progress_time : pyfloat;
  error_detected : bool;
  error_message : string;
  total_size_text : string;
  total_size_bytes : option pyfloat;
  last_pct_val : option pyfloat;
  events : list event
}.

Definition set_self (v : worker) (s : run_state) : run_state :=
  {| self := v; last_path := last_path s; download_completed := download_completed s; conversion_started := conversion_started s; last_progress_time := last_progress_time s; error_detected := error_detected s; error_message := error_message s; total_size_text := total_size_text s; total_size_bytes := total_size_bytes s; last_pct_val := last_pct_val s; events := events s |}.

Definition set_last_path (v : option string) (s : run_state) : run_state :=
  {| self := self s; last_path := v; download_completed := download_completed s; conversion_started := conversion_started s; last_progress_time := last_progress_time s; error_detected := error_detected s; error_message := error_message s; total_size_text := total_size_text s; total_size_bytes := total_size_bytes s; last_pct_val := last_pct_val s; events := events s |}.

Definition set_download_completed (v : bool) (s : run_state) : run_state :=
  {| self := self s; last_path := last_path s; download_completed := v; conversion_started := conversion_started s; last_progress_time := last_progress_time s; error_detected := error_detected s; error_message := error_message s; total_size_text := total_size_text s; total_size_bytes := total_size_bytes s; last_pct_val := last_pct_val s; events := events s |}.

Definition set_conversion_started (v : bool) (s : run_state) : run_state :=
  {| self := self s; last_path := last_path s; download_completed := download_completed s; conversion_started := v; last_progress_time := last_progress_time s; error_detected := error_detected s; error_message := error_message s; total_size_text := total_size_text s; total_size_bytes := total_size_bytes s; last_pct_val := last_pct_val s; events := events s |}.

Definition set_last_progress_time (v : pyfloat) (s : run_state) : run_state :=
  {| self := self s; last_path := last_path s; download_completed := download_completed s; conversion_started := conversion_started s; last_progress_time := v; error_detected := error_detected s; error_message := error_message s; total_size_text := total_size_text s; total_size_bytes := total_size_bytes s; last_pct_val := last_pct_val s; events := events s |}.

Definition set_error_detected (v : bool) (s : run_state) : run_state :=
  {| self := self s; last_path := last_path s; download_completed := download_completed s; conversion_started := conversion_started s; last_progress_time := last_progress_time s; error_detected := v; error_message := error_message s; total_size_text := total_size_text s; total_size_bytes := total_size_bytes s; last_pct_val := last_pct_val s; events := events s |}.

Definition set_error_message (v : string) (s : run_state) : run_state :=
  {| self := self s; last_path := last_path s; download_completed := download_completed s; conversion_started := conversion_started s; last_progress_time := last_progress_time s; error_detected := error_detected s; error_message := v; total_size_text := total_size_text s; total_size_bytes := total_size_bytes s; last_pct_val := last_pct_val s; events := events s |}.

Definition set_total_size_text (v : string) (s : run_state) : run_state :=
  {| self := self s; last_path := last_path s; download_completed := download_completed s; conversion_started := conversion_started s; last_progress_time := last_progress_time s; error_detected := error_detected s; error_message := error_message s; total_size_text := v; total_size_bytes := total_size_bytes s; last_pct_val := last_pct_val s; events := events s |}.

Definition set_total_size_bytes (v : option pyfloat) (s : run_state) : run_state :=
  {| self := self s; last_path := last_path s; download_completed := download_completed s; conversion_started := conversion_started s; last_progress_time := last_progress_time s; error_detected := error_detected s; error_message := error_message s; total_size_text := total_size_text s; total_size_bytes := v; last_pct_val := last_pct_val s; events := events s |}.

Definition set_last_pct_val (v : option pyfloat) (s : run_state) : run_state :=
  {| self := self s; last_path := last_path s; download_completed := download_completed s; conversion_started := conversion_started s; last_progress_time := last_progress_time s; error_detected := error_detected s; error_message := error_message s; total_size_text := total_size_text s; total_size_bytes := total_size_bytes s; last_pct_val := v; events := events s |}.

Definition set_events (v : list event) (s : run_state) : run_state :=
  {| self := self s; last_path := last_path s; download_completed := download_completed s; conversion_started := conversion_started s; last_progress_time := last_progress_time s; error_detected := error_detected s; error_message := error_message s; total_size_text := total_size_text s; total_size_bytes := total_size_bytes s; last_pct_val := last_pct_val s; events := v |}.

(* ------------------------------------------------------------------ *)
(** ** Statements: state, exceptions, emitted events *)

(** A statement acts on a state and either completes with a value or raises;
    what it did to the state before raising stays done. *)
Definition St (S A : Type) : Type := S -> S * result A.

Definition ret {S A} (a : A) : St S A := fun s => (s, Ok a).

Definition bind {S A B} (m : St S A) (k : A -> St S B) : St S B :=
  fun s =>
    match m s with
    | (s', Ok a) => k a s'
    | (s', Raise e) => (s', Raise e)
    end.

Definition raise {S A} (e : pyexn) : St S A := fun s => (s, Raise e).

Definition get {S} : St S S := fun s => (s, Ok s).

Definition modify {S} (f : S -> S) : St S unit := fun s => (f s, Ok tt).

(** A call of a pure helper *)
Definition lift {S A} (r : result A) : St S A := fun s => (s, r).

(** [try: m  except Exception as e: h e] *)
Definition try_ {S A} (m : St S A) (h : pyexn -> St S A) : St S A :=
  fun s =>
    match m s with
    | (s', Ok a) => (s', Ok a)
    | (s', Raise e) => h e s'
    end.

(** [print(...)]: no effect on the state or the signals *)
Definition print_ {S} : St S unit := ret tt.

Definition when {S} (b : bool) (m : St S unit) : St S unit := if b then m else ret tt.

Notation "x <- c1 ;; c2" := (bind c1 (fun x => c2))
  (at level 61, c1 at next level, right associativity).
Notation "c1 ;; c2" := (bind c1 (fun _ => c2))
  (at level 61, right associativity).

(** The statements of [run] *)
Definition M : Type -> Type := St run_state.

(** [signal.emit(...)], and the other observable actions *)
Definition emit (e : event) : M unit :=
  modify (fun s => set_events (events s ++ [e])%list s).

Definition modify_self (f : worker -> worker) : M unit :=
  modify (fun s => set_self (f (self s)) s).

(* ------------------------------------------------------------------ *)
(** ** [_DownloadWorker.run] *)

(** [_DownloadWorker._get_last_progress] *)
Definition _get_last_progress (w : worker) : Z := 80.

(** The format selector [fmt] that [run] computes from [self._mode] *)
Definition fmt (mode : string) : result string :=
  if String.eqb mode "video_best" then
    Ok "bv*[ext=mp4]+ba[ext=m4a]/bv*+ba/b[ext=mp4]/b"
  else if PyStr.startswith mode "video_" then
    let? res := index (PyStr.split_char "_" mode) 1 in
    Ok ("bestvideo[height<=" ++ res ++ "][ext=mp4]+bestaudio[ext=m4a]/bestvideo[height<="
        ++ res ++ "]+bestaudio/best[height<=" ++ res ++ "][ext=mp4]/best[height<="
        ++ res ++ "]/best[ext=mp4]/best")
  else if PyStr.startswith mode "mp3_" then Ok "bestaudio/best"
  else if String.eqb mode "m4a_best" then Ok "bestaudio[ext=m4a]/bestaudio/best"
  else if String.eqb mode "ogg_best" then Ok "bestaudio/best"
  else if String.eqb mode "wma_best" then Ok "bestaudio/best"
  else Ok "b[ext=mp4]/b".

Definition extract_audio (audio_format quality codec : string) : list string :=
  ["--extract-audio"; "--audio-format"; audio_format; "--audio-quality"; quality;
   "--prefer-ffmpeg"; "--postprocessor-args"; "ffmpeg:-acodec " ++ codec].

(** The command line [args] of the external downloader *)
Definition args (w : worker) : result (list string) :=
  let mode := _mode w in
  let? f := fmt mode in
  let base :=
    ["yt-dlp"; "-f"; f; "--prefer-ffmpeg"; "-o"; FS.join (_output w) "%(title)s.%(ext)s";
     "--newline"; "--progress"; "--no-overwrites"; "--restrict-filenames"; _url w] in
  let base := if _no_playlist w then (base ++ ["--no-playlist"])%list else base in
  if PyStr.startswith mode "mp3_" then
    let? q := index (PyStr.split_char "_" mode) 1 in
    Ok (base ++ extract_audio "mp3" (q ++ "k") "libmp3lame")%list
  else if String.eqb mode "ogg_best" then Ok (base ++ extract_audio "vorbis" "192k" "libvorbis")%list
  else if String.eqb mode "ogg_320" then Ok (base ++ extract_audio "vorbis" "320k" "libvorbis")%list
  else if String.eqb mode "wma_best" then Ok (base ++ extract_audio "wma" "192k" "wmav2")%list
  else if String.eqb mode "wma_320" then Ok (base ++ extract_audio "wma" "320k" "wmav2")%list
  else if String.eqb mode "m4a_best" then Ok (base ++ extract_audio "m4a" "192k" "aac")%list
  else if String.eqb mode "m4a_320" then Ok (base ++ extract_audio "m4a" "320k" "aac")%list
  else if (String.eqb mode "video_best" || PyStr.startswith mode "video_")%bool then
    Ok (base ++ ["--merge-output-format"; "mp4"])%list
  else Ok base.

(** One line read from the process' output, with what the iteration that
    handles it reads from its surroundings: the clock, and the flag that
    [cancel] sets from the other thread. *)
Record stdout_line : Type := {
  text : string;
  now : pyfloat;               (* [time.time()] *)
  cancel_requested : bool      (* [self._cancelled] at the top of the iteration *)
}.

(** The external process of one run and the disk as the post-run checks find
    it *)
Record run_env : Type := {
  launch : result unit;        (* [subprocess.Popen(args, ...)] *)
  started_at : pyfloat;        (* [time.time()] before the loop *)
  stdout : list stdout_line;   (* [proc.stdout] *)
  returncode : Z;              (* [proc.wait()] *)
  disk : FS.t
}.

Definition init_state (w : worker) (env : run_env) : run_state :=
  {| self := w; last_path := None; download_completed := false;
     conversion_started := false; last_progress_time := started_at env;
     error_detected := false; error_message := ""; total_size_text := "";
     total_size_bytes := None; last_pct_val := None; events := [] |}.

Definition has (needle line : string) : bool := PyStr.contains needle line.

(** The error markers and the friendlier messages for known phrases *)
Definition scan_errors (line : string) : M unit :=
  when (has "ERROR:" line || has "Error:" line)
    (modify (set_error_detected true) ;;
     modify (set_error_message line) ;;
     emit (debug_log (ErrorLine line))) ;;
  st <- get ;;
  let low := PyStr.lower line in
  let failing := (has "error" low || has "failed" low)%bool in
  if (has "No video formats found" line || has "requested format not available" line)%bool then
    raise (PyException "No se encontraron formatos de video disponibles para esta URL")
  else if (has "Unsupported URL" line || has "is not a valid URL" line)%bool then
    raise (PyException "La URL proporcionada no es válida o no está soportada")
  else if (has "Private video" line || has "Sign in to confirm your age" line)%bool then
    raise (PyException "Este video es privado o requiere verificación de edad")
  else if has "This video is unavailable" line then
    raise (PyException "Este video no está disponible")
  else if has "Video unavailable" line then
    raise (PyException "Video no disponible. Puede haber sido eliminado o marcado como privado")
  else if (has "requested format not available" line || has "format not available" line)%bool then
    print_
  else if (has "has already been downloaded" line && negb (download_completed st))%bool then
    print_
  else if (has "WARNING:" line && (has "format not available" line || has "requested format" line))%bool then
    print_
  else if (has "Skipping" line && has "format not available" line)%bool then
    print_
  else if (has "already exists" line || has "file already exists" line)%bool then
    modify (set_error_detected true) ;;
    modify (set_error_message
              "El archivo ya existe. Por favor, elimina el archivo existente o elige un nombre diferente.") ;;
    emit (debug_log (DuplicateLine line))
  else if (has "ffmpeg" low && failing)%bool then print_
  else if (has "conversion" low && failing)%bool then print_
  else if (has "codec" low && (failing || has "not found" low))%bool then print_
  else if (has "aac" low && failing)%bool then print_
  else if (has "vorbis" low && failing)%bool then print_
  else if (has "wma" low && failing)%bool then print_
  else ret tt.

(** The crawl value: [min(94, self._get_last_progress() + 1)] *)
Definition crawl_value (w : worker) : Z := Z.min 94 (_get_last_progress w + 1).

(** The crawl that is driven by the clock *)
Definition timed_crawl (current_time : pyfloat) : M unit :=
  st <- get ;;
  when (PyFloat.gt (PyFloat.fsub current_time (last_progress_time st)) (Fin 1%Q)
        && download_completed st && conversion_started st)
    (emit (progressChanged (crawl_value (self st))) ;;
     modify (set_last_progress_time current_time)).

Definition destination (line : string) : M unit :=
  when (PyStr.startswith line "[download] Destination:")
    (parts <- lift (index (PyStr.split1 "Destination:" line) 1) ;;
     modify (set_last_path (Some (PyStr.strip parts))) ;;
     modify_self (set_download_started true) ;;
     emit (progressChanged 5)).

(** The first token that ends with ["%"], without its trailing ["%"]s *)
Fixpoint find_pct (parts : list string) : option string :=
  match parts with
  | [] => None
  | token :: rest =>
      if PyStr.endswith token "%" then Some (PyStr.rstrip_char "%" token)
      else find_pct rest
  end.

(** [0.75] and [0.1] as doubles *)
Definition f0_75 : pyfloat := Fin (3 # 4).
Definition f0_1 : pyfloat := PyFloat.round64 (1 # 10).

(** [int(pct_int * 0.75)] *)
Definition adjusted (pct_int : Z) : result Z :=
  PyFloat.to_int (PyFloat.fmul (PyFloat.of_Z pct_int) f0_75).

(** [line.split(' of ', 1)[1].split()[0]] *)
Definition size_token_of (line : string) : result string :=
  let? after_of := index (PyStr.split1 " of " line) 1 in
  index (PyStr.split after_of) 0.

(** [(last_pct_val / 100.0) * float(total_size_bytes)] *)
Definition downloaded_bytes (last_pct_val total_size_bytes : pyfloat) : result pyfloat :=
  let? fraction := PyFloat.fdiv last_pct_val (Fin 100%Q) in
  Ok (PyFloat.fmul fraction total_size_bytes).

(** "Extraer porcentaje": the percent token, the emitted percent and the
    detection of real progress *)
Definition percent_part (line : string) (current_time : pyfloat) : M unit :=
  let parts := PyStr.split line in
  match find_pct parts with
  | Some pct_str =>
      v <- lift (PyFloat.of_string pct_str) ;;
      modify (set_last_pct_val (Some v)) ;;
      pct_int <- lift (PyFloat.to_int v) ;;
      adjusted_pct <- lift (adjusted pct_int) ;;
      emit (progressChanged (Z.max 5 (Z.min 75 adjusted_pct))) ;;
      modify (set_last_progress_time current_time) ;;
      st <- get ;;
      when (_last_progress_value (self st) <? pct_int)
        (modify_self (set_real_progress_detected true) ;;
         modify_self (set_last_progress_value pct_int))
  | None => ret tt
  end.

(** "Extraer tamaño total": the token after [' of '] *)
Definition size_part (line : string) : M unit :=
  when (has " of " line)
    (size_token <- lift (size_token_of line) ;;
     human_text <- lift (_humanize_yt_dlp_size size_token) ;;
     st <- get ;;
     when (PyStr.truthy human_text && negb (String.eqb human_text (total_size_text st)))
       (modify (set_total_size_text human_text) ;;
        when (negb (download_completed st)) (emit (sizeTextChanged human_text))) ;;
     bytes <- lift (_size_token_to_bytes size_token) ;;
     modify (set_total_size_bytes bytes) ;;
     match bytes with
     | Some b => when (PyFloat.truthy b) (modify_self (set_download_size_bytes b))
     | None => ret tt
     end).

(** "Extraer velocidad": [speed_text] *)
Definition speed_part (line : string) : M string :=
  if has " at " line then
    after_at <- lift (index (PyStr.split1 " at " line) 1) ;;
    speed_token <- lift (index (PyStr.split after_at) 0) ;;
    lift (_humanize_speed speed_token)
  else ret "".

(** "Extraer ETA": [eta_text] *)
Definition eta_part (line : string) : M string :=
  if has " ETA " line then
    lift (try_except
            (let? eta_part := index (PyStr.split1 " ETA " line) 1 in
             index (PyStr.split eta_part) 0)
            (fun _ => Ok ""))
  else ret "".

(** "Construir texto de estado": the composite status text *)
Definition status_part (speed_text eta_text : string) : M unit :=
  st <- get ;;
  match last_pct_val st, total_size_bytes st with
  | Some pct, Some total =>
      when (PyStr.truthy (total_size_text st) && PyFloat.truthy total)
        (done <- lift (downloaded_bytes pct total) ;;
         downloaded_human <- lift (_humanize_bytes done) ;;
         let status := "Descargando… " ++ downloaded_human ++ " de " ++ total_size_text st in
         let status := if PyStr.truthy speed_text then status ++ " — " ++ speed_text else status in
         status <-
           (if PyStr.truthy eta_text then
              eta_fmt <- lift (_format_eta eta_text) ;;
              ret (if PyStr.truthy eta_fmt then status ++ " — " ++ eta_fmt ++ " restantes"
                   else status)
            else ret status) ;;
         emit (downloadStatsChanged status))
  | _, _ => ret tt
  end.

(** The body of the [try] that reads a ["[download] ... %"] line *)
Definition progress_body (line : string) (current_time : pyfloat) : M unit :=
  percent_part line current_time ;;
  size_part line ;;
  speed_text <- speed_part line ;;
  eta_text <- eta_part line ;;
  status_part speed_text eta_text.

Definition progress (line : string) (current_time : pyfloat) : M unit :=
  when (PyStr.startswith line "[download]" && has "%" line)
    (try_ (progress_body line current_time) (fun _ => ret tt)).

Definition download_end (line : string) (current_time : pyfloat) : M unit :=
  st <- get ;;
  when (PyStr.startswith line "[download] 100%"
        || (has "Destination:" line && download_completed st))
    (modify (set_download_completed true) ;;
     emit (progressChanged 75) ;;
     modify (set_last_progress_time current_time)).

Definition conversion_start (line : string) (current_time : pyfloat) : M unit :=
  when (has "Extracting audio" line || has "Merging formats" line)
    (modify (set_download_completed true) ;;
     modify (set_conversion_started true) ;;
     emit (progressChanged 80) ;;
     modify (set_last_progress_time current_time)).

Definition conversion_indicators : list string :=
  ["Deleting original file"; "Correcting container"; "Fixing DASH";
   "Merging formats"; "Converting"; "Postprocessing"; "Extracting audio";
   "Destination:"; "Writing metadata"; "ffmpeg"; "ETA"; "at"].

(** [for indicator in conversion_indicators: if ...: ...; break] *)
Fixpoint crawl (indicators : list string) (line : string) (current_time : pyfloat) : M unit :=
  match indicators with
  | [] => ret tt
  | indicator :: rest =>
      st <- get ;;
      if (has indicator line && download_completed st)%bool then
        modify (set_conversion_started true) ;;
        emit (progressChanged (crawl_value (self st))) ;;
        modify (set_last_progress_time current_time)
      else crawl rest line current_time
  end.

Definition conversion_end (line : string) (current_time : pyfloat) : M unit :=
  st <- get ;;
  when (download_completed st
        && (has "has already been downloaded" line || has "Post-process file" line
            || has "Finished downloading" line))
    (emit (progressChanged 95) ;;
     modify (set_last_progress_time current_time)).

(** One iteration of the loop over [proc.stdout], after the cancellation
    test *)
Definition process_line (ln : stdout_line) : M unit :=
  let line := PyStr.strip (text ln) in
  let current_time := now ln in
  scan_errors line ;;
  timed_crawl current_time ;;
  destination line ;;
  progress line current_time ;;
  download_end line current_time ;;
  conversion_start line current_time ;;
  crawl conversion_indicators line current_time ;;
  conversion_end line current_time.

Inductive loop_exit : Type :=
| Exhausted        (* the process closed its output *)
| Returned.        (* [return] from the cancellation branch *)

(** [for line in proc.stdout: ...] *)
Fixpoint for_lines (lines : list stdout_line) : M loop_exit :=
  match lines with
  | [] => ret Exhausted
  | ln :: rest =>
      if cancel_requested ln then
        emit (proc_stop 2) ;;
        emit cleanup_partial_files ;;
        ret Returned
      else
        process_line ln ;;
        for_lines rest
  end.

Definition msg_no_file : string :=
  "Error: La descarga se completó pero no se encontró ningún archivo. La calidad solicitada puede no estar disponible.".
Definition msg_no_valid_file : string :=
  "Error: La descarga se completó pero no se encontró ningún archivo válido. La calidad solicitada puede no estar disponible.".
Definition msg_too_small : string :=
  "Error: El archivo descargado es demasiado pequeño. La calidad solicitada puede no estar disponible para este video.".
Definition msg_not_started : string :=
  "Error: La descarga no comenzó realmente. La calidad solicitada puede no estar disponible.".
Definition msg_no_progress : string :=
  "Error: No se detectó progreso real de descarga. La calidad solicitada puede no estar disponible.".

Definition path_exists (fs : FS.t) (o : option string) : bool :=
  match o with Some p => (PyStr.truthy p && FS.exists_ fs p)%bool | None => false end.

(** "Verificar que el archivo realmente se haya descargado": without an
    existing destination, the newest entry of the output directory is taken *)
Definition recover (env : run_env) : M unit :=
  let fs := disk env in
  st <- get ;;
  when (negb (path_exists fs (last_path st)))
    (let output_files := FS.glob fs (_output (self st)) "" in
     match output_files with
     | [] => raise (PyException msg_no_file)
     | _ =>
         latest_file <- lift (FS.latest fs output_files) ;;
         if FS.isfile fs latest_file then modify (set_last_path (Some latest_file))
         else raise (PyException msg_no_valid_file)
     end).

(** "Verificar que el archivo tenga un tamaño razonable", and that the
    download was a real one *)
Definition check_artifact (env : run_env) : M unit :=
  let fs := disk env in
  st <- get ;;
  match last_path st with
  | Some p =>
      when (PyStr.truthy p && FS.exists_ fs p)
        (file_size <- lift (FS.getsize fs p) ;;
         when (file_size <? 1024) (raise (PyException msg_too_small)) ;;
         when (negb (_download_started (self st))) (raise (PyException msg_not_started)) ;;
         when (negb (_real_progress_detected (self st))) (raise (PyException msg_no_progress)) ;;
         when (PyFloat.gt (_download_size_bytes (self st)) (Fin 0%Q)
               && PyFloat.lt (PyFloat.of_Z file_size)
                    (PyFloat.fmul (_download_size_bytes (self st)) f0_1))
           print_)
  | None => ret tt
  end.

(** What follows the loop: the error flag, the exit status and the checks on
    the artifact *)
Definition validate (env : run_env) : M unit :=
  st <- get ;;
  when (error_detected st) (raise (PyException (error_message st))) ;;
  when (negb (returncode env =? 0))
    (raise (PyException ("El proceso de descarga falló con código de error "
                         ++ PyStr.of_Z (returncode env)))) ;;
  recover env ;;
  check_artifact env.

(** [last_path or default] *)
Definition path_or (o : option string) (default : string) : string :=
  match o with
  | Some p => if PyStr.truthy p then p else default
  | None => default
  end.

(** The end of a run whose process closed its output *)
Definition post_run (env : run_env) : M unit :=
  validate env ;;
  emit (progressChanged 100) ;;
  st <- get ;;
  emit (finished (FS.basename (path_or (last_path st) (_url (self st))))
                 (path_or (last_path st) (_output (self st)))).

(** The [except] clauses of [run] *)
Definition on_exception (e : pyexn) : M unit :=
  match e with
  | SubprocessError _ msg => emit (errorOccurred ("Error en el proceso de descarga: " ++ msg))
  | FileNotFoundError =>
      emit (errorOccurred
              "No se encontró el programa yt-dlp. Asegúrate de que esté instalado correctamente.")
  | PermissionError =>
      emit (errorOccurred
              "Error de permisos al acceder a los archivos. Verifica los permisos de la carpeta de destino.")
  | PyException msg =>
      emit (debug_log (Traceback msg)) ;;
      emit (errorOccurred ("Error inesperado: " ++ msg
                           ++ ". Consulta el archivo de log para más detalles."))
  end.

(** [_DownloadWorker.run].  (The probe for ffmpeg that precedes the format
    selection for the audio modes only prints.) *)
Definition run_body (env : run_env) : M unit :=
  st <- get ;;
  _ <- lift (args (self st)) ;;
  emit (progressChanged 1) ;;
  lift (launch env) ;;
  modify_self (set_process (Some Running)) ;;
  exit <- for_lines (stdout env) ;;
  match exit with
  | Returned => ret tt
  | Exhausted => post_run env
  end.

(** The state in which the loop over the output starts, and the state and
    exit with which it ends, when the process could be launched *)
Definition started (w : worker) (env : run_env) : run_state :=
  set_self (set_process (Some Running) w)
    (set_events [progressChanged 1] (init_state w env)).

Definition loop_result (w : worker) (env : run_env) : run_state * result loop_exit :=
  for_lines (stdout env) (started w env).

Definition after_loop (w : worker) (env : run_env) : run_state :=
  fst (loop_result w env).

Definition run (w : worker) (env : run_env) : run_state :=
  fst (try_ (run_body env) on_exception (init_state w env)).

(** The signals and other actions of a run, in order *)
Definition trace (w : worker) (env : run_env) : list event :=
  events (run w env).

(** The values carried by the percent-changed signal, in order *)
Fixpoint percents (evs : list event) : list Z :=
  match evs with
  | [] => []
  | progressChanged v :: rest => v :: percents rest
  | _ :: rest => percents rest
  end.

(* ------------------------------------------------------------------ *)
(** ** [_DownloadWorker.cancel], [_cleanup_partial_files] and the cancel
       button of the card *)

(** How the operating system answers the requests that [cancel] makes on
    the process *)
Record proc_env : Type := {
  terminate_ok : bool;      (* [terminate()] returns (else it raises an [OSError]) *)
  exits_in_time : bool;     (* the process ends before [wait(timeout=2)] gives up *)
  kill_ok : bool            (* [kill()] returns (else it raises an [OSError]) *)
}.

Inductive proc_action : Type :=
| Terminate
| Wait (timeout : Z)
| Kill.

(** The worker, the disk and the requests made on the process so far *)
Record cancel_state : Type := {
  me : worker;
  files : FS.t;
  requests : list proc_action
}.

Definition set_me (f : worker -> worker) (s : cancel_state) : cancel_state :=
  {| me := f (me s); files := files s; requests := requests s |}.

Definition set_files (fs : FS.t) (s : cancel_state) : cancel_state :=
  {| me := me s; files := fs; requests := requests s |}.

Definition request (a : proc_action) : St cancel_state unit :=
  modify (fun s => {| me := me s; files := files s; requests := (requests s ++ [a])%list |}).

(** [self._process.terminate()] *)
Definition terminate (env : proc_env) : St cancel_state unit :=
  request Terminate ;;
  if terminate_ok env then ret tt else raise PermissionError.

(** [self._process.wait(timeout=t)] *)
Definition wait (env : proc_env) (t : Z) : St cancel_state unit :=
  request (Wait t) ;;
  if exits_in_time env then modify (set_me (set_process (Some (Exited (-15)))))
  else raise (SubprocessError true "timed out").

(** [self._process.kill()] *)
Definition kill (env : proc_env) : St cancel_state unit :=
  request Kill ;;
  if kill_ok env then modify (set_me (set_process (Some (Exited (-9)))))
  else raise PermissionError.

(** [for f in paths: try: if os.path.exists(f): os.remove(f) ...
    except Exception as e: print(...)] *)
Fixpoint remove_each (paths : list string) : St cancel_state unit :=
  match paths with
  | [] => ret tt
  | p :: rest =>
      try_ (st <- get ;;
            when (FS.exists_ (files st) p)
              (fs' <- lift (FS.remove (files st) p) ;;
               modify (set_files fs') ;;
               print_))
           (fun _ => print_) ;;
      remove_each rest
  end.

(** The two [glob] searches and the two deletion loops, for directory [dir] *)
Definition cleanup_dir (dir : string) : St cancel_state unit :=
  try_ (st <- get ;;
        let part_files := FS.glob (files st) dir ".part" in
        let ytdl_files := FS.glob (files st) dir ".ytdl" in
        remove_each part_files ;;
        remove_each ytdl_files)
       (fun _ => print_).

(** [_DownloadWorker._cleanup_partial_files].  The branch guarded by
    [hasattr(self, '_last_path')] is never taken: nothing in the repository
    assigns that attribute ([run] keeps the destination in its local
    [last_path]); it would only search again among the files that the two
    patterns above already match. *)
Definition _cleanup_partial_files : St cancel_state unit :=
  st <- get ;;
  cleanup_dir (_output (me st)).

Definition is_running (p : option popen) : bool :=
  match p with Some Running => true | _ => false end.

Definition is_timeout (e : pyexn) : bool :=
  match e with SubprocessError true _ => true | _ => false end.

(** [_DownloadWorker.cancel] *)
Definition cancel (env : proc_env) : St cancel_state unit :=
  modify (set_me (set_cancelled true)) ;;
  st <- get ;;
  when (is_running (_process (me st)))
    (try_ (terminate env ;; wait env 2)
          (fun e =>
             if is_timeout e then try_ (kill env) (fun _ => ret tt)
             else ret tt)) ;;
  _cleanup_partial_files.



Definition cancel_start (w : worker) (fs : FS.t) : cancel_state :=
  {| me := w; files := fs; requests := [] |}.

(* ------------------------------------------------------------------ *)
(** ** [DownloadsPage._generate_unique_filename] *)

(** [f"{base_name} ({counter}).{extension}"] *)
Definition numbered (base_name extension : string) (counter : Z) : string :=
  base_name ++ " (" ++ PyStr.of_Z counter ++ ")." ++ extension.

(** [f"{base_name}_{timestamp}.{extension}"] *)
Definition stamped (base_name extension : string) (timestamp : Z) : string :=
  base_name ++ "_" ++ PyStr.of_Z timestamp ++ "." ++ extension.

(** The [while True] loop, at most [fuel] iterations; [None] when they do not
    suffice.  [timestamp] is [int(time.time())]. *)
Fixpoint unique_loop (fuel : nat) (fs : FS.t) (out_dir base_name extension : string)
    (timestamp counter : Z) : option string :=
  match fuel with
  | O => None
  | S k =>
      let filename := numbered base_name extension counter in
      let filepath := FS.join out_dir filename in
      if negb (FS.exists_ fs filepath) then Some filename
      else
        let counter := counter + 1 in
        if 999 <? counter then Some (stamped base_name extension timestamp)
        else unique_loop k fs out_dir base_name extension timestamp counter
  end.


(* ------------------------------------------------------------------ *)
(** ** Vocabulary of the specification *)

(** The alternatives of a format selector's fallback chain, first to last *)
Definition alternatives (selector : string) : list string :=
  PyStr.split_char "/" selector.

(** The generic "best" selector of the downloader, spelled [best] or [b] *)
Definition generic_best (alt : string) : Prop := alt = "best" \/ alt = "b".

(** The modes that [run] gives a selector of their own; every other mode is
    an unknown preset *)
Definition recognised (mode : string) : bool :=
  (String.eqb mode "video_best" || PyStr.startswith mode "video_"
   || PyStr.startswith mode "mp3_" || String.eqb mode "m4a_best"
   || String.eqb mode "ogg_best" || String.eqb mode "wma_best")%bool.

(** The name with suffix [" (n)"] already exists in the output directory *)
Definition taken (fs : FS.t) (out_dir title extension : string) (n : Z) : bool :=
  FS.exists_ fs (FS.join out_dir (numbered title extension n)).

(** Every state change of statement [m] is within relation [R]. *)
Definition steps (R : run_state -> run_state -> Prop) {A} (m : M A) : Prop :=
  forall s, R s (fst (m s)).

(** [s'] has the events of [s] followed by new ones that all satisfy [P]. *)
Definition grows (P : event -> Prop) (s s' : run_state) : Prop :=
  exists new, events s' = (events s ++ new)%list /\ Forall P new.

(** The configuration of the worker is the same. *)
Definition same_config (s s' : run_state) : Prop :=
  _output (self s') = _output (self s) /\ _url (self s') = _url (self s)
  /\ _mode (self s') = _mode (self s).

(** What the loop over the output may emit: percent values from 5 to 95,
    size and status texts, log records and the requests of the cancellation
    branch, but no terminal signal. *)
Definition loop_event (e : event) : Prop :=
  match e with
  | progressChanged v => 5 <= v <= 95
  | finished _ _ | errorOccurred _ => False
  | _ => True
  end.

(** One or more iterations of the loop: loop events are emitted and the
    configuration of the worker stays. *)
Definition loop_inv (s s' : run_state) : Prop :=
  grows loop_event s s' /\ same_config s s'.

(** The terminal signals *)
Definition terminal (e : event) : bool :=
  match e with
  | finished _ _ | errorOccurred _ => true
  | _ => false
  end.

(** How a run can end: silently (cancellation), with an error signal
    (preceded by the log record of the traceback for a generic exception), or
    with 100 percent and the finished signal. *)
Inductive run_tail : list event -> Prop :=
| tail_silent : run_tail []
| tail_error (msg : string) : run_tail [errorOccurred msg]
| tail_logged_error (m msg : string) :
    run_tail [debug_log (Traceback m); errorOccurred msg]
| tail_finished (title path : string) :
    run_tail [progressChanged 100; finished title path].

(** What the [except] clause for exception [e] emits *)
Definition error_events (e : pyexn) : list event :=
  match e with
  | SubprocessError _ msg => [errorOccurred ("Error en el proceso de descarga: " ++ msg)]
  | FileNotFoundError =>
      [errorOccurred
         "No se encontró el programa yt-dlp. Asegúrate de que esté instalado correctamente."]
  | PermissionError =>
      [errorOccurred
         "Error de permisos al acceder a los archivos. Verifica los permisos de la carpeta de destino."]
  | PyException msg =>
      [debug_log (Traceback msg);
       errorOccurred ("Error inesperado: " ++ msg
                      ++ ". Consulta el archivo de log para más detalles.")]
  end.

(** The user-facing text of a generic exception with message [msg] *)
Definition unexpected (msg : string) : string :=
  "Error inesperado: " ++ msg ++ ". Consulta el archivo de log para más detalles.".

(** No iteration of the loop finds the cancellation flag set. *)
Definition never_cancelled (env : run_env) : Prop :=
  Forall (fun ln => cancel_requested ln = false) (stdout env).

(** The file that the post-run checks take for the download: the announced
    destination if it exists, else the most recently created entry of the
    output directory if that is a regular file. *)
Definition artifact (fs : FS.t) (st : run_state) : option string :=
  if path_exists fs (last_path st) then last_path st
  else
    match FS.glob fs (_output (self st)) "" with
    | [] => None
    | output_files =>
        match FS.latest fs output_files with
        | Ok latest_file => if FS.isfile fs latest_file then Some latest_file else None
        | Raise _ => None
        end
    end.

(** The run ends with an error signal and never signals completion. *)
Definition ends_in_error (tr : list event) : Prop :=
  (exists pre msg, tr = (pre ++ [errorOccurred msg])%list)
  /\ (forall title path, ~ In (finished title path) tr).


(** No percent is emitted in [tr]. *)
Fixpoint no_percent (tr : list event) : bool :=
  match tr with
  | [] => true
  | progressChanged _ :: _ => false
  | _ :: rest => no_percent rest
  end.

(** The percent values of [tr] never decrease from [prev] on, except for one
    reset to 0 that an error signal follows at once; no percent follows a
    terminal signal. *)
Fixpoint nondecreasing_but_reset (prev : Z) (tr : list event) : bool :=
  match tr with
  | [] => true
  | progressChanged v :: rest =>
      if prev <=? v then nondecreasing_but_reset v rest
      else ((v =? 0)
            && match rest with
               | errorOccurred _ :: rest' => no_percent rest'
               | _ => false
               end)%bool
  | finished _ _ :: rest | errorOccurred _ :: rest => no_percent rest
  | _ :: rest => nondecreasing_but_reset prev rest
  end.

(** [int(s)] succeeds. *)
Definition is_int (s : string) : bool :=
  match PyInt.of_string s with Ok _ => true | Raise _ => false end.

(** [int(float(s))] succeeds. *)
Definition is_seconds (s : string) : bool :=
  match PyFloat.of_string s with
  | Ok f => match PyFloat.to_int f with Ok _ => true | Raise _ => false end
  | Raise _ => false
  end.

(** A well-formed ETA token: [mm:ss] or [hh:mm:ss] with integer fields, or a
    number of seconds *)
Definition eta_well_formed (token : string) : bool :=
  match PyStr.split_char ":" token with
  | [mm; ss] => (is_int mm && is_int ss)%bool
  | [hh; mm; ss] => (is_int hh && is_int mm && is_int ss)%bool
  | _ => is_seconds token
  end.

Definition only_percent (e : event) : Prop :=
  match e with progressChanged _ => True | _ => False end.

(** From [s] to [s'] the size text and the expected size are kept and only
    percent events are emitted. *)
Definition size_kept (s s' : run_state) : Prop :=
  total_size_text s' = total_size_text s
  /\ _download_size_bytes (self s') = _download_size_bytes (self s)
  /\ grows only_percent s s'.

(** An entry that [os.remove] deletes *)
Definition deletable (e : FS.entry) : bool := (FS.is_file e && negb (FS.locked e))%bool.

(** The disk after the deletion loop over [paths]: each path that exists and
    is deletable when its turn comes is gone, the others stay. *)
Fixpoint purge (paths : list string) (fs : FS.t) : FS.t :=
  match paths with
  | [] => fs
  | p :: rest =>
      match FS.lookup fs p with
      | Some e => if deletable e then purge rest (FS.delete fs p) else purge rest fs
      | None => purge rest fs
      end
  end.

(** The partial files that the cleanup of directory [dir] looks for *)
Definition partials (fs : FS.t) (dir : string) : list string :=
  (FS.glob fs dir ".part" ++ FS.glob fs dir ".ytdl")%list.

(** The disk after the cleanup of directory [dir] *)
Definition cleaned (fs : FS.t) (dir : string) : FS.t :=
  purge (FS.glob fs dir ".ytdl") (purge (FS.glob fs dir ".part") fs).

(** The requests that [cancel] makes on a running process *)
Definition stop_protocol (env : proc_env) : list proc_action :=
  Terminate ::
  (if terminate_ok env then Wait 2 :: (if exits_in_time env then [] else [Kill]) else []).

(** The phrases of the downloader at which the loop raises at once *)
Definition fatal_line (line : string) : bool :=
  (has "No video formats found" line || has "requested format not available" line
   || has "Unsupported URL" line || has "is not a valid URL" line
   || has "Private video" line || has "Sign in to confirm your age" line
   || has "This video is unavailable" line || has "Video unavailable" line)%bool.


(* ------------------------------------------------------------------ *)
(** ** Sample runs *)

Definition sample_worker : worker :=
  __init__ "https://www.youtube.com/watch?v=abc" "/dl" "video_1080" true "".

Definition at_ (seconds : Z) (line : string) : stdout_line :=
  {| text := line; now := Fin (inject_Z seconds); cancel_requested := false |}.

Definition regular_file (bytes : Z) (created : Z) : FS.entry :=
  {| FS.is_file := true; FS.size := bytes; FS.ctime := inject_Z created; FS.locked := false |}.

(** A video stream and an audio stream, downloaded one after the other and
    merged: what the downloader prints for a 1080p request. *)
Definition two_stream_run : run_env :=
  {| launch := Ok tt;
     started_at := Fin 0%Q;
     stdout :=
       [at_ 1 "[download] Destination: /dl/clip.f137.mp4";
        at_ 2 "[download]  50.0% of 10.00MiB at 1.00MiB/s ETA 00:05";
        at_ 3 "[download] 100% of 10.00MiB in 00:10";
        at_ 4 "[download] Destination: /dl/clip.f140.m4a";
        at_ 5 "[download]  50.0% of 1.00MiB at 1.00MiB/s ETA 00:01";
        at_ 6 "[download] 100% of 1.00MiB in 00:01";
        at_ 7 "[Merger] Merging formats into /dl/clip.mp4";
        at_ 8 "Deleting original file /dl/clip.f137.mp4 (pass -k to keep)";
        at_ 9 "Deleting original file /dl/clip.f140.m4a (pass -k to keep)"];
     returncode := 0;
     disk := [("/dl/clip.mp4", regular_file 11534336 9)] |}.

(** A single stream followed by post-processing *)
Definition postprocessing_run : run_env :=
  {| launch := Ok tt;
     started_at := Fin 0%Q;
     stdout :=
       [at_ 1 "[download] Destination: /dl/song.webm";
        at_ 2 "[download]  40.0% of 4.00MiB at 1.00MiB/s ETA 00:02";
        at_ 3 "[download] 100% of 4.00MiB in 00:04";
        at_ 4 "[ExtractAudio] Extracting audio";
        at_ 4 "[Metadata] Writing metadata";
        at_ 4 "[Postprocessing] Converting thumbnail"];
     returncode := 0;
     disk := [("/dl/song.webm", regular_file 4194304 4)] |}.

(** The progress line of the specification and the error line *)
Definition progress_line : string :=
  "[download]  12.3% of 50.00MiB at 2.31MiB/s ETA 00:40".

Definition unavailable_line : string := "ERROR: Video unavailable".

Definition msg_video_unavailable : string :=
  "Video no disponible. Puede haber sido eliminado o marcado como privado".



Definition running_worker : worker := set_process (Some Running) sample_worker.

(** A process that ignores the termination request and is killed; its
    partial file is still held open when the cleanup runs. *)
Definition stubborn : proc_env :=
  {| terminate_ok := true; exits_in_time := false; kill_ok := true |}.

Definition held_dir : FS.t :=
  [("/dl/clip.f137.mp4.part",
    {| FS.is_file := true; FS.size := 5242880; FS.ctime := inject_Z 1; FS.locked := true |});
   ("/dl/clip.f137.mp4.ytdl", regular_file 120 1)].



(* ------------------------------------------------------------------ *)
(** ** What the output of the downloader shows *)

(** The line as the loop looks at it *)
Definition stripped (ln : stdout_line) : string := PyStr.strip (text ln).

(** The line announces the destination file. *)
Definition announces_destination (ln : stdout_line) : bool :=
  PyStr.startswith (stripped ln) "[download] Destination:".

(** The line is read as a progress line. *)
Definition shows_percent (ln : stdout_line) : bool :=
  (PyStr.startswith (stripped ln) "[download]" && has "%" (stripped ln))%bool.

(** The line carries one of the two error markers. *)
Definition reports_error (ln : stdout_line) : bool :=
  (has "ERROR:" (stripped ln) || has "Error:" (stripped ln))%bool.

(** The finished signal is in the trace. *)
Definition completes (tr : list event) : Prop :=
  exists title path, In (finished title path) tr.


(** A flag of the run that, once set, stays set *)
Definition sticky (flag : run_state -> bool) (s s' : run_state) : Prop :=
  flag s = true -> flag s' = true.

(** A flag of the run that is not set where it was not set before *)
Definition dormant (flag : run_state -> bool) (s s' : run_state) : Prop :=
  flag s = false -> flag s' = false.

(** The conditions under which the post-run checks pass for artifact [p] *)
Definition passes (env : run_env) (s : run_state) (p : string) : Prop :=
  error_detected s = false
  /\ returncode env = 0
  /\ artifact (disk env) s = Some p
  /\ (exists n, FS.getsize (disk env) p = Ok n /\ 1024 <= n)
  /\ _download_started (self s) = true
  /\ _real_progress_detected (self s) = true.

(* ------------------------------------------------------------------ *)
(** ** More of Python's strings *)

(** [all(f(c) for c in s)] *)
Fixpoint all_chars (f : ascii -> bool) (s : string) : bool :=
  match s with
  | EmptyString => true
  | String c s' => (f c && all_chars f s')%bool
  end.

(** [s.isdigit()]: at least one character, all of them digits *)
Definition isdigit (s : string) : bool := (PyStr.truthy s && all_chars PyStr.is_digit s)%bool.


(** The characters of the text of an integer *)
Definition numeric (c : ascii) : bool := (PyStr.is_digit c || Ascii.eqb c "-")%bool.

(** The characters of a decimal number without sign *)
Definition decimal_char (c : ascii) : bool := (PyStr.is_digit c || Ascii.eqb c ".")%bool.

(** The characters of a token [WxH] or [Np] *)
Definition token_char (c : ascii) : bool :=
  (PyStr.is_digit c || Ascii.eqb c "x" || Ascii.eqb c "p")%bool.

(** The separator of the format text starts with a byte that the ASCII
    characters and the letters of the texts here do not have. *)
Definition plain_char (c : ascii) : bool := negb (Ascii.eqb c "226").



(** [any(f(c) for c in s)] *)
Definition any_char (f : ascii -> bool) (s : string) : bool :=
  negb (all_chars (fun c => negb (f c)) s).

(** [s.count(c)] for a one-character [c] *)
Fixpoint str_count (c : ascii) (s : string) : Z :=
  match s with
  | EmptyString => 0
  | String a s' => (if Ascii.eqb a c then 1 else 0) + str_count c s'
  end.

(** [s.split(sep)] for a non-empty [sep]: the occurrences of [sep] are taken
    from left to right, and [skip] characters of the occurrence found last
    are still to be passed over. *)
Fixpoint split_from (sep s : string) (skip : nat) : list string :=
  match s with
  | EmptyString => [EmptyString]
  | String c s' =>
      match skip with
      | S k => split_from sep s' k
      | O =>
          if String.prefix sep s then EmptyString :: split_from sep s' (String.length sep - 1)
          else match split_from sep s' 0 with
               | h :: t => String c h :: t
               | [] => [String c EmptyString]
               end
      end
  end.

Definition str_split (sep s : string) : list string := split_from sep s 0.

(** [sep.join(parts)] *)
Fixpoint str_join (sep : string) (parts : list string) : string :=
  match parts with
  | [] => EmptyString
  | [p] => p
  | p :: rest => p ++ sep ++ str_join sep rest
  end.

(** [s.replace(old, new)] for a non-empty [old] *)
Fixpoint replace_from (old new s : string) (skip : nat) : string :=
  match s with
  | EmptyString => EmptyString
  | String c s' =>
      match skip with
      | S k => replace_from old new s' k
      | O =>
          if String.prefix old s then new ++ replace_from old new s' (String.length old - 1)
          else String c (replace_from old new s' 0)
      end
  end.

Definition str_replace (old new s : string) : string := replace_from old new s 0.

(** [parts[i] = v] for [i < len(parts)] (an [IndexError] otherwise) *)
Fixpoint assign {A} (l : list A) (i : nat) (v : A) : result (list A) :=
  match l, i with
  | [], _ => Raise (PyException "list assignment index out of range")
  | _ :: t, O => Ok (v :: t)
  | h :: t, S k => let? t' := assign t k v in Ok (h :: t')
  end.

(* ------------------------------------------------------------------ *)
(** ** The helpers of the page *)

(** [clean_channel_name] *)
Definition clean_channel_name (channel_name : string) : string :=
  if (PyStr.truthy channel_name && PyStr.contains "- Topic" channel_name)%bool
  then PyStr.strip (str_replace "- Topic" "" channel_name)
  else channel_name.

(** An ASCII character that is no white space *)
Definition visible_ascii (c : ascii) : bool :=
  ((nat_of_ascii c <? 128)%nat && negb (PyStr.is_space c))%bool.

(** A text that is empty, or begins and ends with an ASCII character that is
    no white space: [s.strip()] is [s], whatever is in between. *)
Definition ends_visible (s : string) : bool :=
  match s, PyStr.rev s with
  | String c _, String d _ => (visible_ascii c && visible_ascii d)%bool
  | _, _ => true
  end.


(** The labels of the format box and their modes, in the order of
    [DownloadsPage._preset_formats] *)
Definition _preset_map : list (string * string) :=
  [("Video • MP4 • 4K", "video_2160");
   ("Video • MP4 • 2K", "video_1440");
   ("Video • MP4 • 1080p", "video_1080");
   ("Video • MP4 • 720p", "video_720");
   ("Video • MP4 • 480p", "video_480");
   ("Audio • MP3 • 320 kbps", "mp3_320");
   ("Audio • MP3 • 256 kbps", "mp3_256");
   ("Audio • MP3 • 192 kbps", "mp3_192");
   ("Audio • MP3 • 128 kbps", "mp3_128");
   ("Audio • MP3 • 96 kbps", "mp3_96");
   ("Audio • MP3 • 64 kbps", "mp3_64");
   ("Audio • M4A • 320 kbps", "m4a_320");
   ("Audio • M4A • 192 kbps", "m4a_best");
   ("Audio • OGG • 320 kbps", "ogg_320");
   ("Audio • OGG • 192 kbps", "ogg_best");
   ("Audio • WMA • 320 kbps", "wma_320");
   ("Audio • WMA • 192 kbps", "wma_best")].

(** [self._preset_map.get(selected_label, "video_best")], as
    [_start_download] picks the mode *)
Fixpoint mode_of_label (presets : list (string * string)) (selected_label : string) : string :=
  match presets with
  | [] => "video_best"
  | (label, mode) :: rest =>
      if String.eqb label selected_label then mode else mode_of_label rest selected_label
  end.

(** [DownloadsPage._get_extension_from_mode] *)
Definition _get_extension_from_mode (mode : string) : string :=
  if PyStr.startswith mode "mp3_" then "mp3"
  else if PyStr.startswith mode "m4a_" then "m4a"
  else if PyStr.startswith mode "ogg_" then "ogg"
  else if PyStr.startswith mode "wma_" then "wma"
  else if PyStr.startswith mode "video_" then "mp4"
  else "mp4".

(** [DownloadsPage._extract_resolution_from_mode] *)
Definition _extract_resolution_from_mode (mode : string) : result (option Z) :=
  try_except
    (if PyStr.startswith mode "video_" then
       let? res_str := index (PyStr.split_char "_" mode) 1 in
       if isdigit res_str then
         let? n := PyInt.of_string res_str in Ok (Some n)
       else Ok None
     else Ok None)
    (fun _ => Ok None).

(** [if res > max_res: max_res = res] *)
Definition raise_to (max_res res : Z) : Z := if max_res <? res then res else max_res.

(** The body of the loop over the tokens of a line: a token [WxH] counts with
    its height, a token [Np] with [N].  (The [except ValueError: continue]
    of each branch is a [try_except]: the unpacking and [int] raise nothing
    else.) *)
Definition scan_part (max_res : Z) (part : string) : result Z :=
  if (PyStr.contains "x" part && (str_count "x" part =? 1))%bool then
    try_except
      (match PyStr.split_char "x" part with
       | [width; height] =>
           if (isdigit width && isdigit height)%bool then
             let? res := PyInt.of_string height in
             Ok (raise_to max_res res)
           else Ok max_res
       | _ => Raise (PyException "not enough values to unpack")
       end)
      (fun _ => Ok max_res)
  else if (PyStr.endswith part "p" && isdigit (PyStr.drop_last 1 part))%bool then
    try_except
      (let? res := PyInt.of_string (PyStr.drop_last 1 part) in
       Ok (raise_to max_res res))
      (fun _ => Ok max_res)
  else Ok max_res.

(** [for x in xs: ...], where the body leaves a new value of [max_res] *)
Fixpoint scan_all {A} (body : Z -> A -> result Z) (max_res : Z) (xs : list A) : result Z :=
  match xs with
  | [] => Ok max_res
  | x :: rest => let? m := body max_res x in scan_all body m rest
  end.

(** The body of the loop over the lines: only a line with an ["x"] and a
    digit is looked at. *)
Definition scan_line (max_res : Z) (line : string) : result Z :=
  if (PyStr.contains "x" line && any_char PyStr.is_digit line)%bool
  then scan_all scan_part max_res (PyStr.split line)
  else Ok max_res.

(** The newline character *)
Definition newline : ascii := ascii_of_nat 10.

(** [DownloadsPage._parse_max_resolution]; the [mode] argument is not used. *)
Definition _parse_max_resolution (formats_output mode : string) : result (option Z) :=
  try_except
    (let lines := PyStr.split_char newline formats_output in
     let? max_res := scan_all scan_line 0 lines in
     Ok (if 0 <? max_res then Some max_res else None))
    (fun _ => Ok None).

(** [re.search(r'(\d+)p', s)]: group 1 of the leftmost match.  At a digit the
    greedy run of digits either is followed by ["p"], or no shorter run is
    (what follows a shorter run is a digit), so the search goes on after the
    run's first digit. *)
Fixpoint search_digits_p (s : string) : option string :=
  match s with
  | EmptyString => None
  | String c s' =>
      let '(digits, rest) := span_digits s in
      match digits, rest with
      | String _ _, String "p" _ => Some digits
      | _, _ => search_digits_p s'
      end
  end.

(** The loop over the parts of a format text: the first part that reads [Np] *)
Fixpoint first_resolution (parts : list string) : result (option Z) :=
  match parts with
  | [] => Ok None
  | part :: rest =>
      let part := PyStr.strip part in
      if (PyStr.endswith part "p" && isdigit (PyStr.drop_last 1 part))%bool then
        let? n := PyInt.of_string (PyStr.drop_last 1 part) in Ok (Some n)
      else first_resolution rest
  end.

(** [DownloadsPage._extract_resolution_from_format] *)
Definition _extract_resolution_from_format (format_info : string) : result (option Z) :=
  try_except
    (if PyStr.contains "•" format_info then
       first_resolution (str_split "•" format_info)
     else
       match search_digits_p format_info with
       | Some digits => let? n := PyInt.of_string digits in Ok (Some n)
       | None => Ok None
       end)
    (fun _ => Ok None).


(** The greater of two optional resolutions *)
Definition best_of (a b : option Z) : option Z :=
  match a, b with
  | Some x, Some y => Some (Z.max x y)
  | Some x, None => Some x
  | None, _ => b
  end.

(** A statement of the scan that, started from [m >= 0], ends with the
    greater of [m] and what it ends with when started from 0 *)
Definition accumulates {A} (f : Z -> A -> result Z) (x : A) : Prop :=
  exists v, 0 <= v /\ f 0 x = Ok v /\ forall m, 0 <= m -> f m x = Ok (Z.max m v).


(* ------------------------------------------------------------------ *)
(** ** The card of a download

    Of a [DownloadItemWidget], the attributes that the page's handlers read
    or write: its data, the texts of its labels, and the worker that it
    refers to. *)

Record card : Type := {
  data_title : string;
  data_size_text : string;
  data_channel : string;
  data_format_info : string;
  title_label : string;
  format_label : option string;
  size_format : string;
  size_visible : bool;
  progress_label : string;
  speed : string;
  speed_style : string;
  card_worker : option worker;
  worker_url : option string
}.



Definition set_data_channel (v : string) (c : card) : card :=
  {| data_title := data_title c; data_size_text := data_size_text c; data_channel := v; data_format_info := data_format_info c; title_label := title_label c; format_label := format_label c; size_format := size_format c; size_visible := size_visible c; progress_label := progress_label c; speed := speed c; speed_style := speed_style c; card_worker := card_worker c; worker_url := worker_url c |}.

Definition set_data_format_info (v : string) (c : card) : card :=
  {| data_title := data_title c; data_size_text := data_size_text c; data_channel := data_channel c; data_format_info := v; title_label := title_label c; format_label := format_label c; size_format := size_format c; size_visible := size_visible c; progress_label := progress_label c; speed := speed c; speed_style := speed_style c; card_worker := card_worker c; worker_url := worker_url c |}.


Definition set_format_label (v : option string) (c : card) : card :=
  {| data_title := data_title c; data_size_text := data_size_text c; data_channel := data_channel c; data_format_info := data_format_info c; title_label := title_label c; format_label := v; size_format := size_format c; size_visible := size_visible c; progress_label := progress_label c; speed := speed c; speed_style := speed_style c; card_worker := card_worker c; worker_url := worker_url c |}.






Definition set_card_worker (v : option worker) (c : card) : card :=
  {| data_title := data_title c; data_size_text := data_size_text c; data_channel := data_channel c; data_format_info := data_format_info c; title_label := title_label c; format_label := format_label c; size_format := size_format c; size_visible := size_visible c; progress_label := progress_label c; speed := speed c; speed_style := speed_style c; card_worker := v; worker_url := worker_url c |}.

Definition set_worker_url (v : option string) (c : card) : card :=
  {| data_title := data_title c; data_size_text := data_size_text c; data_channel := data_channel c; data_format_info := data_format_info c; title_label := title_label c; format_label := format_label c; size_format := size_format c; size_visible := size_visible c; progress_label := progress_label c; speed := speed c; speed_style := speed_style c; card_worker := card_worker c; worker_url := v |}.
(** The card that [_start_download] adds to the list:
    [DownloadItemWidget(DownloadItemData(title, "", "", 0, "", duration,
    channel, format_info))] *)
Definition new_card (title channel format_info : string) : card :=
  {| data_title := title; data_size_text := ""; data_channel := channel;
     data_format_info := format_info;
     title_label := title;
     format_label := if PyStr.truthy format_info then Some format_info else None;
     size_format := ""; size_visible := false;
     progress_label := PyStr.of_Z 0 ++ "%";
     speed := "Preparando..."; speed_style := "SpeedLabel";
     card_worker := None; worker_url := None |}.

(** [card.format_label.setText(text)] if the card has that label *)
Definition set_format_text (text : string) (c : card) : card :=
  match format_label c with
  | Some _ => set_format_label (Some text) c
  | None => c
  end.

(** [card.worker._mode = mode] if the card has a worker *)
Definition set_worker_mode (mode : string) (c : card) : card :=
  match card_worker c with
  | Some w =>
      set_card_worker
        (Some {| _url := _url w; _output := _output w; _mode := mode;
                 _no_playlist := _no_playlist w; _channel := _channel w;
                 _filesize := _filesize w; _cancelled := _cancelled w;
                 _process := _process w; _download_started := _download_started w;
                 _real_progress_detected := _real_progress_detected w;
                 _last_progress_value := _last_progress_value w;
                 _download_size_bytes := _download_size_bytes w |}) c
  | None => c
  end.

(** [f"video_{n}"] *)
Definition video_mode (n : Z) : string := "video_" ++ PyStr.of_Z n.

(** [f" Ajustado a máxima calidad ({n}p)"] *)
Definition adjusted_note (n : Z) : string :=
  " Ajustado a máxima calidad (" ++ PyStr.of_Z n ++ "p)".

(** [DownloadsPage._update_format_info_for_quality] *)
Definition _update_format_info_for_quality (max_resolution : Z) (c : card) : card :=
  let original_format := data_format_info c in
  if PyStr.contains "•" original_format then
    let parts := str_split "•" original_format in
    if (3 <=? Z.of_nat (List.length parts)) then
      match assign parts 2 (adjusted_note max_resolution) with
      | Ok parts =>
          let new_format := str_join "•" parts in
          set_worker_mode (video_mode max_resolution)
            (set_format_text new_format (set_data_format_info new_format c))
      | Raise _ => c
      end
    else c
  else
    let new_format := "Video • MP4 •" ++ adjusted_note max_resolution in
    set_worker_mode (video_mode max_resolution)
      (set_format_text new_format (set_data_format_info new_format c)).

(** [DownloadsPage._update_worker_mode] *)
Definition _update_worker_mode (max_resolution : Z) (c : card) : card :=
  match card_worker c with
  | Some _ =>
      let c := set_worker_mode (video_mode max_resolution) c in
      let current_format := data_format_info c in
      if PyStr.contains "•" current_format then
        let parts := str_split "•" current_format in
        if (3 <=? Z.of_nat (List.length parts)) then
          match assign parts 2 (" " ++ PyStr.of_Z max_resolution ++ "p") with
          | Ok parts =>
              let new_format := str_join "•" parts in
              set_format_text new_format (set_data_format_info new_format c)
          | Raise _ => c
          end
        else c
      else c
  | None => c
  end.

(** [DownloadsPage._handle_quality_adjustment]; the highlight that it ends
    with changes the style of the format label for two seconds. *)
Definition _handle_quality_adjustment (selected_res max_resolution : Z) (c : card) : card :=
  _update_worker_mode max_resolution (_update_format_info_for_quality max_resolution c).


(* ------------------------------------------------------------------ *)
(** ** Starting a download: the check of the formats and of duplicates *)



(** What the page does besides changing the card and the disk, in order *)
Inductive page_action : Type :=
| list_formats (args : list string) (timeout : Z)    (* the call of [subprocess.run] *)
| start_worker (w : worker)                          (* [worker.start()] *)
| start_format_check (url output_dir mode : string) (no_playlist : bool)
                                                     (* the thread of [_background_format_check] *)
| start_duration_fetch (url : string)                (* the thread of [_fetch_duration_for_card] *)
| ask_duplicate (filename : string)                  (* [_show_duplicate_file_dialog] *)
| remove_card.                                       (* [_remove_download_card] *)

(** The card of the download that is being started, the disk, and the
    actions of the page so far *)
Record page : Type := {
  the_card : card;
  page_disk : FS.t;
  done : list page_action
}.

Definition on_card (f : card -> card) : St page unit :=
  modify (fun p => {| the_card := f (the_card p); page_disk := page_disk p; done := done p |}).


Definition act (a : page_action) : St page unit :=
  modify (fun p => {| the_card := the_card p; page_disk := page_disk p;
                      done := (done p ++ [a])%list |}).

(** [DownloadsPage._start_download_worker].  (It also files the worker under
    its URL in [self._workers], connects the five signals of the worker to
    the handlers below and disables the download button.) *)
Definition _start_download_worker (url output_dir mode : string) (no_playlist : bool)
  : St page unit :=
  p <- get ;;
  let channel := data_channel (the_card p) in
  let worker := __init__ url output_dir mode no_playlist channel in
  on_card (set_card_worker (Some worker)) ;;
  on_card (set_worker_url (Some url)) ;;
  act (start_worker worker) ;;
  act (start_duration_fetch url).














(* ------------------------------------------------------------------ *)
(** ** The handlers of the worker's signals

    The handlers as they act on the card.  The dialogs, sounds and system
    notifications that [_on_error] and [_on_finished] show besides are no
    part of the card. *)




















(* ------------------------------------------------------------------ *)
(** ** More sample runs and cards *)

(** The disk fills up while the file is written: the downloader reports the
    error and gives up, the partial download stays behind. *)
Definition disk_full_run : run_env :=
  {| launch := Ok tt;
     started_at := Fin 0%Q;
     stdout :=
       [at_ 1 "[download] Destination: /dl/clip.mp4";
        at_ 2 "[download]  50.0% of 10.00MiB at 1.00MiB/s ETA 00:05";
        at_ 3 "ERROR: unable to write data: [Errno 28] No space left on device"];
     returncode := 1;
     disk := [("/dl/clip.mp4.part", regular_file 5242880 1)] |}.

(** The user cancels after the second line of output; the downloader goes on
    printing until it is stopped. *)
Definition cancelled_run : run_env :=
  {| launch := Ok tt;
     started_at := Fin 0%Q;
     stdout :=
       [at_ 1 "[download] Destination: /dl/clip.mp4";
        at_ 2 "[download]  50.0% of 10.00MiB at 1.00MiB/s ETA 00:05";
        {| text := "[download]  60.0% of 10.00MiB at 1.00MiB/s ETA 00:04";
           now := Fin 3%Q; cancel_requested := true |};
        at_ 4 "[download] 100% of 10.00MiB in 00:10"];
     returncode := -15;
     disk := [("/dl/clip.mp4.part", regular_file 6291456 1)] |}.

(** A card as [_start_download] and [_start_download_worker] leave it for the
    label "Video • MP4 • 4K". *)
Definition card_4k : card :=
  set_card_worker
    (Some (__init__ "https://youtu.be/clip" "/home/user/Downloads" "video_2160" true ""))
    (new_card "https://youtu.be/clip" "" "Video • MP4 • 4K").

(** The worker that [_start_download_worker] makes for mode [mode] *)
Definition preset_worker (mode : string) : worker :=
  __init__ "https://youtu.be/clip" "/home/user/Downloads" mode true "".

(* ------------------------------------------------------------------ *)
(** * Properties *)

(** ** Python strings: sample evaluations *)

Example split_progress_line :
  PyStr.split "[download]  12.3% of 50.00MiB at 2.31MiB/s ETA 00:40"
  = ["[download]"; "12.3%"; "of"; "50.00MiB"; "at"; "2.31MiB/s"; "ETA"; "00:40"].
Proof. reflexivity. Qed.

Example split1_destination :
  PyStr.split1 "Destination:" "[download] Destination: a b.mp4"
  = ["[download] "; " a b.mp4"].
Proof. reflexivity. Qed.

Example strip_line : PyStr.strip "  ERROR: x  " = "ERROR: x".
Proof. reflexivity. Qed.

Example split_mode : PyStr.split_char "_" "video_1080" = ["video"; "1080"].
Proof. reflexivity. Qed.

Example str_of_int : PyStr.of_Z 999 = "999" /\ PyStr.of_Z 0 = "0" /\ PyStr.of_Z (-7) = "-7".
Proof. repeat split; reflexivity. Qed.


(** ** Python floats and the token helpers: sample evaluations *)

Example float_of_12_3 :
  PyFloat.of_string "12.3" = Ok (Fin (3462142213541069 # 281474976710656)).
Proof. vm_compute. reflexivity. Qed.

Example float_literals :
  PyFloat.of_string " 1_0.5e1 " = Ok (Fin 105)
  /\ PyFloat.of_string "1e400" = Ok (Inf false)
  /\ PyFloat.of_string "-Infinity" = Ok (Inf true)
  /\ PyFloat.of_string "nan" = Ok NaN
  /\ (exists e, PyFloat.of_string "12.3.4" = Raise e)
  /\ (exists e, PyFloat.of_string "" = Raise e).
Proof. vm_compute. repeat split; eexists; reflexivity. Qed.

(** [2.675] is read as the double just below it, so two decimals give 2.67;
    exact ties go to the even digit. *)
Example float_formatting :
  option_map (PyFloat.format_f 2)
    (match PyFloat.of_string "2.675" with Ok f => Some f | Raise _ => None end) = Some "2.67"
  /\ PyFloat.format_f 2 (Fin (1 # 8)) = "0.12"
  /\ PyFloat.format_f 0 (Fin (5 # 2)) = "2"
  /\ PyFloat.format_f 0 (Fin (7 # 2)) = "4"
  /\ PyFloat.repr (PyFloat.round64 (1 # 10)) = "0.1"
  /\ PyFloat.repr (Fin 50) = "50.0"
  /\ PyFloat.repr (PyFloat.round64 (PyFloat.scale10 1 22)) = "1e+22".
Proof. vm_compute. repeat split. Qed.

Example humanize_size_examples :
  _humanize_yt_dlp_size "50.00MiB" = Ok "50.00 MB"
  /\ _humanize_yt_dlp_size "1.2GiB" = Ok "1.20 GB"
  /\ _humanize_yt_dlp_size "700KiB" = Ok "700 KB"
  /\ _humanize_yt_dlp_size "3.KiB" = Ok ""
  /\ _humanize_speed "2.31MiB/s" = Ok "2.31 MB/s"
  /\ _humanize_speed "Unknown" = Ok "Unknown".
Proof. vm_compute. repeat split. Qed.

Example format_eta_examples :
  _format_eta "00:40" = Ok "00:40"
  /\ _format_eta "1:20:15" = Ok "1:20:15"
  /\ _format_eta "7:5" = Ok "07:05"
  /\ _format_eta "75" = Ok "01:15"
  /\ _format_eta "3700" = Ok "1:01:40"
  /\ _format_eta "Unknown" = Ok "Unknown".
Proof. vm_compute. repeat split. Qed.

(* ------------------------------------------------------------------ *)
(** ** The format selector *)

Lemma prefix_split (p s : string) :
  String.prefix p s = true -> exists r, s = p ++ r.
Proof.
  revert s; induction p as [|a p IH]; intros s H.
  - exists s; reflexivity.
  - destruct s as [|b s]; simpl in H; [discriminate|].
    destruct (ascii_dec a b) as [->|]; [|discriminate].
    destruct (IH s H) as [r ->]. exists r; reflexivity.
Qed.

Lemma split_char_not_nil (c : ascii) (s : string) : PyStr.split_char c s <> [].
Proof.
  destruct s as [|a s]; simpl; [discriminate|].
  destruct (Ascii.eqb a c); [discriminate|].
  destruct (PyStr.split_char c s); discriminate.
Qed.

Lemma split_char_app (c : ascii) (x y : string) :
  PyStr.split_char c (x ++ String c y)
  = (PyStr.split_char c x ++ PyStr.split_char c y)%list.
Proof.
  induction x as [|a x IH]; simpl.
  - rewrite Ascii.eqb_refl. reflexivity.
  - destruct (Ascii.eqb a c).
    + rewrite IH. reflexivity.
    + rewrite IH. destruct (PyStr.split_char c x) as [|h t] eqn:E.
      * exfalso. exact (split_char_not_nil c x E).
      * reflexivity.
Qed.

Lemma string_app_assoc (a b c : string) : (a ++ b) ++ c = a ++ (b ++ c).
Proof. induction a as [|x a IH]; simpl; [reflexivity | now rewrite IH]. Qed.

Lemma last_alternative_best (x : string) :
  List.last (alternatives (x ++ "/best")) "" = "best".
Proof.
  unfold alternatives.
  change (x ++ "/best") with (x ++ String "/" "best").
  rewrite split_char_app.
  change (PyStr.split_char "/" "best") with ["best"].
  apply List.last_last.
Qed.

Lemma video_resolution (mode : string) :
  PyStr.startswith mode "video_" = true ->
  exists res, index (PyStr.split_char "_" mode) 1 = Ok res.
Proof.
  intros H. apply prefix_split in H. destruct H as [r ->].
  cbn. unfold index. cbn.
  destruct (PyStr.split_char "_" r) as [|h t] eqn:E.
  - exfalso. exact (split_char_not_nil _ _ E).
  - exists h. destruct (PyStr.split_char "_" r); inversion E; reflexivity.
Qed.

Lemma mp3_bitrate (mode : string) :
  PyStr.startswith mode "mp3_" = true ->
  exists q, index (PyStr.split_char "_" mode) 1 = Ok q.
Proof.
  intros H. apply prefix_split in H. destruct H as [r ->].
  cbn. unfold index. cbn.
  destruct (PyStr.split_char "_" r) as [|h t] eqn:E.
  - exfalso. exact (split_char_not_nil _ _ E).
  - exists h. reflexivity.
Qed.

(** Selecting the format never raises. *)
Lemma fmt_ok (mode : string) : exists selector, fmt mode = Ok selector.
Proof.
  unfold fmt.
  destruct (String.eqb mode "video_best"); [eauto|].
  destruct (PyStr.startswith mode "video_") eqn:V.
  - destruct (video_resolution mode V) as [res ->]. simpl. eauto.
  - destruct (PyStr.startswith mode "mp3_"); [eauto|].
    destruct (String.eqb mode "m4a_best"); [eauto|].
    destruct (String.eqb mode "ogg_best"); [eauto|].
    destruct (String.eqb mode "wma_best"); eauto.
Qed.

(** C5. For every mode string the selector that [run] resolves is non-empty
    and the last alternative of its fallback chain is the generic "best"
    selector ([best], or its short form [b]); a mode that is not recognised
    resolves to ["b[ext=mp4]/b"]: the best MP4 file first, the best file of
    any container otherwise. *)
Theorem C5_selector_ends_in_best (mode : string) :
  exists selector,
    fmt mode = Ok selector
    /\ selector <> ""
    /\ generic_best (List.last (alternatives selector) "")
    /\ (recognised mode = false ->
        selector = "b[ext=mp4]/b" /\ alternatives selector = ["b[ext=mp4]"; "b"]).
Proof.
  unfold fmt, recognised.
  destruct (String.eqb mode "video_best").
  { eexists; repeat split; try discriminate. right; reflexivity. }
  destruct (PyStr.startswith mode "video_") eqn:V.
  { destruct (video_resolution mode V) as [res ->]. unfold rbind.
    eexists; split; [reflexivity|]. repeat split; try discriminate.
    left.
    change ("]/best[ext=mp4]/best") with ("]/best[ext=mp4]" ++ "/best").
    rewrite <- !string_app_assoc.
    apply last_alternative_best. }
  destruct (PyStr.startswith mode "mp3_").
  { eexists; repeat split; try discriminate. left; reflexivity. }
  destruct (String.eqb mode "m4a_best").
  { eexists; repeat split; try discriminate. left; reflexivity. }
  destruct (String.eqb mode "ogg_best").
  { eexists; repeat split; try discriminate. left; reflexivity. }
  destruct (String.eqb mode "wma_best").
  { eexists; repeat split; try discriminate. left; reflexivity. }
  eexists; repeat split; try discriminate. right; reflexivity.
Qed.

(** The presets ["Audio • M4A • 320 kbps"], OGG and WMA at 320 kbps are such
    unrecognised modes. *)
Lemma C5_selector_ends_in_best_witness :
  recognised "m4a_320" = false
  /\ exists selector,
       fmt "m4a_320" = Ok selector
       /\ selector <> ""
       /\ generic_best (List.last (alternatives selector) "")
       /\ (recognised "m4a_320" = false ->
           selector = "b[ext=mp4]/b" /\ alternatives selector = ["b[ext=mp4]"; "b"]).
Proof.
  split; [reflexivity | apply (C5_selector_ends_in_best "m4a_320")].
Defined.

(* ------------------------------------------------------------------ *)
(** ** Unique file names *)

Section UniqueFilename.

Variables (fs : FS.t) (out_dir title extension : string) (timestamp : Z).

Lemma unique_loop_unfold (k : nat) (counter : Z) :
  unique_loop (S k) fs out_dir title extension timestamp counter =
  if negb (taken fs out_dir title extension counter)
  then Some (numbered title extension counter)
  else if 999 <? counter + 1 then Some (stamped title extension timestamp)
       else unique_loop k fs out_dir title extension timestamp (counter + 1).
Proof. reflexivity. Qed.


(** More iterations than 999 change nothing: the bound on the loop is the
    code's own. *)
Lemma unique_loop_enough (fuel : nat) :
  forall counter,
    1 <= counter <= 999 ->
    1000 <= Z.of_nat fuel + counter ->
    unique_loop fuel fs out_dir title extension timestamp counter
    = unique_loop (Z.to_nat (1000 - counter)) fs out_dir title extension timestamp counter.
Proof.
  induction fuel as [|k IH]; intros counter Hc Hf; [lia|].
  replace (Z.to_nat (1000 - counter)) with (S (Z.to_nat (999 - counter))) by lia.
  rewrite !unique_loop_unfold.
  destruct (negb (taken fs out_dir title extension counter)); [reflexivity|].
  destruct (999 <? counter + 1) eqn:L; [reflexivity|].
  apply Z.ltb_ge in L.
  rewrite IH by lia. f_equal. lia.
Qed.

End UniqueFilename.



(* ------------------------------------------------------------------ *)
(** ** Reasoning about statements *)

Section Steps.

Variable R : run_state -> run_state -> Prop.
Hypothesis R_refl : forall s, R s s.
Hypothesis R_trans : forall a b c, R a b -> R b c -> R a c.

Lemma steps_ret {A} (a : A) : steps R (ret a).
Proof. intros s; apply R_refl. Qed.

Lemma steps_raise {A} (e : pyexn) : steps R (@raise run_state A e).
Proof. intros s; apply R_refl. Qed.

Lemma steps_get : steps R get.
Proof. intros s; apply R_refl. Qed.

Lemma steps_lift {A} (r : result A) : steps R (lift r).
Proof. intros s; apply R_refl. Qed.

Lemma steps_print : steps R print_.
Proof. intros s; apply R_refl. Qed.

Lemma steps_bind {A B} (m : M A) (k : A -> M B) :
  steps R m -> (forall a, steps R (k a)) -> steps R (bind m k).
Proof.
  intros Hm Hk s. unfold bind. specialize (Hm s).
  destruct (m s) as [s' [a|e]]; simpl in *.
  - eapply R_trans; [exact Hm | apply Hk].
  - exact Hm.
Qed.

Lemma steps_try {A} (m : M A) (h : pyexn -> M A) :
  steps R m -> (forall e, steps R (h e)) -> steps R (try_ m h).
Proof.
  intros Hm Hh s. unfold try_. specialize (Hm s).
  destruct (m s) as [s' [a|e]]; simpl in *.
  - exact Hm.
  - eapply R_trans; [exact Hm | apply Hh].
Qed.

Lemma steps_when (b : bool) (m : M unit) : steps R m -> steps R (when b m).
Proof. intros H. destruct b; [exact H | apply steps_ret]. Qed.

End Steps.

(** Decomposes a statement along its binds, branches and handlers; what is
    left are its state changes. *)
Ltac steps_with Hrefl Htrans :=
  repeat first
    [ apply (steps_ret _ Hrefl)
    | apply (steps_raise _ Hrefl)
    | apply (steps_get _ Hrefl)
    | apply (steps_lift _ Hrefl)
    | apply (steps_print _ Hrefl)
    | apply (steps_bind _ Htrans); [|intros ?]
    | apply (steps_try _ Htrans); [|intros ?]
    | apply (steps_when _ Hrefl)
    | match goal with
      | |- steps _ (if ?b then _ else _) => destruct b
      | |- steps _ (match ?x with _ => _ end) => destruct x
      end ].

Lemma grows_refl (P : event -> Prop) (s : run_state) : grows P s s.
Proof. exists []. split; [now rewrite app_nil_r | constructor]. Qed.

Lemma grows_trans (P : event -> Prop) (a b c : run_state) :
  grows P a b -> grows P b c -> grows P a c.
Proof.
  intros [n1 [E1 F1]] [n2 [E2 F2]]. exists (n1 ++ n2)%list. split.
  - rewrite E2, E1, app_assoc. reflexivity.
  - apply Forall_app; split; assumption.
Qed.

Lemma grows_emit (P : event -> Prop) (e : event) : P e -> steps (grows P) (emit e).
Proof.
  intros H s. exists [e]. split; [reflexivity | constructor; [exact H | constructor]].
Qed.

Lemma grows_frame (P : event -> Prop) (f : run_state -> run_state) :
  (forall s, events (f s) = events s) -> steps (grows P) (modify f).
Proof.
  intros H s. exists []. simpl. rewrite H, app_nil_r. split; [reflexivity | constructor].
Qed.

Lemma same_config_refl (s : run_state) : same_config s s.
Proof. repeat split. Qed.

Lemma same_config_trans (a b c : run_state) :
  same_config a b -> same_config b c -> same_config a c.
Proof. intros [A1 [A2 A3]] [B1 [B2 B3]]. repeat split; congruence. Qed.

Lemma loop_inv_refl (s : run_state) : loop_inv s s.
Proof. split; [apply grows_refl | apply same_config_refl]. Qed.

Lemma loop_inv_trans (a b c : run_state) : loop_inv a b -> loop_inv b c -> loop_inv a c.
Proof.
  intros [G1 C1] [G2 C2]. split;
    [eapply grows_trans; eassumption | eapply same_config_trans; eassumption].
Qed.

Lemma loop_inv_emit (e : event) : loop_event e -> steps loop_inv (emit e).
Proof. intros H s. split; [apply grows_emit, H | repeat split]. Qed.

Lemma loop_inv_frame (f : run_state -> run_state) :
  (forall s, events (f s) = events s /\ same_config s (f s)) ->
  steps loop_inv (modify f).
Proof.
  intros H s. split; [apply grows_frame; intros; apply H | apply H].
Qed.

(** Decomposes a statement of the loop and settles its state changes: a
    change that keeps events and configuration, or the emission of a loop
    event. *)
Ltac loop_tac :=
  steps_with loop_inv_refl loop_inv_trans;
  first [ apply loop_inv_emit; cbn; try exact I; try lia
        | apply loop_inv_frame; intros; repeat split ].

(** [m ;; rest] where lemma [H] covers [m] *)
Ltac then_ H :=
  apply (steps_bind _ loop_inv_trans); [apply H | intros ?].

Lemma scan_errors_inv (line : string) : steps loop_inv (scan_errors line).
Proof. unfold scan_errors. loop_tac. Qed.

Lemma timed_crawl_inv (t : pyfloat) : steps loop_inv (timed_crawl t).
Proof. unfold timed_crawl. loop_tac. Qed.

Lemma destination_inv (line : string) : steps loop_inv (destination line).
Proof. unfold destination. loop_tac. Qed.

Lemma percent_part_inv (line : string) (t : pyfloat) : steps loop_inv (percent_part line t).
Proof. unfold percent_part. loop_tac. Qed.

Lemma size_part_inv (line : string) : steps loop_inv (size_part line).
Proof. unfold size_part. loop_tac. Qed.

Lemma speed_part_inv (line : string) : steps loop_inv (speed_part line).
Proof. unfold speed_part. loop_tac. Qed.

Lemma eta_part_inv (line : string) : steps loop_inv (eta_part line).
Proof. unfold eta_part. loop_tac. Qed.

Lemma status_part_inv (speed_text eta_text : string) :
  steps loop_inv (status_part speed_text eta_text).
Proof. unfold status_part. loop_tac. Qed.

Lemma progress_inv (line : string) (t : pyfloat) : steps loop_inv (progress line t).
Proof.
  unfold progress. apply steps_when; [apply loop_inv_refl|].
  apply (steps_try _ loop_inv_trans); [|intros _; apply steps_ret, loop_inv_refl].
  unfold progress_body.
  then_ percent_part_inv. then_ size_part_inv. then_ speed_part_inv.
  then_ eta_part_inv. apply status_part_inv.
Qed.

Lemma download_end_inv (line : string) (t : pyfloat) : steps loop_inv (download_end line t).
Proof. unfold download_end. loop_tac. Qed.

Lemma conversion_start_inv (line : string) (t : pyfloat) :
  steps loop_inv (conversion_start line t).
Proof. unfold conversion_start. loop_tac. Qed.

Lemma crawl_inv (indicators : list string) (line : string) (t : pyfloat) :
  steps loop_inv (crawl indicators line t).
Proof.
  induction indicators as [|i rest IH]; simpl.
  - apply steps_ret, loop_inv_refl.
  - apply (steps_bind _ loop_inv_trans); [apply steps_get, loop_inv_refl|].
    intros st. destruct (has i line && download_completed st)%bool; [|exact IH].
    loop_tac.
Qed.

Lemma conversion_end_inv (line : string) (t : pyfloat) :
  steps loop_inv (conversion_end line t).
Proof. unfold conversion_end. loop_tac. Qed.

(** One iteration emits only loop events and keeps the configuration. *)
Lemma process_line_inv (ln : stdout_line) : steps loop_inv (process_line ln).
Proof.
  unfold process_line.
  then_ scan_errors_inv. then_ timed_crawl_inv. then_ destination_inv.
  then_ progress_inv. then_ download_end_inv. then_ conversion_start_inv.
  then_ crawl_inv. apply conversion_end_inv.
Qed.

Lemma for_lines_inv (lines : list stdout_line) : steps loop_inv (for_lines lines).
Proof.
  induction lines as [|ln rest IH]; simpl.
  - apply steps_ret, loop_inv_refl.
  - destruct (cancel_requested ln).
    + loop_tac.
    + apply (steps_bind _ loop_inv_trans); [apply process_line_inv | intros _; exact IH].
Qed.

Lemma for_lines_grows (lines : list stdout_line) :
  steps (grows loop_event) (for_lines lines).
Proof. intros s. apply (for_lines_inv lines s). Qed.

(** Without a cancellation request the loop does not return early. *)
Lemma for_lines_not_returned (lines : list stdout_line) :
  Forall (fun ln => cancel_requested ln = false) lines ->
  forall s, snd (for_lines lines s) <> Ok Returned.
Proof.
  induction 1 as [|ln rest C _ IH]; intros s; simpl; [discriminate|].
  rewrite C. unfold bind. destruct (process_line ln s) as [s' [[]|e]]; simpl.
  - apply IH.
  - discriminate.
Qed.

(* ------------------------------------------------------------------ *)
(** ** The structure of a run *)

Lemma bind_get {S A} (k : S -> St S A) (s : S) : bind get k s = k s s.
Proof. reflexivity. Qed.

Lemma bind_lift {S A B} (r : result A) (k : A -> St S B) (s : S) :
  bind (lift r) k s = match r with Ok a => k a s | Raise e => (s, Raise e) end.
Proof. unfold bind, lift. destruct r; reflexivity. Qed.

Lemma bind_modify {S B} (f : S -> S) (k : unit -> St S B) (s : S) :
  bind (modify f) k s = k tt (f s).
Proof. reflexivity. Qed.

Lemma bind_ret {S A B} (a : A) (k : A -> St S B) (s : S) : bind (ret a) k s = k a s.
Proof. reflexivity. Qed.

Lemma bind_ok {S A B} (m : St S A) (k : A -> St S B) (s s' : S) (a : A) :
  m s = (s', Ok a) -> bind m k s = k a s'.
Proof. intros H. unfold bind. rewrite H. reflexivity. Qed.

Lemma bind_raise {S A B} (m : St S A) (k : A -> St S B) (s s' : S) (e : pyexn) :
  m s = (s', Raise e) -> bind m k s = (s', Raise e).
Proof. intros H. unfold bind. rewrite H. reflexivity. Qed.

(** Building the command line never raises. *)
Lemma args_ok (w : worker) : exists l, args w = Ok l.
Proof.
  unfold args. destruct (fmt_ok (_mode w)) as [f ->]. unfold rbind at 1.
  destruct (PyStr.startswith (_mode w) "mp3_") eqn:E.
  { destruct (mp3_bitrate _ E) as [q ->]. simpl. eauto. }
  repeat match goal with
         | |- context [if ?b then _ else _] => destruct b
         end; eauto.
Qed.

Lemma on_exception_events (e : pyexn) (s : run_state) :
  events (fst (on_exception e s)) = (events s ++ error_events e)%list
  /\ snd (on_exception e s) = Ok tt.
Proof.
  destruct e; simpl; split; try reflexivity.
  rewrite <- app_assoc. reflexivity.
Qed.

(** The trace of a run whose process could be launched, from the outcome of
    the loop and of the post-run checks *)
Lemma run_events (w : worker) (env : run_env) :
  launch env = Ok tt ->
  trace w env =
  match loop_result w env with
  | (s3, Ok Returned) => events s3
  | (s3, Raise e) => (events s3 ++ error_events e)%list
  | (s3, Ok Exhausted) =>
      match validate env s3 with
      | (s4, Raise e) => (events s4 ++ error_events e)%list
      | (s4, Ok _) =>
          (events s4 ++
           [progressChanged 100;
            finished (FS.basename (path_or (last_path s4) (_url (self s4))))
                     (path_or (last_path s4) (_output (self s4)))])%list
      end
  end.
Proof.
  intros L. unfold trace, run, try_, run_body.
  rewrite bind_get. change (self (init_state w env)) with w.
  destruct (args_ok w) as [l ->]. rewrite bind_lift.
  unfold emit at 1. rewrite bind_modify. rewrite L, bind_lift.
  unfold modify_self. rewrite bind_modify.
  unfold loop_result.
  match goal with
  | |- context [bind (for_lines _) _ ?s] => change s with (started w env)
  end.
  unfold bind at 1.
  destruct (for_lines (stdout env) (started w env)) as [s3 [[|]|e]].
  - unfold post_run. unfold bind at 1.
    destruct (validate env s3) as [s4 [[]|e]].
    + simpl. rewrite <- app_assoc. reflexivity.
    + apply on_exception_events.
  - reflexivity.
  - apply on_exception_events.
Qed.

(** The trace of a run whose process could not be launched *)
Lemma run_events_no_launch (w : worker) (env : run_env) (e : pyexn) :
  launch env = Raise e ->
  trace w env = progressChanged 1 :: error_events e.
Proof.
  intros L. unfold trace, run, try_, run_body.
  rewrite bind_get. change (self (init_state w env)) with w.
  destruct (args_ok w) as [l ->]. rewrite bind_lift.
  unfold emit at 1. rewrite bind_modify. rewrite L, bind_lift.
  rewrite (proj1 (on_exception_events _ _)). reflexivity.
Qed.

Lemma loop_events (w : worker) (env : run_env) :
  exists body,
    events (after_loop w env) = progressChanged 1 :: body /\ Forall loop_event body.
Proof.
  destruct (for_lines_grows (stdout env) (started w env)) as [new [E F]].
  exists new. split; [exact E | exact F].
Qed.

(** The post-run checks emit nothing. *)
Lemma validate_silent (env : run_env) (s : run_state) :
  events (fst (validate env s)) = events s.
Proof.
  assert (H : steps (grows (fun _ => False)) (validate env)).
  { unfold validate, recover, check_artifact.
    steps_with (grows_refl (fun _ : event => False)) (grows_trans (fun _ : event => False));
      apply grows_frame; reflexivity. }
  destruct (H s) as [new [E F]]. destruct new as [|e new].
  - now rewrite app_nil_r in E.
  - inversion F; contradiction.
Qed.

Lemma error_events_tail (e : pyexn) : run_tail (error_events e).
Proof. destruct e; constructor. Qed.

(** Every trace is the initial 1 percent, loop events, and one of the four
    endings. *)
Lemma trace_shape (w : worker) (env : run_env) :
  exists body tail,
    trace w env = (progressChanged 1 :: body ++ tail)%list
    /\ Forall loop_event body
    /\ run_tail tail.
Proof.
  destruct (launch env) as [[]|e] eqn:L.
  - rewrite (run_events w env L).
    destruct (loop_events w env) as [body [E F]]. unfold after_loop in E.
    destruct (loop_result w env) as [s3 [[|]|e]]; simpl in E.
    + pose proof (validate_silent env s3) as V.
      destruct (validate env s3) as [s4 [[]|e]]; simpl in V; rewrite V, E.
      * exists body; eexists; split; [reflexivity|]. split; [exact F | constructor].
      * exists body; eexists; split; [reflexivity|]. split; [exact F | apply error_events_tail].
    + exists body, []. rewrite E, app_nil_r. split; [reflexivity|]. split; [exact F | constructor].
    + rewrite E. exists body; eexists; split; [reflexivity|]. split; [exact F | apply error_events_tail].
  - rewrite (run_events_no_launch w env e L).
    exists [], (error_events e). split; [reflexivity|]. split; [constructor | apply error_events_tail].
Qed.

(* ------------------------------------------------------------------ *)
(** ** The emitted percent values *)

Lemma percents_app (a b : list event) :
  percents (a ++ b) = (percents a ++ percents b)%list.
Proof.
  induction a as [|e a IH]; [reflexivity|].
  destruct e; simpl; rewrite IH; reflexivity.
Qed.

Lemma loop_percents (body : list event) :
  Forall loop_event body -> Forall (fun v => 5 <= v <= 95) (percents body).
Proof.
  induction 1 as [|e body He _ IH]; [constructor|].
  destruct e; simpl; try exact IH. constructor; [exact He | exact IH].
Qed.

Lemma tail_percents (tail : list event) :
  run_tail tail -> Forall (fun v => 1 <= v <= 100) (percents tail).
Proof. destruct 1; simpl; repeat constructor; lia. Qed.

(** In loop events followed by an ending, a terminal signal is last and 100
    percent is followed by the finished signal and nothing else. *)
Lemma ending_is_last (body tail pre post : list event) (e : event) :
  Forall loop_event body -> run_tail tail ->
  (body ++ tail)%list = (pre ++ e :: post)%list ->
  (terminal e = true -> post = [])
  /\ (e = progressChanged 100 -> exists title path, post = [finished title path]).
Proof.
  intros F T. revert pre. induction F as [|b body Hb F IH]; intros pre E.
  - simpl in E. destruct T.
    + destruct pre; discriminate.
    + destruct pre as [|x [|y pre]]; inversion E; subst.
      split; [reflexivity | discriminate].
    + destruct pre as [|x [|y [|z pre]]]; inversion E; subst.
      * split; discriminate.
      * split; [reflexivity | discriminate].
    + destruct pre as [|x [|y [|z pre]]]; inversion E; subst.
      * split; [discriminate | eauto].
      * split; [reflexivity | discriminate].
  - destruct pre as [|x pre]; simpl in E; inversion E; subst.
    + split.
      * intros Te. destruct e; simpl in Te, Hb; try discriminate; contradiction.
      * intros ->. simpl in Hb. lia.
    + eapply IH. eassumption.
Qed.

(** For the percentages that the downloader prints, [int(pct_int * 0.75)] is
    three quarters of the percentage, rounded down. *)
Lemma adjusted_percent (p : Z) : 0 <= p <= 100 -> adjusted p = Ok (3 * p / 4).
Proof.
  intros H.
  assert (F : forallb (fun n => match adjusted (Z.of_nat n) with
                                | Ok a => a =? 3 * Z.of_nat n / 4
                                | Raise _ => false
                                end) (seq 0 101) = true) by (vm_compute; reflexivity).
  rewrite forallb_forall in F. specialize (F (Z.to_nat p)).
  rewrite Z2Nat.id in F by lia.
  destruct (adjusted p) as [a|e].
  - f_equal. apply Z.eqb_eq, F, in_seq. lia.
  - discriminate F. apply in_seq. lia.
Qed.

Lemma bind_snd_ok {S A B} (m : St S A) (k : A -> St S B) (s : S) (a : A) :
  snd (m s) = Ok a -> bind m k s = k a (fst (m s)).
Proof. unfold bind. destruct (m s) as [s' r]. simpl. intros ->. reflexivity. Qed.

(** A line without a fatal phrase passes the scan for errors. *)
Lemma scan_errors_ok (line : string) (s : run_state) :
  fatal_line line = false -> snd (scan_errors line s) = Ok tt.
Proof.
  unfold fatal_line. intros F.
  repeat (apply orb_false_iff in F; destruct F as [F ?]).
  unfold scan_errors.
  match goal with
  | |- snd (bind ?m ?k s) = _ =>
      assert (O : snd (m s) = Ok tt) by (destruct (has "ERROR:" line || has "Error:" line)%bool; reflexivity);
      rewrite (bind_snd_ok m k s tt O)
  end.
  rewrite bind_get.
  repeat match goal with H : has _ line = false |- _ => rewrite H; clear H end.
  cbn [orb].
  repeat match goal with
         | |- context [if ?b then _ else _] => destruct b
         end; reflexivity.
Qed.

Lemma timed_crawl_ok (t : pyfloat) (s : run_state) : snd (timed_crawl t s) = Ok tt.
Proof.
  unfold timed_crawl. rewrite bind_get.
  destruct (_ && _ && _)%bool; reflexivity.
Qed.

Lemma partition_destination (rest : string) :
  PyStr.partition "Destination:" ("[download] Destination:" ++ rest)
  = Some ("[download] ", rest).
Proof. reflexivity. Qed.

(** A destination line sets the path and emits 5 percent; no line makes the
    statement fail. *)
Lemma destination_eval (line : string) (s : run_state) :
  snd (destination line s) = Ok tt
  /\ (PyStr.startswith line "[download] Destination:" = true ->
      events (fst (destination line s)) = (events s ++ [progressChanged 5])%list).
Proof.
  unfold destination.
  destruct (PyStr.startswith line "[download] Destination:") eqn:P; cbn [when].
  2:{ split; [reflexivity | discriminate]. }
  destruct (prefix_split _ _ P) as [rest ->].
  unfold PyStr.split1. rewrite partition_destination. split; [reflexivity|].
  intros _. reflexivity.
Qed.

(** What the percent of a line makes the loop emit: for the percent token
    [pct_str] of the line, read as the number [v] with integer part [p]
    between 0 and 100, the percent [max(5, min(75, floor(3 p / 4)))]. *)
Lemma percent_part_eval (line : string) (t : pyfloat) (s : run_state)
    (pct_str : string) (v : pyfloat) (p : Z) :
  find_pct (PyStr.split line) = Some pct_str ->
  PyFloat.of_string pct_str = Ok v ->
  PyFloat.to_int v = Ok p ->
  0 <= p <= 100 ->
  snd (percent_part line t s) = Ok tt
  /\ events (fst (percent_part line t s))
     = (events s ++ [progressChanged (Z.max 5 (Z.min 75 (3 * p / 4)))])%list.
Proof.
  intros F V I R.
  assert (E : exists s',
             percent_part line t s = (s', Ok tt)
             /\ events s'
                = (events s ++ [progressChanged (Z.max 5 (Z.min 75 (3 * p / 4)))])%list).
  { unfold percent_part. rewrite F.
    rewrite bind_lift, V. rewrite bind_modify. rewrite bind_lift, I.
    rewrite bind_lift, (adjusted_percent p R).
    unfold emit. rewrite !bind_modify. rewrite bind_get.
    match goal with
    | |- context [when ?b _] => destruct b
    end; eexists; split; reflexivity. }
  destruct E as [s' [E1 E2]]. rewrite E1. split; [reflexivity | exact E2].
Qed.

Lemma grows_after (P : event -> Prop) (s s1 s2 : run_state) (mid : list event) :
  events s1 = (events s ++ mid)%list -> grows P s1 s2 ->
  exists post, events s2 = (events s ++ mid ++ post)%list.
Proof.
  intros E [new [E2 _]]. exists new. rewrite E2, E, app_assoc. reflexivity.
Qed.

(** A progress line emits the percent of its percent token, whatever the
    state, and does not fail. *)
Lemma progress_emits (line : string) (t : pyfloat) (s : run_state)
    (pct_str : string) (v : pyfloat) (p : Z) :
  PyStr.startswith line "[download]" = true -> has "%" line = true ->
  find_pct (PyStr.split line) = Some pct_str ->
  PyFloat.of_string pct_str = Ok v ->
  PyFloat.to_int v = Ok p ->
  0 <= p <= 100 ->
  snd (progress line t s) = Ok tt
  /\ exists post,
       events (fst (progress line t s))
       = (events s ++ [progressChanged (Z.max 5 (Z.min 75 (3 * p / 4)))] ++ post)%list.
Proof.
  intros D H F V I R. unfold progress. rewrite D, H. cbn [andb when].
  destruct (percent_part_eval line t s pct_str v p F V I R) as [O E].
  assert (G : steps (grows loop_event)
                (size_part line ;;
                 speed_text <- speed_part line ;;
                 eta_text <- eta_part line ;;
                 status_part speed_text eta_text)).
  { intros x.
    assert (L : steps loop_inv
                  (size_part line ;;
                   speed_text <- speed_part line ;;
                   eta_text <- eta_part line ;;
                   status_part speed_text eta_text)).
    { then_ size_part_inv. then_ speed_part_inv. then_ eta_part_inv.
      apply status_part_inv. }
    apply (L x). }
  unfold try_, progress_body. rewrite (bind_snd_ok _ _ _ tt O).
  specialize (G (fst (percent_part line t s))).
  destruct (grows_after _ _ _ _ _ E G) as [post Ep].
  match goal with |- context [(?m ;; ?k) ?x] => destruct ((m ;; k) x) as [s' [a|e]] end;
    cbn [fst snd] in *; (split; [try reflexivity; destruct a; reflexivity|]);
    exists post; exact Ep.
Qed.

Lemma for_lines_app (a b : list stdout_line) (s s' : run_state) :
  for_lines a s = (s', Ok Exhausted) -> for_lines (a ++ b) s = for_lines b s'.
Proof.
  revert s. induction a as [|ln a IH]; simpl; intros s H.
  - inversion H. reflexivity.
  - destruct (cancel_requested ln).
    + unfold bind in H. simpl in H. inversion H.
    + unfold bind in *. destruct (process_line ln s) as [s1 [[]|e]]; [|inversion H].
      apply IH, H.
Qed.

(** The statements of an iteration that follow the reading of the percent *)
Lemma after_progress_grows (line : string) (t : pyfloat) :
  steps (grows loop_event)
    (download_end line t ;;
     conversion_start line t ;;
     crawl conversion_indicators line t ;;
     conversion_end line t).
Proof.
  intros x.
  assert (L : steps loop_inv
                (download_end line t ;;
                 conversion_start line t ;;
                 crawl conversion_indicators line t ;;
                 conversion_end line t)).
  { then_ download_end_inv. then_ conversion_start_inv. then_ crawl_inv.
    apply conversion_end_inv. }
  apply (L x).
Qed.

Lemma grows_before (P : event -> Prop) (s s1 s2 : run_state) (mid post : list event) :
  grows P s s1 -> events s2 = (events s1 ++ mid ++ post)%list ->
  exists pre, events s2 = (events s ++ pre ++ mid ++ post)%list.
Proof.
  intros [new [E _]] E2. exists new. rewrite E2, E, <- app_assoc. reflexivity.
Qed.

(** The iteration for a destination line emits 5 percent, whatever the
    state. *)
Lemma process_line_destination (ln : stdout_line) (s : run_state) :
  let line := PyStr.strip (text ln) in
  fatal_line line = false ->
  PyStr.startswith line "[download] Destination:" = true ->
  exists pre post,
    events (fst (process_line ln s)) = (events s ++ pre ++ progressChanged 5 :: post)%list.
Proof.
  intros line F D. unfold process_line. fold line.
  rewrite (bind_snd_ok _ _ _ tt (scan_errors_ok line s F)).
  pose proof (proj1 (scan_errors_inv line s)) as G1.
  set (s1 := fst (scan_errors line s)) in *.
  rewrite (bind_snd_ok _ _ _ tt (timed_crawl_ok (now ln) s1)).
  pose proof (proj1 (timed_crawl_inv (now ln) s1)) as G2.
  set (s2 := fst (timed_crawl (now ln) s1)) in *.
  destruct (destination_eval line s2) as [O E]. specialize (E D).
  rewrite (bind_snd_ok _ _ _ tt O).
  set (s3 := fst (destination line s2)) in *.
  assert (G3 : grows loop_event s3
                 (fst ((progress line (now ln) ;;
                        download_end line (now ln) ;;
                        conversion_start line (now ln) ;;
                        crawl conversion_indicators line (now ln) ;;
                        conversion_end line (now ln)) s3))).
  { assert (L : steps loop_inv
                  (progress line (now ln) ;;
                   download_end line (now ln) ;;
                   conversion_start line (now ln) ;;
                   crawl conversion_indicators line (now ln) ;;
                   conversion_end line (now ln))).
    { then_ progress_inv. then_ download_end_inv. then_ conversion_start_inv.
      then_ crawl_inv. apply conversion_end_inv. }
    apply (L s3). }
  destruct (grows_after _ _ _ _ _ E G3) as [post Ep].
  destruct (grows_before _ s s2 _ [progressChanged 5] post
              (grows_trans _ _ _ _ G1 G2) Ep) as [pre Eq].
  exists pre, post. exact Eq.
Qed.

(** The iteration for a progress line emits the percent of its percent
    token, whatever the state. *)
Lemma process_line_percent (ln : stdout_line) (s : run_state)
    (pct_str : string) (v : pyfloat) (p : Z) :
  let line := PyStr.strip (text ln) in
  fatal_line line = false ->
  PyStr.startswith line "[download]" = true -> has "%" line = true ->
  find_pct (PyStr.split line) = Some pct_str ->
  PyFloat.of_string pct_str = Ok v ->
  PyFloat.to_int v = Ok p ->
  0 <= p <= 100 ->
  exists pre post,
    events (fst (process_line ln s))
    = (events s ++ pre ++ progressChanged (Z.max 5 (Z.min 75 (3 * p / 4))) :: post)%list.
Proof.
  intros line F D H Fp V I R. unfold process_line. fold line.
  rewrite (bind_snd_ok _ _ _ tt (scan_errors_ok line s F)).
  pose proof (proj1 (scan_errors_inv line s)) as G1.
  set (s1 := fst (scan_errors line s)) in *.
  rewrite (bind_snd_ok _ _ _ tt (timed_crawl_ok (now ln) s1)).
  pose proof (proj1 (timed_crawl_inv (now ln) s1)) as G2.
  set (s2 := fst (timed_crawl (now ln) s1)) in *.
  rewrite (bind_snd_ok _ _ _ tt (proj1 (destination_eval line s2))).
  pose proof (proj1 (destination_inv line s2)) as G3.
  set (s3 := fst (destination line s2)) in *.
  destruct (progress_emits line (now ln) s3 pct_str v p D H Fp V I R) as [O [mid E]].
  rewrite (bind_snd_ok _ _ _ tt O).
  set (s4 := fst (progress line (now ln) s3)) in *.
  pose proof (after_progress_grows line (now ln) s4) as G4.
  destruct (grows_after _ _ _ _ _ E G4) as [post Ep].
  rewrite <- app_assoc in Ep.
  destruct (grows_before _ s s3 _ _ _
              (grows_trans _ _ _ _ (grows_trans _ _ _ _ G1 G2) G3) Ep) as [pre Eq].
  exists pre, (mid ++ post)%list. exact Eq.
Qed.

(** The events of a run whose downloader was launched start with those of
    the loop. *)
Lemma trace_after_loop (w : worker) (env : run_env) :
  launch env = Ok tt -> exists tail, trace w env = (events (after_loop w env) ++ tail)%list.
Proof.
  intros L. rewrite (run_events w env L). unfold after_loop.
  destruct (loop_result w env) as [s3 [[|]|e]]; cbn [fst].
  - pose proof (validate_silent env s3) as V.
    destruct (validate env s3) as [s4 [[]|e]]; cbn [fst] in V; rewrite V; eauto.
  - exists []. now rewrite app_nil_r.
  - eauto.
Qed.

(** The events of the run begin with those up to the end of the iteration
    for a line, when the loop gets to that line. *)
Lemma line_event_in_trace (w : worker) (env : run_env)
    (before after : list stdout_line) (ln : stdout_line) (s : run_state) :
  launch env = Ok tt ->
  stdout env = (before ++ ln :: after)%list ->
  for_lines before (started w env) = (s, Ok Exhausted) ->
  cancel_requested ln = false ->
  exists rest, trace w env = (events (fst (process_line ln s)) ++ rest)%list.
Proof.
  intros L O B C.
  destruct (trace_after_loop w env L) as [tail T]. rewrite T.
  unfold after_loop, loop_result. rewrite O, (for_lines_app _ _ _ _ B).
  cbn [for_lines]. rewrite C.
  assert (G : grows loop_event (fst (process_line ln s))
                (fst ((process_line ln ;; for_lines after) s))).
  { unfold bind. destruct (process_line ln s) as [s1 [[]|x]]; cbn [fst].
    - apply for_lines_grows.
    - apply grows_refl. }
  destruct G as [new [G _]]. rewrite G.
  exists (new ++ tail)%list. rewrite <- app_assoc. reflexivity.
Qed.

(** C1, as the code has it. Every run emits 1 percent first; every emitted
    percent lies between 1 and 100, so the worker never resets the percent to
    0, not even before an error; a terminal signal (finished or error) is the
    last event of the run, so no percent follows it; 100 percent is emitted
    only directly before the finished signal.  Between the first and the
    last value the sequence may fall: when the loop gets to a line without a
    fatal phrase, the iteration for a destination line emits 5 percent and
    the one for a progress line whose percent token has the integer part
    [p], from 0 to 100, emits [max(5, min(75, floor(3 p / 4)))], whatever
    was emitted before, and the events of the run begin with those up to the
    end of that iteration.  That value rises with [p]: for
    [0 <= p <= q <= 100] the value for [p] is at most the value for [q]. *)
Theorem C1_percent_range_and_ending (w : worker) (env : run_env) :
  (exists rest, trace w env = progressChanged 1 :: rest)
  /\ Forall (fun v => 1 <= v <= 100) (percents (trace w env))
  /\ (forall pre e post,
        trace w env = (pre ++ e :: post)%list -> terminal e = true -> post = [])
  /\ (forall pre post,
        trace w env = (pre ++ progressChanged 100 :: post)%list ->
        exists title path, post = [finished title path])
  /\ (forall before ln after s,
        launch env = Ok tt ->
        stdout env = (before ++ ln :: after)%list ->
        for_lines before (started w env) = (s, Ok Exhausted) ->
        cancel_requested ln = false ->
        let line := PyStr.strip (text ln) in
        fatal_line line = false ->
        (exists rest, trace w env = (events (fst (process_line ln s)) ++ rest)%list)
        /\ (PyStr.startswith line "[download] Destination:" = true ->
            exists pre post,
              events (fst (process_line ln s))
              = (events s ++ pre ++ progressChanged 5 :: post)%list)
        /\ (forall pct_str v p,
              PyStr.startswith line "[download]" = true -> has "%" line = true ->
              find_pct (PyStr.split line) = Some pct_str ->
              PyFloat.of_string pct_str = Ok v ->
              PyFloat.to_int v = Ok p ->
              0 <= p <= 100 ->
              adjusted p = Ok (3 * p / 4)
              /\ exists pre post,
                   events (fst (process_line ln s))
                   = (events s ++ pre
                      ++ progressChanged (Z.max 5 (Z.min 75 (3 * p / 4))) :: post)%list))
  /\ (forall p q,
        0 <= p <= q -> q <= 100 ->
        Z.max 5 (Z.min 75 (3 * p / 4)) <= Z.max 5 (Z.min 75 (3 * q / 4))).
Proof.
  destruct (trace_shape w env) as [body [tail [E [F T]]]].
  split; [rewrite E; eauto|]. split.
  { rewrite E. simpl. constructor; [lia|]. rewrite percents_app.
    apply Forall_app; split.
    - eapply Forall_impl; [|apply loop_percents; exact F]. simpl; intros; lia.
    - apply tail_percents; exact T. }
  split.
  { intros pre e post Etr Te. rewrite E in Etr.
    destruct pre as [|x pre]; simpl in Etr; inversion Etr; subst.
    - discriminate.
    - eapply ending_is_last; eassumption. }
  split.
  { intros pre post Etr. rewrite E in Etr.
    destruct pre as [|x pre]; simpl in Etr; inversion Etr; subst.
    eapply ending_is_last; try eassumption. reflexivity. }
  split.
  - intros before ln after s L O B C line Fa.
    split; [exact (line_event_in_trace w env before after ln s L O B C)|]. split.
    + intros D. exact (process_line_destination ln s Fa D).
    + intros pct_str v p D H Fp V I R. split; [apply adjusted_percent, R|].
      exact (process_line_percent ln s pct_str v p Fa D H Fp V I R).
  - intros p q Hp Hq.
    assert (3 * p / 4 <= 3 * q / 4) by (apply Z.div_le_mono; lia). lia.
Qed.

Lemma C1_percent_range_and_ending_witness :
  let tr := trace sample_worker two_stream_run in
  let done := finished "clip.mp4" "/dl/clip.mp4" in
  let pre := removelast (removelast tr) in
  let before := [at_ 1 "[download] Destination: /dl/clip.f137.mp4"] in
  let ln := at_ 2 "[download]  50.0% of 10.00MiB at 1.00MiB/s ETA 00:05" in
  let s := fst (for_lines before (started sample_worker two_stream_run)) in
  tr = (pre ++ progressChanged 100 :: [done])%list
  /\ terminal done = true
  /\ (exists title path, [done] = [finished title path])
  /\ Forall (fun v => 1 <= v <= 100) (percents tr)
  /\ (for_lines before (started sample_worker two_stream_run) = (s, Ok Exhausted)
      /\ (exists rest, tr = (events (fst (process_line ln s)) ++ rest)%list)
      /\ exists pre' post',
           events (fst (process_line ln s))
           = (events s ++ pre' ++ progressChanged 37 :: post')%list).
Proof.
  intros tr done pre before ln s.
  assert (E : tr = (pre ++ progressChanged 100 :: [done])%list) by (vm_compute; reflexivity).
  assert (E' : tr = ((pre ++ [progressChanged 100]) ++ done :: [])%list)
    by (vm_compute; reflexivity).
  assert (B : for_lines before (started sample_worker two_stream_run) = (s, Ok Exhausted))
    by (vm_compute; reflexivity).
  destruct (C1_percent_range_and_ending sample_worker two_stream_run)
    as [_ [R [T [H [L _]]]]].
  split; [exact E|]. split; [reflexivity|]. split; [exact (H pre [done] E)|].
  pose proof (T (pre ++ [progressChanged 100])%list done [] E' eq_refl) as _.
  split; [exact R|]. split; [exact B|].
  destruct (L before ln _ s eq_refl eq_refl B eq_refl eq_refl) as [Q [_ P]].
  split; [exact Q|].
  destruct (P "50.0" (Fin (50 # 1)) 50) as [_ X];
    [reflexivity | reflexivity | reflexivity | vm_compute; reflexivity
    | vm_compute; reflexivity | lia |].
  exact X.
Defined.

(** C1 as stated fails: in the run that downloads a video and an audio
    stream and merges them, which ends with the finished signal and without
    any error, the percent falls from 75 to 5 when the second stream starts,
    and from 81 to 37 and to 75 afterwards. *)
Lemma C1_counterexample :
  percents (trace sample_worker two_stream_run)
  = [1; 5; 37; 75; 75; 5; 75; 81; 37; 81; 75; 75; 80; 81; 81; 81; 100]
  /\ List.last (trace sample_worker two_stream_run) (progressChanged 0)
     = finished "clip.mp4" "/dl/clip.mp4"
  /\ nondecreasing_but_reset 0 (trace sample_worker two_stream_run) = false.
Proof. vm_compute. repeat split. Qed.

(* ------------------------------------------------------------------ *)
(** ** The post-processing crawl *)

(** C6 (the code falls short of it). The crawl value is
    [min(94, self._get_last_progress() + 1)], but [_get_last_progress]
    returns 80 whatever was emitted, so every crawl event carries 81.  In the
    sample run with post-processing the three crawl events after the jump to
    80 are 81, 81, 81, where the percent emitted last was 80, 81, 81: the
    second and third are not [min(94, 81 + 1) = 82]. *)
Theorem C6_crawl_stays_at_81 :
  (forall w, _get_last_progress w = 80 /\ crawl_value w = 81)
  /\ percents (trace sample_worker postprocessing_run)
     = [1; 5; 30; 75; 75; 80; 81; 81; 81; 100]
  /\ Z.min 94 (81 + 1) = 82.
Proof. split; [intros w; split; reflexivity | vm_compute; repeat split]. Qed.

(* ------------------------------------------------------------------ *)
(** ** Single lines *)

Lemma timed_crawl_idle (t : pyfloat) (st : run_state) :
  download_completed st = false -> timed_crawl t st = (st, Ok tt).
Proof.
  intros H. unfold timed_crawl. rewrite bind_get, H.
  rewrite Bool.andb_false_r. reflexivity.
Qed.

(** C3. Reading the line
    ["[download]  12.3% of 50.00MiB at 2.31MiB/s ETA 00:40"] at the start of
    a run emits the percent 9, which is [int(12.3 * 0.75)] clamped into
    [5, 75]; records the total size [50.00 * 1024^2] bytes; emits the size
    text and a status text with the speed text ["2.31 MB/s"] and the ETA
    ["00:40"]; the downloaded bytes in that status text are
    [(12.3 / 100) * total], shown as ["6.15 MB"]. *)
Theorem C3_progress_line
    (url output_dir mode channel : string) (no_playlist : bool)
    (env : run_env) (t : pyfloat) :
  let w := __init__ url output_dir mode no_playlist channel in
  let ln := {| text := progress_line; now := t; cancel_requested := false |} in
  let out := process_line ln (init_state w env) in
  snd out = Ok tt
  /\ events (fst out)
     = [progressChanged 9;
        sizeTextChanged "50.00 MB";
        downloadStatsChanged
          "Descargando… 6.15 MB de 50.00 MB — 2.31 MB/s — 00:40 restantes"]
  /\ (exists pct product,
        PyFloat.of_string "12.3" = Ok pct
        /\ PyFloat.to_int (PyFloat.fmul pct f0_75) = Ok product
        /\ Z.max 5 (Z.min 75 product) = 9
        /\ last_pct_val (fst out) = Some pct
        /\ exists done,
             downloaded_bytes pct (Fin (inject_Z (50 * 1024 ^ 2))) = Ok done
             /\ done = PyFloat.fmul (PyFloat.round64 (12.3 / 100))
                                    (Fin (inject_Z (50 * 1024 ^ 2)))
             /\ _humanize_bytes done = Ok "6.15 MB")
  /\ total_size_bytes (fst out) = Some (Fin (inject_Z (50 * 1024 ^ 2)))
  /\ _download_size_bytes (self (fst out)) = Fin (inject_Z (50 * 1024 ^ 2))
  /\ _size_token_to_bytes "50.00MiB" = Ok (Some (PyFloat.fmul (Fin 50) (f1024 2)))
  /\ _humanize_speed "2.31MiB/s" = Ok "2.31 MB/s"
  /\ snd (eta_part progress_line (init_state w env)) = Ok "00:40"
  /\ _format_eta "00:40" = Ok "00:40".
Proof.
  intros w ln out.
  assert (E : exists s1, out = (s1, Ok tt)
              /\ events s1 = [progressChanged 9; sizeTextChanged "50.00 MB";
                   downloadStatsChanged
                     "Descargando… 6.15 MB de 50.00 MB — 2.31 MB/s — 00:40 restantes"]
              /\ last_pct_val s1 = Some (Fin (3462142213541069 # 281474976710656))
              /\ total_size_bytes s1 = Some (Fin (inject_Z (50 * 1024 ^ 2)))
              /\ _download_size_bytes (self s1) = Fin (inject_Z (50 * 1024 ^ 2))).
  { subst out ln. unfold process_line. cbn [text now].
    replace (PyStr.strip progress_line) with progress_line by (vm_compute; reflexivity).
    erewrite bind_ok by (vm_compute; reflexivity).
    erewrite bind_ok by (apply timed_crawl_idle; reflexivity).
    vm_compute. eexists. split; [reflexivity|]. repeat split. }
  destruct E as [s1 [-> [Ev [Ep [Et Ed]]]]]. cbn [fst snd].
  split; [reflexivity|]. split; [exact Ev|]. split.
  { exists (Fin (3462142213541069 # 281474976710656)), 9.
    split; [vm_compute; reflexivity|]. split; [vm_compute; reflexivity|].
    split; [reflexivity|]. split; [exact Ep|].
    eexists. split; [vm_compute; reflexivity|]. split; vm_compute; reflexivity. }
  split; [exact Et|]. split; [exact Ed|].
  repeat split; vm_compute; reflexivity.
Qed.

(** C7. Reading the line ["ERROR: Video unavailable"] appends the raw line to
    the diagnostic log and raises the exception whose message is the Spanish
    text for "video not available"; the run then ends with the error signal
    that carries that text (inside the frame that [run] puts around the
    message of every such exception), and the raw line is no part of it. *)
Theorem C7_video_unavailable (st : run_state) (t : pyfloat) (c : bool) :
  let ln := {| text := unavailable_line; now := t; cancel_requested := c |} in
  let out := process_line ln st in
  snd out = Raise (PyException msg_video_unavailable)
  /\ events (fst out) = (events st ++ [debug_log (ErrorLine unavailable_line)])%list
  /\ error_events (PyException msg_video_unavailable)
     = [debug_log (Traceback msg_video_unavailable);
        errorOccurred (unexpected msg_video_unavailable)]
  /\ PyStr.contains msg_video_unavailable (unexpected msg_video_unavailable) = true
  /\ PyStr.contains unavailable_line (unexpected msg_video_unavailable) = false
  /\ forall w env rest,
       launch env = Ok tt ->
       stdout env = {| text := unavailable_line; now := t; cancel_requested := false |} :: rest ->
       trace w env
       = [progressChanged 1;
          debug_log (ErrorLine unavailable_line);
          debug_log (Traceback msg_video_unavailable);
          errorOccurred (unexpected msg_video_unavailable)].
Proof.
  intros ln out.
  assert (E : forall s, process_line ln s
                = (set_events (events s ++ [debug_log (ErrorLine unavailable_line)])%list
                     (set_error_message unavailable_line (set_error_detected true s)),
                   Raise (PyException msg_video_unavailable))).
  { intros s. reflexivity. }
  subst out. rewrite E. cbn [fst snd].
  split; [reflexivity|]. split; [reflexivity|]. split; [reflexivity|].
  split; [vm_compute; reflexivity|]. split; [vm_compute; reflexivity|].
  intros w env rest L S.
  rewrite (run_events w env L). unfold loop_result. rewrite S.
  cbn [for_lines cancel_requested].
  erewrite bind_raise by apply E. reflexivity.
Qed.

Lemma C7_video_unavailable_witness :
  let env := {| launch := Ok tt; started_at := Fin 0%Q;
                stdout := [at_ 1 unavailable_line]; returncode := 1; disk := [] |} in
  launch env = Ok tt
  /\ trace sample_worker env
     = [progressChanged 1;
        debug_log (ErrorLine unavailable_line);
        debug_log (Traceback msg_video_unavailable);
        errorOccurred (unexpected msg_video_unavailable)].
Proof.
  intros env. split; [reflexivity|].
  exact (proj2 (proj2 (proj2 (proj2 (proj2
           (C7_video_unavailable (init_state sample_worker env) (Fin (inject_Z 1)) false)))))
         sample_worker env [] eq_refl eq_refl).
Defined.

(* ------------------------------------------------------------------ *)
(** ** The token helpers *)

Lemma try_except_ok {A} (body : result A) (h : pyexn -> result A) :
  (forall e, exists a, h e = Ok a) -> exists a, try_except body h = Ok a.
Proof. intros H. destruct body as [a|e]; simpl; [eauto | apply H]. Qed.

Lemma humanize_no_match (token : string) :
  re_match_size token = None -> _humanize_yt_dlp_size token = Ok "".
Proof. intros H. unfold _humanize_yt_dlp_size. rewrite H. reflexivity. Qed.

Lemma bytes_no_match (token : string) :
  re_match_size token = None -> _size_token_to_bytes token = Ok None.
Proof. intros H. unfold _size_token_to_bytes. rewrite H. reflexivity. Qed.

Lemma format_eta_malformed (token : string) :
  eta_well_formed token = false -> _format_eta token = Ok token.
Proof.
  unfold eta_well_formed, _format_eta, is_int, is_seconds, try_except, rbind.
  destruct (PyStr.split_char ":" token) as [|a [|b [|c [|d l]]]];
    repeat (match goal with
            | |- context [PyInt.of_string ?x] => destruct (PyInt.of_string x)
            | |- context [PyFloat.of_string ?x] => destruct (PyFloat.of_string x)
            | |- context [PyFloat.to_int ?x] => destruct (PyFloat.to_int x)
            end; cbn beta iota);
    cbn [andb]; intros; try discriminate; reflexivity.
Qed.

Lemma size_kept_refl (s : run_state) : size_kept s s.
Proof. repeat split. apply grows_refl. Qed.

Lemma size_kept_trans (a b c : run_state) :
  size_kept a b -> size_kept b c -> size_kept a c.
Proof.
  intros [T1 [D1 G1]] [T2 [D2 G2]]. split; [congruence|]. split; [congruence|].
  eapply grows_trans; eassumption.
Qed.

Lemma size_kept_frame (f : run_state -> run_state) :
  (forall s, total_size_text (f s) = total_size_text s
             /\ _download_size_bytes (self (f s)) = _download_size_bytes (self s)
             /\ events (f s) = events s) ->
  steps size_kept (modify f).
Proof.
  intros H s. destruct (H s) as [T [D E]]. split; [exact T|]. split; [exact D|].
  exists []. simpl. rewrite E, app_nil_r. split; [reflexivity | constructor].
Qed.

Lemma size_kept_percent (v : Z) : steps size_kept (emit (progressChanged v)).
Proof.
  intros s. split; [reflexivity|]. split; [reflexivity|].
  exists [progressChanged v]. split; [reflexivity | repeat constructor].
Qed.

Lemma percent_part_size_kept (line : string) (t : pyfloat) :
  steps size_kept (percent_part line t).
Proof.
  unfold percent_part.
  steps_with size_kept_refl size_kept_trans;
    first [ apply size_kept_percent
          | apply size_kept_frame; intros; repeat split ].
Qed.

Lemma size_part_no_match (line token : string) (s : run_state) :
  has " of " line = true ->
  size_token_of line = Ok token ->
  re_match_size token = None ->
  size_part line s = (set_total_size_bytes None s, Ok tt).
Proof.
  intros H T N. unfold size_part. rewrite H. cbn [when].
  rewrite bind_lift, T, bind_lift, (humanize_no_match _ N), bind_get.
  cbn [PyStr.truthy andb when].
  unfold bind at 1. cbn [ret].
  rewrite bind_lift, (bytes_no_match _ N). reflexivity.
Qed.

Lemma speed_part_state (line : string) (s : run_state) : fst (speed_part line s) = s.
Proof.
  unfold speed_part. destruct (has " at " line); [|reflexivity].
  rewrite bind_lift. destruct (index _ 1); [|reflexivity].
  rewrite bind_lift. destruct (index _ 0); reflexivity.
Qed.

Lemma eta_part_state (line : string) (s : run_state) : fst (eta_part line s) = s.
Proof. unfold eta_part. destruct (has " ETA " line); reflexivity. Qed.

Lemma status_part_without_total (speed_text eta_text : string) (s : run_state) :
  total_size_bytes s = None -> status_part speed_text eta_text s = (s, Ok tt).
Proof.
  intros H. unfold status_part. rewrite bind_get, H.
  destruct (last_pct_val s); reflexivity.
Qed.

(** A progress line whose size token does not match keeps the size text and
    the expected size and emits at most a percent. *)
Lemma progress_without_size (line token : string) (t : pyfloat) (s : run_state) :
  has " of " line = true ->
  size_token_of line = Ok token ->
  re_match_size token = None ->
  size_kept s (fst (progress line t s)).
Proof.
  intros H T N. unfold progress.
  destruct (PyStr.startswith line "[download]" && has "%" line)%bool;
    [|apply size_kept_refl].
  cbn [when]. unfold try_, progress_body.
  pose proof (percent_part_size_kept line t s) as P.
  unfold bind at 1.
  destruct (percent_part line t s) as [s1 [[]|e]]; cbn [fst] in P; [|exact P].
  unfold bind at 1. rewrite (size_part_no_match line token s1 H T N).
  assert (K : size_kept s (set_total_size_bytes None s1)).
  { destruct P as [P1 [P2 P3]]. repeat split; assumption. }
  unfold bind at 1.
  pose proof (speed_part_state line (set_total_size_bytes None s1)) as S.
  destruct (speed_part line (set_total_size_bytes None s1)) as [s2 [sp|e]];
    cbn [fst] in S; subst s2; [|exact K].
  unfold bind at 1.
  pose proof (eta_part_state line (set_total_size_bytes None s1)) as E.
  destruct (eta_part line (set_total_size_bytes None s1)) as [s3 [et|e]];
    cbn [fst] in E; subst s3; [|exact K].
  rewrite status_part_without_total by reflexivity. exact K.
Qed.

(** C10. The three helpers return for every string.  A size token that is
    not a number followed by KiB, MiB, GiB (or KB, MB, GB), such as
    ["~50.00MiB"] or ["1.5TiB"], gives the empty text and [None], and a
    progress line with such a token after [" of "] changes neither the size
    text nor the expected size and emits no size or status signal.  An ETA
    token that is not well-formed is returned as it is. *)
Theorem C10_token_helpers (token : string) :
  (exists text, _humanize_yt_dlp_size token = Ok text)
  /\ (exists bytes, _size_token_to_bytes token = Ok bytes)
  /\ (exists text, _format_eta token = Ok text)
  /\ (re_match_size token = None ->
      _humanize_yt_dlp_size token = Ok "" /\ _size_token_to_bytes token = Ok None)
  /\ re_match_size "~50.00MiB" = None
  /\ re_match_size "1.5TiB" = None
  /\ (forall line t s,
        has " of " line = true ->
        size_token_of line = Ok token ->
        re_match_size token = None ->
        size_kept s (fst (progress line t s)))
  /\ (eta_well_formed token = false -> _format_eta token = Ok token).
Proof.
  split; [apply try_except_ok; eauto|].
  split; [apply try_except_ok; eauto|].
  split; [apply try_except_ok; eauto|].
  split; [intros N; split; [apply humanize_no_match | apply bytes_no_match]; exact N|].
  split; [reflexivity|]. split; [reflexivity|].
  split; [intros line t s; apply progress_without_size|].
  apply format_eta_malformed.
Qed.

Lemma C10_token_helpers_witness :
  re_match_size "~50.00MiB" = None
  /\ eta_well_formed "Unknown" = false
  /\ _humanize_yt_dlp_size "~50.00MiB" = Ok ""
  /\ _size_token_to_bytes "~50.00MiB" = Ok None
  /\ _format_eta "Unknown" = Ok "Unknown"
  /\ forall s,
       size_kept s (fst (progress "[download]  12.3% of ~50.00MiB at 2.31MiB/s ETA 00:40"
                                  (Fin 1%Q) s)).
Proof.
  split; [reflexivity|]. split; [reflexivity|].
  pose proof (C10_token_helpers "~50.00MiB") as [_ [_ [_ [N [_ [_ [P _]]]]]]].
  pose proof (C10_token_helpers "Unknown") as [_ [_ [_ [_ [_ [_ [_ E]]]]]]].
  split; [apply N; reflexivity|]. split; [apply N; reflexivity|].
  split; [apply E; reflexivity|].
  intros s. apply P; reflexivity.
Defined.

(* ------------------------------------------------------------------ *)
(** ** The post-run checks *)

Lemma drop_prefix_app (a p r : string) :
  PyStr.drop_prefix a p = Some r -> p = a ++ r.
Proof.
  revert p; induction a as [|x a IH]; intros p H; simpl in H.
  - now inversion H.
  - destruct p as [|y p]; [discriminate|].
    destruct (Ascii.eqb x y) eqn:E; [|discriminate].
    apply Ascii.eqb_eq in E. subst y. simpl. f_equal. apply IH, H.
Qed.

Lemma truthy_app_r (a r : string) : PyStr.truthy r = true -> PyStr.truthy (a ++ r) = true.
Proof. destruct a; simpl; auto. Qed.

Lemma lookup_in (fs : FS.t) (p : string) (e : FS.entry) :
  In (p, e) fs -> exists e', FS.lookup fs p = Some e'.
Proof.
  induction fs as [|[k x] fs IH]; intros H; [contradiction|].
  simpl. destruct (String.eqb k p) eqn:E; [eauto|].
  destruct H as [H|H]; [|apply IH, H].
  inversion H; subst. rewrite String.eqb_refl in E. discriminate.
Qed.

(** What [glob] reports exists and has a non-empty path. *)
Lemma glob_in (fs : FS.t) (dir suffix p : string) :
  In p (FS.glob fs dir suffix) ->
  FS.exists_ fs p = true /\ PyStr.truthy p = true.
Proof.
  unfold FS.glob. intros H. apply in_map_iff in H. destruct H as [[k e] [<- H]].
  apply filter_In in H. destruct H as [Hin Hf]. simpl in *. split.
  - unfold FS.exists_. destruct (lookup_in _ _ _ Hin) as [e' ->]. reflexivity.
  - unfold FS.child_name in Hf.
    destruct (PyStr.drop_prefix (FS.join dir "") k) as [name|] eqn:D; [|discriminate].
    destruct (PyStr.truthy name) eqn:T; [|discriminate].
    rewrite (drop_prefix_app _ _ _ D). apply truthy_app_r, T.
Qed.

Lemma max_by_ctime_ok (fs : FS.t) (paths : list string) :
  (forall p, In p paths -> FS.exists_ fs p = true) ->
  forall best key, exists l,
    FS.max_by_ctime fs best key paths = Ok l /\ (l = best \/ In l paths).
Proof.
  induction paths as [|p paths IH]; intros H best key; simpl.
  - eauto.
  - assert (Hp : FS.exists_ fs p = true) by (apply H; left; reflexivity).
    unfold FS.getctime. unfold FS.exists_ in Hp.
    destruct (FS.lookup fs p) as [e|]; [|discriminate]. simpl.
    destruct (FS.ctime e ?= key)%Q.
    + destruct (IH (fun q Hq => H q (or_intror Hq)) best key) as [l [E [->|I]]]; eauto.
    + destruct (IH (fun q Hq => H q (or_intror Hq)) best key) as [l [E [->|I]]]; eauto.
    + destruct (IH (fun q Hq => H q (or_intror Hq)) p (FS.ctime e)) as [l [E [->|I]]]; eauto.
Qed.

Lemma latest_ok (fs : FS.t) (paths : list string) :
  paths <> [] ->
  (forall p, In p paths -> FS.exists_ fs p = true) ->
  exists l, FS.latest fs paths = Ok l /\ In l paths.
Proof.
  destruct paths as [|p paths]; [congruence|]. intros _ H. simpl.
  assert (Hp : FS.exists_ fs p = true) by (apply H; left; reflexivity).
  unfold FS.getctime. unfold FS.exists_ in Hp.
  destruct (FS.lookup fs p) as [e|]; [|discriminate]. simpl.
  destruct (max_by_ctime_ok fs paths (fun q Hq => H q (or_intror Hq)) p (FS.ctime e))
    as [l [E [->|I]]]; eauto.
Qed.

Lemma isfile_exists (fs : FS.t) (p : string) :
  FS.isfile fs p = true -> FS.exists_ fs p = true.
Proof. unfold FS.isfile, FS.exists_. destruct (FS.lookup fs p); auto. Qed.

Lemma exists_getsize (fs : FS.t) (p : string) :
  FS.exists_ fs p = true -> exists n, FS.getsize fs p = Ok n.
Proof. unfold FS.getsize, FS.exists_. destruct (FS.lookup fs p); [eauto | discriminate]. Qed.

(** The search for the artifact ends with [last_path] set to the artifact,
    or raises when there is none. *)
Lemma recover_eval (env : run_env) (s : run_state) :
  recover env s =
  match artifact (disk env) s with
  | Some p =>
      (if path_exists (disk env) (last_path s) then s else set_last_path (Some p) s, Ok tt)
  | None =>
      match FS.glob (disk env) (_output (self s)) "" with
      | [] => (s, Raise (PyException msg_no_file))
      | _ => (s, Raise (PyException msg_no_valid_file))
      end
  end.
Proof.
  unfold recover, artifact. rewrite bind_get.
  destruct (path_exists (disk env) (last_path s)) eqn:PE; cbn [negb when].
  - unfold path_exists in PE. destruct (last_path s); [reflexivity | discriminate].
  - destruct (FS.glob (disk env) (_output (self s)) "") as [|f files] eqn:G; [reflexivity|].
    destruct (latest_ok (disk env) (f :: files)) as [l [L I]]; [discriminate | |].
    { intros p Hp. rewrite <- G in Hp. apply (glob_in _ _ _ _ Hp). }
    rewrite bind_lift, L. destruct (FS.isfile (disk env) l); reflexivity.
Qed.

Lemma artifact_exists (fs : FS.t) (s : run_state) (p : string) :
  artifact fs s = Some p -> PyStr.truthy p = true /\ FS.exists_ fs p = true.
Proof.
  unfold artifact. destruct (path_exists fs (last_path s)) eqn:PE.
  - intros E. rewrite E in PE. simpl in PE. apply andb_true_iff in PE. exact PE.
  - destruct (FS.glob fs (_output (self s)) "") as [|f files] eqn:G; [discriminate|].
    destruct (latest_ok fs (f :: files)) as [l [L I]]; [discriminate | |].
    { intros q Hq. rewrite <- G in Hq. apply (glob_in _ _ _ _ Hq). }
    rewrite L. destruct (FS.isfile fs l) eqn:F; [|discriminate].
    intros E; inversion E; subst. split.
    + rewrite <- G in I. apply (glob_in _ _ _ _ I).
    + apply isfile_exists, F.
Qed.

(** The checks on the artifact [p] of a state whose [last_path] it is *)
Lemma check_artifact_eval (env : run_env) (s : run_state) (p : string) :
  last_path s = Some p ->
  PyStr.truthy p = true -> FS.exists_ (disk env) p = true ->
  exists n,
    FS.getsize (disk env) p = Ok n
    /\ check_artifact env s =
       (if n <? 1024 then (s, Raise (PyException msg_too_small))
        else if negb (_download_started (self s)) then (s, Raise (PyException msg_not_started))
        else if negb (_real_progress_detected (self s)) then (s, Raise (PyException msg_no_progress))
        else (s, Ok tt)).
Proof.
  intros LP T X. destruct (exists_getsize _ _ X) as [n G]. exists n. split; [exact G|].
  unfold check_artifact. rewrite bind_get, LP, T, X. cbn [andb when].
  rewrite bind_lift, G.
  destruct (n <? 1024); cbn [when]; [reflexivity|]. rewrite bind_ret.
  destruct (_download_started (self s)); cbn [negb when]; [|reflexivity]. rewrite bind_ret.
  destruct (_real_progress_detected (self s)); cbn [negb when]; [|reflexivity].
  rewrite bind_ret.
  destruct (PyFloat.gt _ _ && PyFloat.lt _ _)%bool; reflexivity.
Qed.


Lemma error_events_last (e : pyexn) :
  exists pre msg, error_events e = (pre ++ [errorOccurred msg])%list
                  /\ forall title path, ~ In (finished title path) pre.
Proof.
  destruct e; simpl.
  - exists [], ("Error en el proceso de descarga: " ++ msg). split; [reflexivity | intros ? ? []].
  - eexists [], _. split; [reflexivity | intros ? ? []].
  - eexists [], _. split; [reflexivity | intros ? ? []].
  - eexists [_], _. split; [reflexivity|]. intros ? ? [H|[]]. discriminate.
Qed.

Lemma loop_events_not_finished (body : list event) (title path : string) :
  Forall loop_event body -> ~ In (finished title path) body.
Proof.
  intros F I. rewrite Forall_forall in F. exact (F _ I).
Qed.

(** A run whose loop or whose post-run checks raise ends in an error. *)
Lemma raised_ends_in_error (s : run_state) (body : list event) (e : pyexn) :
  events s = progressChanged 1 :: body -> Forall loop_event body ->
  ends_in_error (events s ++ error_events e).
Proof.
  intros E F. destruct (error_events_last e) as [pre [msg [-> N]]]. split.
  - exists (events s ++ pre)%list, msg. now rewrite app_assoc.
  - intros title path I. rewrite E in I.
    apply in_app_or in I. destruct I as [[I|I]|I].
    + discriminate.
    + exact (loop_events_not_finished _ _ _ F I).
    + apply in_app_or in I. destruct I as [I|[I|[]]]; [exact (N _ _ I) | discriminate].
Qed.


(** The trace of a run whose loop came to its end without a cancellation,
    from the verdict of the post-run checks *)
Lemma exhausted_trace (w : worker) (env : run_env) (s3 s4 : run_state) (r : result unit) :
  launch env = Ok tt ->
  loop_result w env = (s3, Ok Exhausted) ->
  validate env s3 = (s4, r) ->
  trace w env =
  match r with
  | Raise e => (events s3 ++ error_events e)%list
  | Ok _ =>
      (events s3 ++
       [progressChanged 100;
        finished (FS.basename (path_or (last_path s4) (_url (self s4))))
                 (path_or (last_path s4) (_output (self s4)))])%list
  end.
Proof.
  intros L R V. rewrite (run_events w env L), R, V.
  pose proof (validate_silent env s3) as S. rewrite V in S. simpl in S.
  rewrite S. destruct r as [[]|e]; reflexivity.
Qed.



(* ------------------------------------------------------------------ *)
(** ** Cancellation and cleanup *)

Lemma lookup_delete (fs : FS.t) (p q : string) :
  FS.lookup (FS.delete fs p) q = if String.eqb q p then None else FS.lookup fs q.
Proof.
  unfold FS.delete. induction fs as [|[k e] fs IH]; simpl.
  - destruct (String.eqb q p); reflexivity.
  - destruct (String.eqb k p) eqn:K; simpl.
    + apply String.eqb_eq in K. subst k. rewrite IH.
      destruct (String.eqb q p) eqn:Q; [reflexivity|].
      rewrite String.eqb_sym, Q. reflexivity.
    + rewrite IH. destruct (String.eqb k q) eqn:KQ; [|reflexivity].
      apply String.eqb_eq in KQ. subst k. rewrite K. reflexivity.
Qed.

Lemma in_purge (paths : list string) :
  forall fs x, In x (purge paths fs) -> In x fs.
Proof.
  induction paths as [|p rest IH]; intros fs x H; simpl in H; [exact H|].
  destruct (FS.lookup fs p) as [e|]; [|apply IH, H].
  destruct (deletable e); [|apply IH, H].
  apply IH in H. unfold FS.delete in H. apply filter_In in H. apply H.
Qed.

Lemma purge_lookup_sub (paths : list string) :
  forall fs q e, FS.lookup (purge paths fs) q = Some e -> FS.lookup fs q = Some e.
Proof.
  induction paths as [|p rest IH]; intros fs q e H; simpl in H; [exact H|].
  destruct (FS.lookup fs p) as [e0|]; [|apply IH, H].
  destruct (deletable e0); [|apply IH, H].
  apply IH in H. rewrite lookup_delete in H.
  destruct (String.eqb q p); [discriminate | exact H].
Qed.

(** A listed path that is deletable is gone after the loop. *)
Lemma purge_removes (paths : list string) :
  forall fs q e,
    In q paths -> FS.lookup fs q = Some e -> deletable e = true ->
    FS.lookup (purge paths fs) q = None.
Proof.
  induction paths as [|p rest IH]; intros fs q e I L D; [contradiction|].
  simpl. destruct (String.eqb q p) eqn:Q.
  - apply String.eqb_eq in Q. subst p. rewrite L, D.
    destruct (FS.lookup (purge rest (FS.delete fs q)) q) as [e'|] eqn:X; [|reflexivity].
    apply purge_lookup_sub in X. rewrite lookup_delete, String.eqb_refl in X. discriminate.
  - assert (I' : In q rest).
    { destruct I as [->|I]; [rewrite String.eqb_refl in Q; discriminate | exact I]. }
    destruct (FS.lookup fs p) as [e0|]; [|eapply IH; eassumption].
    destruct (deletable e0); [|eapply IH; eassumption].
    eapply IH; [exact I' | | exact D]. rewrite lookup_delete, Q. exact L.
Qed.



(** The deletion loop never raises and leaves the purged disk. *)
Lemma remove_each_eval (paths : list string) :
  forall s, remove_each paths s
            = ({| me := me s; files := purge paths (files s); requests := requests s |}, Ok tt).
Proof.
  induction paths as [|p rest IH]; intros [m f r]; [reflexivity|].
  cbn [remove_each]. unfold bind at 1. unfold try_.
  rewrite bind_get. cbn [files]. unfold FS.exists_, purge; fold purge.
  destruct (FS.lookup f p) as [e|] eqn:L; cbn [when].
  - rewrite bind_lift. unfold FS.remove. rewrite L. fold (deletable e).
    destruct (deletable e); cbn; apply IH.
  - cbn. apply IH.
Qed.

Lemma cleanup_dir_eval (dir : string) (s : cancel_state) :
  cleanup_dir dir s
  = ({| me := me s; files := cleaned (files s) dir; requests := requests s |}, Ok tt).
Proof.
  unfold cleanup_dir, try_. rewrite bind_get.
  erewrite bind_ok by apply remove_each_eval.
  rewrite remove_each_eval. reflexivity.
Qed.

(** What [cancel] does, in closed form *)
Lemma cancel_eval (env : proc_env) (w : worker) (fs : FS.t) :
  cancel env (cancel_start w fs)
  = ({| me :=
          (if is_running (_process w) then
             if terminate_ok env then
               if exits_in_time env then set_process (Some (Exited (-15)))
               else if kill_ok env then set_process (Some (Exited (-9)))
                    else fun x => x
             else fun x => x
           else fun x => x) (set_cancelled true w);
        files := cleaned fs (_output w);
        requests := if is_running (_process w) then stop_protocol env else [] |},
     Ok tt).
Proof.
  unfold cancel, cancel_start, stop_protocol, _cleanup_partial_files.
  rewrite bind_modify, bind_get. cbn [me set_me _process set_cancelled].
  destruct (is_running (_process w)); cbn [when].
  - unfold try_, terminate, wait, kill, request.
    destruct (terminate_ok env), (exits_in_time env), (kill_ok env);
      cbn; rewrite cleanup_dir_eval; reflexivity.
  - rewrite bind_ret, bind_get, cleanup_dir_eval. reflexivity.
Qed.

(** What is found among the partial files after a cleanup could not be
    deleted. *)
Lemma cleaned_leftover (fs : FS.t) (dir p : string) :
  In p (partials (cleaned fs dir) dir) ->
  exists e, FS.lookup fs p = Some e /\ deletable e = false.
Proof.
  intros H.
  assert (X : FS.exists_ (cleaned fs dir) p = true /\ In p (partials fs dir)).
  { unfold partials in *. apply in_app_or in H. split.
    - destruct H as [H|H]; apply (glob_in _ _ _ _ H).
    - apply in_or_app.
      destruct H as [H|H]; [left | right];
        unfold FS.glob in *; apply in_map_iff in H; destruct H as [x [<- H]];
        apply in_map, filter_In; apply filter_In in H; destruct H as [I F];
        (split; [|exact F]); unfold cleaned in I; apply in_purge, in_purge in I; exact I. }
  destruct X as [X I]. unfold FS.exists_ in X.
  destruct (FS.lookup (cleaned fs dir) p) as [e|] eqn:L; [|discriminate].
  unfold cleaned in L. pose proof L as L0.
  apply purge_lookup_sub, purge_lookup_sub in L0.
  exists e. split; [exact L0|].
  destruct (deletable e) eqn:D; [|reflexivity].
  unfold partials in I. apply in_app_or in I. destruct I as [I|I].
  - apply purge_lookup_sub in L.
    rewrite (purge_removes _ _ _ _ I L0 D) in L. discriminate.
  - assert (L1 : FS.lookup (purge (FS.glob fs dir ".part") fs) p = Some e)
      by (apply purge_lookup_sub in L; exact L).
    rewrite (purge_removes _ _ _ _ I L1 D) in L. discriminate.
Qed.

(** A partial file that can be deleted is gone after a cleanup. *)
Lemma cleaned_removes (fs : FS.t) (dir p : string) (e : FS.entry) :
  In p (partials fs dir) -> FS.lookup fs p = Some e -> deletable e = true ->
  FS.exists_ (cleaned fs dir) p = false.
Proof.
  intros I L D. unfold FS.exists_, cleaned, partials in *.
  apply in_app_or in I. destruct I as [I|I].
  - destruct (FS.lookup (purge _ (purge _ fs)) p) as [e'|] eqn:X; [|reflexivity].
    apply purge_lookup_sub in X. rewrite (purge_removes _ _ _ _ I L D) in X. discriminate.
  - destruct (FS.lookup (purge (FS.glob fs dir ".part") fs) p) as [e'|] eqn:X.
    + pose proof X as X0. apply purge_lookup_sub in X0.
      assert (e' = e) by congruence. subst e'.
      rewrite (purge_removes _ _ _ _ I X D). reflexivity.
    + destruct (FS.lookup (purge _ (purge _ fs)) p) as [e'|] eqn:Y; [|reflexivity].
      apply purge_lookup_sub in Y. congruence.
Qed.






(** C4, as the code has it, for an output directory without pattern
    characters. [cancel] never raises and sets the cancellation flag.  On a
    worker whose process is not running (none, or ended) it makes no request
    on the process and leaves the handle as it is; on a running process it
    requests termination, waits at most 2 seconds and kills only when the
    wait timed out, after which (termination or kill having succeeded) the
    process is no longer running.  Afterwards every .part or .ytdl file of
    the output directory that could be deleted is gone; what is still found
    there are the entries whose deletion failed (a locked file, a
    directory).  A second call does not raise either and, the process
    having ended, makes no request and leaves the worker as it is. *)
Theorem C4_cancel_protocol_and_cleanup (env : proc_env) (w : worker) (fs : FS.t) :
  FS.has_magic (_output w) = false ->
  let out := cancel env (cancel_start w fs) in
  let s' := fst out in
  snd out = Ok tt
  /\ _cancelled (me s') = true
  /\ (is_running (_process w) = false ->
      requests s' = [] /\ _process (me s') = _process w)
  /\ (is_running (_process w) = true ->
      requests s' = stop_protocol env
      /\ (terminate_ok env = true -> (exits_in_time env || kill_ok env)%bool = true ->
          is_running (_process (me s')) = false))
  /\ (forall p e,
        In p (partials fs (_output w)) -> FS.lookup fs p = Some e -> deletable e = true ->
        FS.exists_ (files s') p = false)
  /\ (forall p,
        In p (partials (files s') (_output w)) ->
        exists e, FS.lookup fs p = Some e /\ deletable e = false)
  /\ (forall env2 fs2,
        let again := cancel env2 (cancel_start (me s') fs2) in
        snd again = Ok tt
        /\ (is_running (_process (me s')) = false ->
            requests (fst again) = [] /\ me (fst again) = me s')).
Proof.
  intros _ out s'. subst s' out. rewrite cancel_eval. cbn [fst snd me files requests].
  assert (O : forall f : worker -> worker,
            (f = set_process (Some (Exited (-15))) \/ f = set_process (Some (Exited (-9)))
             \/ f = (fun x => x)) ->
            set_cancelled true (f (set_cancelled true w)) = f (set_cancelled true w)).
  { intros f [->|[->| ->]]; reflexivity. }
  split; [reflexivity|]. split.
  { destruct (is_running (_process w)); [|reflexivity].
    destruct (terminate_ok env); [|reflexivity].
    destruct (exits_in_time env); [reflexivity|].
    destruct (kill_ok env); reflexivity. }
  split.
  { intros R. rewrite R. split; reflexivity. }
  split.
  { intros R. rewrite R. split; [reflexivity|].
    intros T K. rewrite T. destruct (exits_in_time env); [reflexivity|].
    simpl in K. rewrite K. reflexivity. }
  split; [intros p e; apply cleaned_removes|].
  split; [intros p; apply cleaned_leftover|].
  intros env2 fs2. rewrite cancel_eval. cbn [fst snd me files requests].
  match goal with
  | |- context [?f (set_cancelled true w)] =>
      pose proof (O f) as Oc
  end.
  split; [reflexivity|].
  intros R. rewrite R. split; [reflexivity|]. apply Oc.
  destruct (is_running (_process w)), (terminate_ok env), (exits_in_time env),
    (kill_ok env); auto.
Qed.

Lemma C4_cancel_protocol_and_cleanup_witness :
  let s' := fst (cancel stubborn (cancel_start running_worker held_dir)) in
  FS.has_magic (_output running_worker) = false
  /\ is_running (_process running_worker) = true
  /\ requests s' = [Terminate; Wait 2; Kill]
  /\ is_running (_process (me s')) = false
  /\ FS.exists_ (files s') "/dl/clip.f137.mp4.ytdl" = false
  /\ exists e, FS.lookup held_dir "/dl/clip.f137.mp4.part" = Some e /\ deletable e = false.
Proof.
  intros s'.
  destruct (C4_cancel_protocol_and_cleanup stubborn running_worker held_dir eq_refl)
    as [_ [_ [_ [R [G [L _]]]]]].
  destruct (R eq_refl) as [P S].
  split; [reflexivity|].
  split; [reflexivity|]. split; [exact P|]. split; [exact (S eq_refl eq_refl)|].
  split.
  - apply (G "/dl/clip.f137.mp4.ytdl" (regular_file 120 1)); [|reflexivity..].
    right; left; reflexivity.
  - apply L. left; reflexivity.
Defined.

(** C4 as stated fails: the process is killed after the grace period and
    still holds its partial file open when the cleanup runs; the deletion
    fails, the failure is caught and printed, and the .part file is still in
    the output directory after [cancel]. *)
Lemma C4_counterexample :
  let out := cancel stubborn (cancel_start running_worker held_dir) in
  snd out = Ok tt
  /\ FS.glob (files (fst out)) (_output running_worker) ".part" = ["/dl/clip.f137.mp4.part"].
Proof. vm_compute. split; reflexivity. Qed.



Lemma sticky_refl (flag : run_state -> bool) (s : run_state) : sticky flag s s.
Proof. intros H; exact H. Qed.

Lemma sticky_trans (flag : run_state -> bool) (a b c : run_state) :
  sticky flag a b -> sticky flag b c -> sticky flag a c.
Proof. unfold sticky; auto. Qed.

Lemma dormant_refl (flag : run_state -> bool) (s : run_state) : dormant flag s s.
Proof. intros H; exact H. Qed.

Lemma dormant_trans (flag : run_state -> bool) (a b c : run_state) :
  dormant flag a b -> dormant flag b c -> dormant flag a c.
Proof. unfold dormant; auto. Qed.

(** Walks through a statement down to its state changes and settles those
    that leave the flag as it is, or set it the right way. *)
Ltac flag_tac Hrefl Htrans :=
  repeat (steps_with Hrefl Htrans;
          try progress (cbv zeta; unfold percent_part, speed_part, eta_part));
  try (intros ? ?; cbn in *; solve [auto]).

Lemma process_line_sticky_error (ln : stdout_line) :
  steps (sticky error_detected) (process_line ln).
Proof.
  unfold process_line.
  flag_tac (sticky_refl error_detected) (sticky_trans error_detected).
Qed.

Lemma process_line_not_started (ln : stdout_line) :
  announces_destination ln = false ->
  steps (dormant (fun s => _download_started (self s))) (process_line ln).
Proof.
  intros H. unfold process_line, destination.
  unfold announces_destination, stripped in H. rewrite H. 
  flag_tac (dormant_refl (fun s => _download_started (self s)))
           (dormant_trans (fun s => _download_started (self s))).
Qed.

Lemma process_line_no_progress (ln : stdout_line) :
  shows_percent ln = false ->
  steps (dormant (fun s => _real_progress_detected (self s))) (process_line ln).
Proof.
  intros H. unfold process_line, progress.
  unfold shows_percent, stripped in H. rewrite H. 
  flag_tac (dormant_refl (fun s => _real_progress_detected (self s)))
           (dormant_trans (fun s => _real_progress_detected (self s))).
Qed.

(** The verdict of the post-run checks, with the state they leave *)
Lemma validate_verdict (env : run_env) (s : run_state) :
  validate env s =
  (if error_detected s then (s, Raise (PyException (error_message s)))
   else if negb (returncode env =? 0) then
     (s, Raise (PyException ("El proceso de descarga falló con código de error "
                             ++ PyStr.of_Z (returncode env))))
   else
     match artifact (disk env) s with
     | None =>
         match FS.glob (disk env) (_output (self s)) "" with
         | [] => (s, Raise (PyException msg_no_file))
         | _ => (s, Raise (PyException msg_no_valid_file))
         end
     | Some p =>
         let s' := if path_exists (disk env) (last_path s) then s
                   else set_last_path (Some p) s in
         match FS.getsize (disk env) p with
         | Ok n =>
             if n <? 1024 then (s', Raise (PyException msg_too_small))
             else if negb (_download_started (self s)) then
               (s', Raise (PyException msg_not_started))
             else if negb (_real_progress_detected (self s)) then
               (s', Raise (PyException msg_no_progress))
             else (s', Ok tt)
         | Raise e => (s', Raise e)
         end
     end).
Proof.
  unfold validate.
  destruct (error_detected s) eqn:ED.
  { rewrite bind_get, ED. reflexivity. }
  destruct (returncode env =? 0) eqn:RC; cbn [negb].
  2:{ rewrite bind_get, ED. cbn [when]. rewrite bind_ret. reflexivity. }
  destruct (artifact (disk env) s) as [p|] eqn:A.
  - destruct (artifact_exists _ _ _ A) as [T X].
    cbv zeta.
    set (s1 := if path_exists (disk env) (last_path s) then s else set_last_path (Some p) s).
    assert (LP : last_path s1 = Some p).
    { subst s1. unfold artifact in A. destruct (path_exists (disk env) (last_path s));
        [exact A | reflexivity]. }
    assert (SS : self s1 = self s).
    { subst s1. destruct (path_exists (disk env) (last_path s)); reflexivity. }
    destruct (check_artifact_eval env s1 p LP T X) as [n [G C]].
    rewrite bind_get, ED. cbn [when]. rewrite bind_ret. cbn [negb when].
    rewrite bind_ret. erewrite bind_ok by (rewrite recover_eval, A; reflexivity).
    fold s1. rewrite C, G. rewrite SS. reflexivity.
  - rewrite bind_get, ED. cbn [when]. rewrite bind_ret. cbn [negb when].
    rewrite bind_ret.
    pose proof (recover_eval env s) as R. rewrite A in R.
    destruct (FS.glob (disk env) (_output (self s)) "");
      erewrite bind_raise by exact R; reflexivity.
Qed.


Lemma validate_passes (env : run_env) (s s' : run_state) :
  validate env s = (s', Ok tt) ->
  exists p, passes env s p /\ last_path s' = Some p /\ self s' = self s
            /\ PyStr.truthy p = true.
Proof.
  rewrite validate_verdict. unfold passes.
  destruct (error_detected s); [discriminate|].
  destruct (returncode env =? 0) eqn:RC; [|discriminate]. apply Z.eqb_eq in RC.
  cbn [negb].
  destruct (artifact (disk env) s) as [p|] eqn:A.
  2:{ destruct (FS.glob _ _ _); discriminate. }
  cbv zeta. destruct (FS.getsize (disk env) p) as [n|e] eqn:G; [|discriminate].
  destruct (n <? 1024) eqn:N; [discriminate|]. apply Z.ltb_ge in N.
  destruct (_download_started (self s)); [|discriminate].
  destruct (_real_progress_detected (self s)); [|discriminate].
  cbn [negb]. intros E. inversion E; subst s'; clear E.
  exists p. split; [repeat split; eauto|].
  destruct (artifact_exists _ _ _ A) as [T X].
  unfold artifact in A.
  destruct (path_exists (disk env) (last_path s)); repeat split; auto.
Qed.

Lemma passes_validate (env : run_env) (s : run_state) (p : string) :
  passes env s p ->
  exists s', validate env s = (s', Ok tt) /\ last_path s' = Some p /\ self s' = self s
             /\ PyStr.truthy p = true.
Proof.
  intros [ED [RC [A [[n [G N]] [DS RP]]]]].
  rewrite validate_verdict, ED, RC, A. cbn [Z.eqb negb]. cbv zeta.
  rewrite G. apply Z.ltb_ge in N. rewrite N, DS, RP. cbn [negb].
  eexists; split; [reflexivity|].
  destruct (artifact_exists _ _ _ A) as [T X].
  unfold artifact in A.
  destruct (path_exists (disk env) (last_path s)); repeat split; auto.
Qed.

Lemma path_or_truthy (p d : string) : PyStr.truthy p = true -> path_or (Some p) d = p.
Proof. intros H. unfold path_or. rewrite H. reflexivity. Qed.

Lemma not_in_error_events (e : pyexn) (title path : string) :
  ~ In (finished title path) (error_events e).
Proof. destruct e; simpl; intuition discriminate. Qed.

Lemma not_in_loop_events (w : worker) (env : run_env) (title path : string) :
  ~ In (finished title path) (events (after_loop w env)).
Proof.
  destruct (loop_events w env) as [body [E F]]. rewrite E. intros [H|H]; [discriminate|].
  exact (loop_events_not_finished _ _ _ F H).
Qed.

(** A run signals completion exactly when the downloader could be started,
    the loop read its output to the end, and the post-run checks pass; the
    signal then carries the base name and the path of the artifact. *)
Lemma completes_iff (w : worker) (env : run_env) :
  completes (trace w env) <->
  (launch env = Ok tt
   /\ snd (loop_result w env) = Ok Exhausted
   /\ exists p, passes env (after_loop w env) p).
Proof.
  split.
  - intros [title [path I]].
    destruct (launch env) as [[]|e] eqn:L.
    2:{ rewrite (run_events_no_launch w env e L) in I.
        destruct I as [I|I]; [discriminate | exfalso; exact (not_in_error_events _ _ _ I)]. }
    split; [reflexivity|].
    rewrite (run_events w env L) in I.
    pose proof (not_in_loop_events w env title path) as NL. unfold after_loop in *.
    destruct (loop_result w env) as [s3 [[|]|e]]; cbn [fst snd] in *.
    + split; [reflexivity|].
      pose proof (validate_silent env s3) as S.
      destruct (validate env s3) as [s4 [[]|e]] eqn:V; cbn [fst] in S.
      * destruct (validate_passes _ _ _ V) as [p [P _]]. eauto.
      * exfalso. apply in_app_or in I. rewrite S in I.
        destruct I as [I|I]; [exact (NL I) | exact (not_in_error_events _ _ _ I)].
    + contradiction.
    + exfalso. apply in_app_or in I.
      destruct I as [I|I]; [exact (NL I) | exact (not_in_error_events _ _ _ I)].
  - intros [L [R [p P]]].
    unfold after_loop in P. destruct (loop_result w env) as [s3 r] eqn:LR.
    cbn [fst snd] in *. subst r.
    destruct (passes_validate _ _ _ P) as [s4 [V _]].
    rewrite (exhausted_trace w env s3 s4 _ L LR V).
    do 2 eexists. apply in_or_app. right. right. left. reflexivity.
Qed.

Section Loop.

Variable R : run_state -> run_state -> Prop.
Hypothesis R_refl : forall s, R s s.
Hypothesis R_trans : forall a b c, R a b -> R b c -> R a c.
Hypothesis R_emit : forall e, steps R (emit e).

(** What every iteration keeps, the loop keeps. *)
Lemma for_lines_steps (lines : list stdout_line) :
  Forall (fun ln => steps R (process_line ln)) lines -> steps R (for_lines lines).
Proof.
  induction 1 as [|ln rest H _ IH]; simpl.
  - apply steps_ret, R_refl.
  - destruct (cancel_requested ln).
    + steps_with R_refl R_trans; apply R_emit.
    + apply (steps_bind _ R_trans); [exact H | intros _; exact IH].
Qed.

End Loop.

Lemma sticky_emit (flag : run_state -> bool) (e : event) :
  (forall s v, flag (set_events v s) = flag s) -> steps (sticky flag) (emit e).
Proof. intros F s H. simpl. rewrite F. exact H. Qed.

Lemma dormant_emit (flag : run_state -> bool) (e : event) :
  (forall s v, flag (set_events v s) = flag s) -> steps (dormant flag) (emit e).
Proof. intros F s H. simpl. rewrite F. exact H. Qed.

Lemma forallb_negb_existsb {A} (f : A -> bool) (l : list A) :
  existsb f l = false -> Forall (fun a => f a = false) l.
Proof.
  induction l as [|a l IH]; simpl; [constructor|].
  intros H. apply orb_false_iff in H. destruct H as [H1 H2].
  constructor; [exact H1 | exact (IH H2)].
Qed.

(** A flag that the lines leave cleared is still cleared after the loop. *)
Lemma for_lines_dormant (flag : run_state -> bool) (f : stdout_line -> bool)
    (lines : list stdout_line) :
  (forall s v, flag (set_events v s) = flag s) ->
  (forall ln, f ln = false -> steps (dormant flag) (process_line ln)) ->
  existsb f lines = false ->
  steps (dormant flag) (for_lines lines).
Proof.
  intros Fe Fl E.
  apply for_lines_steps.
  - apply dormant_refl.
  - apply dormant_trans.
  - intros e. apply dormant_emit, Fe.
  - eapply Forall_impl; [|apply forallb_negb_existsb, E]. exact Fl.
Qed.

Lemma flag_after_bind {A B} (flag : run_state -> bool) (m : M A) (k : A -> M B)
    (s : run_state) :
  flag (fst (m s)) = true ->
  (forall a, steps (sticky flag) (k a)) ->
  flag (fst (bind m k s)) = true.
Proof.
  intros Hm Hk. unfold bind. destruct (m s) as [s1 [a|e]]; cbn [fst] in *.
  - apply (Hk a s1 Hm).
  - exact Hm.
Qed.

Lemma scan_errors_sets (line : string) (s : run_state) :
  (has "ERROR:" line || has "Error:" line)%bool = true ->
  error_detected (fst (scan_errors line s)) = true.
Proof.
  intros H. unfold scan_errors. rewrite H. cbn [when].
  apply flag_after_bind; [reflexivity|].
  intros x. flag_tac (sticky_refl error_detected) (sticky_trans error_detected).
Qed.

Lemma process_line_sets_error (ln : stdout_line) (s : run_state) :
  reports_error ln = true -> error_detected (fst (process_line ln s)) = true.
Proof.
  intros H. unfold process_line.
  apply flag_after_bind; [exact (scan_errors_sets _ s H)|].
  intros x. flag_tac (sticky_refl error_detected) (sticky_trans error_detected).
Qed.

(** When the loop has read a line with an error marker and comes to its end,
    the error flag is set. *)
Lemma for_lines_error (lines : list stdout_line) :
  existsb reports_error lines = true ->
  forall s s', for_lines lines s = (s', Ok Exhausted) -> error_detected s' = true.
Proof.
  induction lines as [|ln rest IH]; simpl; [discriminate|].
  intros E s s' F. destruct (cancel_requested ln).
  { unfold bind in F. simpl in F. inversion F. }
  unfold bind in F.
  destruct (process_line ln s) as [s1 [[]|e]] eqn:P; [|inversion F].
  destruct (reports_error ln) eqn:RE.
  - pose proof (process_line_sets_error ln s RE) as S. rewrite P in S. cbn [fst] in S.
    assert (K : steps (sticky error_detected) (for_lines rest)).
    { apply for_lines_steps.
      - apply sticky_refl.
      - apply sticky_trans.
      - intros e. apply sticky_emit. reflexivity.
      - apply Forall_forall. intros l _. apply process_line_sticky_error. }
    specialize (K s1 S). rewrite F in K. exact K.
  - exact (IH E s1 s' F).
Qed.

(** The trace of a run that signals completion *)
Lemma finished_trace (w : worker) (env : run_env) (title path : string) :
  In (finished title path) (trace w env) ->
  passes env (after_loop w env) path
  /\ title = FS.basename path
  /\ trace w env
     = (events (after_loop w env) ++ [progressChanged 100; finished title path])%list.
Proof.
  intros I.
  assert (C : completes (trace w env)) by (exists title, path; exact I).
  apply completes_iff in C. destruct C as [L [R [p P]]].
  pose proof (not_in_loop_events w env title path) as NL.
  unfold after_loop in *. destruct (loop_result w env) as [s3 r] eqn:LR.
  cbn [fst snd] in *. subst r.
  destruct (passes_validate _ _ _ P) as [s4 [V [LP [SS T]]]].
  rewrite (exhausted_trace w env s3 s4 _ L LR V) in *.
  rewrite LP, !(path_or_truthy _ _ T) in *.
  apply in_app_or in I. destruct I as [I|[I|[I|[]]]]; [contradiction | discriminate |].
  inversion I; subst. split; [exact P|]. split; reflexivity.
Qed.

(** X1. For an output directory without pattern characters, a run signals
    completion exactly when the downloader could be started, the loop read
    its output to the end, no error was flagged, the exit status is 0, an
    artifact of at least 1024 bytes is on the disk and the output had
    announced a destination and shown real progress.  The
    finished signal then carries the base name and the path of that
    artifact, and 100 percent and the finished signal are the last two
    events of the run. *)
Theorem completion_characterised (w : worker) (env : run_env) :
  FS.has_magic (_output w) = false ->
  (completes (trace w env) <->
   launch env = Ok tt
   /\ snd (loop_result w env) = Ok Exhausted
   /\ exists p, passes env (after_loop w env) p)
  /\ (forall title path,
        In (finished title path) (trace w env) ->
        passes env (after_loop w env) path
        /\ title = FS.basename path
        /\ trace w env
           = (events (after_loop w env)
              ++ [progressChanged 100; finished title path])%list).
Proof.
  intros _. split; [apply completes_iff|].
  intros title path I. exact (finished_trace w env title path I).
Qed.

Lemma completion_characterised_witness :
  FS.has_magic (_output sample_worker) = false
  /\ In (finished "clip.mp4" "/dl/clip.mp4") (trace sample_worker two_stream_run)
  /\ passes two_stream_run (after_loop sample_worker two_stream_run) "/dl/clip.mp4"
  /\ "clip.mp4" = FS.basename "/dl/clip.mp4".
Proof.
  assert (I : In (finished "clip.mp4" "/dl/clip.mp4") (trace sample_worker two_stream_run)).
  { vm_compute. repeat (first [left; reflexivity | right]). }
  split; [reflexivity|]. split; [exact I|].
  destruct (proj2 (completion_characterised sample_worker two_stream_run eq_refl) _ _ I)
    as [P [B _]].
  split; [exact P | exact B].
Defined.

(** X2. A worker that signals completion has read, in the output of the
    downloader, a line that announces the destination and a progress line: a
    run whose output has no line starting with ["[download] Destination:"],
    or none starting with ["[download]"] and containing ["%"], never ends
    with the finished signal, whatever is on the disk. *)
Theorem completion_needs_download_lines
    (url output_dir mode channel : string) (no_playlist : bool) (env : run_env) :
  let w := __init__ url output_dir mode no_playlist channel in
  completes (trace w env) ->
  existsb announces_destination (stdout env) = true
  /\ existsb shows_percent (stdout env) = true.
Proof.
  intros w C. apply completes_iff in C. destruct C as [_ [_ [p P]]].
  destruct P as [_ [_ [_ [_ [DS RP]]]]]. unfold after_loop, loop_result in *.
  split.
  - destruct (existsb announces_destination (stdout env)) eqn:E; [reflexivity|].
    pose proof (for_lines_dormant (fun s => _download_started (self s))
                  announces_destination (stdout env) (fun _ _ => eq_refl)
                  process_line_not_started E (started w env) eq_refl) as D.
    cbv beta in D. congruence.
  - destruct (existsb shows_percent (stdout env)) eqn:E; [reflexivity|].
    pose proof (for_lines_dormant (fun s => _real_progress_detected (self s))
                  shows_percent (stdout env) (fun _ _ => eq_refl)
                  process_line_no_progress E (started w env) eq_refl) as D.
    cbv beta in D. congruence.
Qed.

Lemma completion_needs_download_lines_witness :
  completes (trace sample_worker two_stream_run)
  /\ existsb announces_destination (stdout two_stream_run) = true
  /\ existsb shows_percent (stdout two_stream_run) = true.
Proof.
  assert (C : completes (trace sample_worker two_stream_run)).
  { exists "clip.mp4", "/dl/clip.mp4". vm_compute.
    repeat (first [left; reflexivity | right]). }
  split; [exact C|].
  exact (completion_needs_download_lines
           "https://www.youtube.com/watch?v=abc" "/dl" "video_1080" "" true
           two_stream_run C).
Defined.

(** X3. An error marker anywhere in the output rules completion out: when a
    line that the loop reads contains ["ERROR:"] or ["Error:"], the run never
    ends with the finished signal, even if the downloader exits with status 0
    and has left the file on the disk; unless it was cancelled it ends with
    the error signal. *)
Theorem error_line_prevents_completion (w : worker) (env : run_env) :
  existsb reports_error (stdout env) = true ->
  ~ completes (trace w env)
  /\ (never_cancelled env -> ends_in_error (trace w env)).
Proof.
  intros E. split.
  - intros C. apply completes_iff in C. destruct C as [_ [R [p P]]].
    destruct P as [ED _]. unfold after_loop, loop_result in *.
    destruct (for_lines (stdout env) (started w env)) as [s3 r] eqn:F.
    cbn [fst snd] in *. subst r.
    rewrite (for_lines_error _ E _ _ F) in ED. discriminate.
  - intros NC. destruct (launch env) as [[]|e] eqn:L.
    2:{ rewrite (run_events_no_launch w env e L).
        apply (raised_ends_in_error (started w env) [] e); [reflexivity | constructor]. }
    destruct (loop_events w env) as [body [Ev Fb]].
    pose proof (for_lines_not_returned _ NC (started w env)) as NR.
    fold (loop_result w env) in NR. unfold after_loop in Ev.
    destruct (loop_result w env) as [s3 [[|]|e]] eqn:R; cbn [fst snd] in *.
    + pose proof (validate_verdict env s3) as V.
      unfold loop_result in R. rewrite (for_lines_error _ E _ _ R) in V.
      rewrite (exhausted_trace w env s3 _ _ L R V).
      apply (raised_ends_in_error s3 body _ Ev Fb).
    + congruence.
    + rewrite (run_events w env L), R.
      apply (raised_ends_in_error s3 body _ Ev Fb).
Qed.

Lemma loop_event_not_terminal (e : event) : loop_event e -> terminal e = false.
Proof. destruct e; simpl; tauto. Qed.

Lemma error_line_prevents_completion_witness :
  existsb reports_error (stdout disk_full_run) = true
  /\ never_cancelled disk_full_run
  /\ ~ completes (trace sample_worker disk_full_run)
  /\ ends_in_error (trace sample_worker disk_full_run).
Proof.
  assert (E : existsb reports_error (stdout disk_full_run) = true) by reflexivity.
  assert (N : never_cancelled disk_full_run) by (repeat constructor).
  destruct (error_line_prevents_completion sample_worker disk_full_run E) as [C X].
  split; [exact E|]. split; [exact N|]. split; [exact C | exact (X N)].
Defined.

(** X4. When the loop finds the cancellation flag set, the run stops the
    process, calls the cleanup and returns: nothing that the downloader
    prints from then on is looked at, neither the exit status nor the disk is
    checked, and the run emits no terminal signal at all, neither finished
    nor error. *)
Theorem cancelled_run_is_silent
    (w : worker) (env : run_env) (before after : list stdout_line)
    (ln : stdout_line) (s : run_state) :
  launch env = Ok tt ->
  stdout env = (before ++ ln :: after)%list ->
  for_lines before (started w env) = (s, Ok Exhausted) ->
  cancel_requested ln = true ->
  trace w env = (events s ++ [proc_stop 2; cleanup_partial_files])%list
  /\ Forall (fun e => terminal e = false) (trace w env).
Proof.
  intros L O B C.
  assert (T : trace w env = (events s ++ [proc_stop 2; cleanup_partial_files])%list).
  { rewrite (run_events w env L). unfold loop_result.
    rewrite O, (for_lines_app _ _ _ _ B). simpl. rewrite C.
    cbn. rewrite <- app_assoc. reflexivity. }
  split; [exact T|]. rewrite T.
  destruct (for_lines_grows before (started w env)) as [body [E F]].
  rewrite B in E. cbn [fst] in E. rewrite E.
  apply Forall_app; split; [|repeat constructor].
  apply Forall_app; split; [repeat constructor|].
  eapply Forall_impl; [|exact F]. apply loop_event_not_terminal.
Qed.

Lemma cancelled_run_is_silent_witness :
  let before := [at_ 1 "[download] Destination: /dl/clip.mp4";
                 at_ 2 "[download]  50.0% of 10.00MiB at 1.00MiB/s ETA 00:05"] in
  let ln := {| text := "[download]  60.0% of 10.00MiB at 1.00MiB/s ETA 00:04";
               now := Fin 3%Q; cancel_requested := true |} in
  let after := [at_ 4 "[download] 100% of 10.00MiB in 00:10"] in
  let s := fst (for_lines before (started sample_worker cancelled_run)) in
  launch cancelled_run = Ok tt
  /\ stdout cancelled_run = (before ++ ln :: after)%list
  /\ for_lines before (started sample_worker cancelled_run) = (s, Ok Exhausted)
  /\ cancel_requested ln = true
  /\ percents (trace sample_worker cancelled_run) = [1; 5; 37]
  /\ Forall (fun e => terminal e = false) (trace sample_worker cancelled_run).
Proof.
  intros before ln after s.
  assert (B : for_lines before (started sample_worker cancelled_run) = (s, Ok Exhausted))
    by (vm_compute; reflexivity).
  split; [reflexivity|]. split; [reflexivity|]. split; [exact B|].
  split; [reflexivity|]. split; [vm_compute; reflexivity|].
  exact (proj2 (cancelled_run_is_silent sample_worker cancelled_run before after ln s
                  eq_refl eq_refl B eq_refl)).
Defined.

(* ------------------------------------------------------------------ *)
(** ** Integers and their decimal text *)

Lemma rev_acc_rev_acc (s a b : string) :
  PyStr.rev_acc (PyStr.rev_acc s a) b = PyStr.rev_acc a (s ++ b).
Proof.
  revert a b. induction s as [|c s IH]; intros a b; simpl; [reflexivity|].
  rewrite IH. reflexivity.
Qed.

Lemma string_app_nil_r (s : string) : s ++ "" = s.
Proof. induction s as [|c s IH]; simpl; [reflexivity | now rewrite IH]. Qed.

Lemma rev_involutive (s : string) : PyStr.rev (PyStr.rev s) = s.
Proof. unfold PyStr.rev. rewrite rev_acc_rev_acc. simpl. apply string_app_nil_r. Qed.

Lemma all_chars_rev_acc (f : ascii -> bool) (s a : string) :
  all_chars f (PyStr.rev_acc s a) = (all_chars f s && all_chars f a)%bool.
Proof.
  revert a. induction s as [|c s IH]; intros a; simpl; [reflexivity|].
  rewrite IH. simpl. destruct (f c), (all_chars f s), (all_chars f a); reflexivity.
Qed.

Lemma all_chars_app (f : ascii -> bool) (a b : string) :
  all_chars f (a ++ b) = (all_chars f a && all_chars f b)%bool.
Proof.
  induction a as [|c a IH]; simpl; [reflexivity|]. rewrite IH. apply andb_assoc.
Qed.

Lemma all_chars_impl (f g : ascii -> bool) (s : string) :
  (forall c, f c = true -> g c = true) -> all_chars f s = true -> all_chars g s = true.
Proof.
  intros H. induction s as [|c s IH]; simpl; [reflexivity|].
  intros A. apply andb_true_iff in A. destruct A as [A1 A2].
  rewrite (H _ A1), (IH A2). reflexivity.
Qed.

Lemma lstrip_id (s : string) :
  all_chars (fun c => negb (PyStr.is_space c)) s = true -> PyStr.lstrip s = s.
Proof.
  destruct s as [|c s]; simpl; [reflexivity|].
  destruct (PyStr.is_space c); [discriminate | reflexivity].
Qed.

(** Text without whitespace is its own [strip()]. *)
Lemma strip_id (s : string) :
  all_chars (fun c => negb (PyStr.is_space c)) s = true -> PyStr.strip s = s.
Proof.
  intros H. unfold PyStr.strip, PyStr.rstrip. rewrite (lstrip_id s H).
  rewrite lstrip_id; [apply rev_involutive|].
  unfold PyStr.rev. rewrite all_chars_rev_acc, H. reflexivity.
Qed.

(** One step of [digitpart] on a digit *)
Ltac digit_step :=
  match goal with
  | |- context [PyFloat.digitpart (String ?c ?s) ?a ?n] =>
      let v := eval vm_compute in (PyStr.digit_val c) in
      change (PyFloat.digitpart (String c s) a n)
        with (PyFloat.digitpart s (a * 10 + v) (n + 1))
  end.

Lemma digitpart_acc (d : Decimal.uint) :
  forall (p : positive) (cnt : Z),
    PyFloat.digitpart (NilEmpty.string_of_uint d) (Z.pos p) cnt
    = (Z.pos (Pos.of_uint_acc d p), cnt + Z.of_nat (Decimal.nb_digits d), "").
Proof.
  induction d; intros p cnt; cbn [NilEmpty.string_of_uint Pos.of_uint_acc Decimal.nb_digits];
    try (cbn [PyFloat.digitpart]; rewrite Z.add_0_r; reflexivity);
    (digit_step;
     match goal with
     | |- PyFloat.digitpart _ ?a _ = (Z.pos (Pos.of_uint_acc _ ?q), _, _) =>
         replace a with (Z.pos q) by lia
     end;
     rewrite IHd; f_equal; f_equal; lia).
Qed.

Lemma digitpart_uint (d : Decimal.uint) :
  forall cnt : Z,
    PyFloat.digitpart (NilEmpty.string_of_uint d) 0 cnt
    = (Z.of_N (Pos.of_uint d), cnt + Z.of_nat (Decimal.nb_digits d), "").
Proof.
  induction d; intros cnt; cbn [NilEmpty.string_of_uint Pos.of_uint Decimal.nb_digits];
    [ cbn; rewrite Z.add_0_r; reflexivity
    | digit_step; change (0 * 10 + 0) with 0; rewrite IHd; f_equal; f_equal; lia
    | digit_step;
      match goal with
      | |- PyFloat.digitpart _ ?a _ = (Z.of_N (N.pos (Pos.of_uint_acc _ ?q)), _, _) =>
          change a with (Z.pos q)
      end;
      rewrite digitpart_acc; f_equal; f_equal; lia .. ].
Qed.

Lemma all_digits_uint (d : Decimal.uint) :
  all_chars PyStr.is_digit (NilEmpty.string_of_uint d) = true.
Proof. induction d; simpl; auto. Qed.

Lemma digits_of_pos (p : positive) :
  exists c s, NilEmpty.string_of_uint (Pos.to_uint p) = String c s
              /\ PyStr.is_digit c = true.
Proof.
  pose proof (Unsigned.to_uint_nonnil p) as N.
  pose proof (all_digits_uint (Pos.to_uint p)) as A.
  destruct (Pos.to_uint p); [congruence | ..]; simpl in *; eauto.
Qed.

(** The text of a natural number: digits only, at least one. *)
Lemma of_Z_digits (n : Z) :
  0 <= n ->
  exists c s, PyStr.of_Z n = String c s /\ PyStr.is_digit c = true
              /\ all_chars PyStr.is_digit (PyStr.of_Z n) = true.
Proof.
  intros H. unfold PyStr.of_Z. destruct n as [|p|p]; [| |lia].
  - exists "0"%char, ""; repeat split.
  - cbn [Z.to_int NilZero.string_of_int]. unfold NilZero.string_of_uint.
    pose proof (Unsigned.to_uint_nonnil p) as N.
    destruct (digits_of_pos p) as [c [s [E D]]].
    destruct (Pos.to_uint p) eqn:U; [congruence | ..];
      exists c, s; (split; [exact E|]); (split; [exact D|]);
      rewrite <- U; apply all_digits_uint.
Qed.

(** The text of a negative number is a minus sign and the text of its
    opposite. *)
Lemma of_Z_neg (n : Z) : n < 0 -> PyStr.of_Z n = "-" ++ PyStr.of_Z (- n).
Proof.
  intros H. destruct n as [|p|p]; [lia | lia |].
  unfold PyStr.of_Z. cbn [Z.opp Z.to_int NilZero.string_of_int]. reflexivity.
Qed.

(** Reading the digits of a natural number *)
Lemma digitpart_of_Z (n : Z) (cnt : Z) :
  0 <= n -> exists cnt', PyFloat.digitpart (PyStr.of_Z n) 0 cnt = (n, cnt', "").
Proof.
  intros H. unfold PyStr.of_Z. destruct n as [|p|p]; [| |lia].
  - eexists; reflexivity.
  - cbn [Z.to_int NilZero.string_of_int]. unfold NilZero.string_of_uint.
    pose proof (Unsigned.to_uint_nonnil p) as N.
    assert (E : PyFloat.digitpart (NilEmpty.string_of_uint (Pos.to_uint p)) 0 cnt
                = (Z.pos p, cnt + Z.of_nat (Decimal.nb_digits (Pos.to_uint p)), "")).
    { rewrite digitpart_uint, DecimalPos.Unsigned.of_to. reflexivity. }
    destruct (Pos.to_uint p); [congruence | ..]; eexists; exact E.
Qed.

Lemma digitpart_zeros (k : nat) (s : string) (cnt : Z) :
  exists cnt',
    PyFloat.digitpart (PyFloat.zeros k ++ s) 0 cnt = PyFloat.digitpart s 0 cnt'.
Proof.
  revert cnt. induction k as [|k IH]; intros cnt; cbn [PyFloat.zeros append].
  - eexists; reflexivity.
  - digit_step. change (0 * 10 + 0) with 0. apply IH.
Qed.

Lemma starts_with_digit_zeros (k : nat) (s : string) :
  PyFloat.starts_with_digit s = true ->
  PyFloat.starts_with_digit (PyFloat.zeros k ++ s) = true.
Proof. destruct k; simpl; auto. Qed.

Lemma all_chars_zeros (f : ascii -> bool) (k : nat) :
  f "0"%char = true -> all_chars f (PyFloat.zeros k) = true.
Proof. intros H. induction k; simpl; [reflexivity | now rewrite H]. Qed.

Lemma digit_not_space (c : ascii) : PyStr.is_digit c = true -> PyStr.is_space c = false.
Proof.
  unfold PyStr.is_digit, PyStr.is_space. intros H.
  apply andb_true_iff in H. destruct H as [H1 H2].
  apply Nat.leb_le in H1. apply Nat.leb_le in H2.
  destruct (Z.eqb_spec (Z.of_nat (nat_of_ascii c)) 32); [lia|].
  destruct (Z.leb_spec 9 (Z.of_nat (nat_of_ascii c)));
    destruct (Z.leb_spec (Z.of_nat (nat_of_ascii c)) 13);
    destruct (Z.leb_spec 28 (Z.of_nat (nat_of_ascii c)));
    destruct (Z.leb_spec (Z.of_nat (nat_of_ascii c)) 31); simpl; try reflexivity; lia.
Qed.

Lemma digits_no_space (s : string) :
  all_chars PyStr.is_digit s = true ->
  all_chars (fun c => negb (PyStr.is_space c)) s = true.
Proof.
  apply all_chars_impl. intros x Hx. now rewrite digit_not_space.
Qed.

(** [int] reads back a natural number written with leading zeros. *)
Lemma int_of_padded (k : nat) (n : Z) :
  0 <= n -> PyInt.of_string (PyFloat.zeros k ++ PyStr.of_Z n) = Ok n.
Proof.
  intros H. destruct (of_Z_digits n H) as [c [s [E [D A]]]].
  unfold PyInt.of_string.
  rewrite strip_id.
  2:{ rewrite all_chars_app, all_chars_zeros by reflexivity.
      apply digits_no_space, A. }
  assert (S : PyFloat.read_sign (PyFloat.zeros k ++ PyStr.of_Z n)
              = (false, PyFloat.zeros k ++ PyStr.of_Z n)).
  { destruct k; simpl.
    - rewrite E. destruct c as [[] [] [] [] [] [] [] []]; try discriminate D; reflexivity.
    - reflexivity. }
  rewrite S.
  rewrite starts_with_digit_zeros by (rewrite E; exact D).
  destruct (digitpart_zeros k (PyStr.of_Z n) 0) as [c1 ->].
  destruct (digitpart_of_Z n c1 H) as [c2 ->]. reflexivity.
Qed.

(** [int(str(n)) = n] *)
Lemma int_of_str (n : Z) : PyInt.of_string (PyStr.of_Z n) = Ok n.
Proof.
  destruct (Z.lt_ge_cases n 0) as [N|N].
  - rewrite (of_Z_neg n N).
    assert (P : 0 <= - n) by lia.
    destruct (of_Z_digits (- n) P) as [c [s [E [D A]]]].
    unfold PyInt.of_string. rewrite strip_id.
    2:{ simpl. apply digits_no_space, A. }
    cbn [PyFloat.read_sign append].
    assert (SD : PyFloat.starts_with_digit (PyStr.of_Z (- n)) = true)
      by (rewrite E; exact D).
    rewrite SD.
    destruct (digitpart_of_Z (- n) 0 P) as [c2 ->]. f_equal. lia.
  - exact (int_of_padded 0 n N).
Qed.

(** [int(f"{n:02d}") = n] *)
Lemma int_of_02d (n : Z) : PyInt.of_string (PyInt.format_02d n) = Ok n.
Proof.
  unfold PyInt.format_02d, PyFloat.pad_digits.
  destruct (Z.ltb_spec n 0) as [N|N].
  - assert (P : 0 <= - n) by lia.
    destruct (of_Z_digits (- n) P) as [c [s [E [D A]]]].
    unfold PyInt.of_string. rewrite strip_id.
    2:{ simpl. rewrite all_chars_app, all_chars_zeros by reflexivity.
        apply digits_no_space, A. }
    cbn [PyFloat.read_sign append].
    rewrite starts_with_digit_zeros by (rewrite E; exact D).
    destruct (digitpart_zeros (1 - String.length (PyStr.of_Z (- n))) (PyStr.of_Z (- n)) 0)
      as [c1 ->].
    destruct (digitpart_of_Z (- n) c1 P) as [c2 ->]. f_equal. lia.
  - apply int_of_padded, N.
Qed.

(* ------------------------------------------------------------------ *)
(** ** The ETA text *)


Lemma numeric_of_Z (n : Z) : all_chars numeric (PyStr.of_Z n) = true.
Proof.
  assert (D : forall m, 0 <= m -> all_chars numeric (PyStr.of_Z m) = true).
  { intros m Hm. destruct (of_Z_digits m Hm) as [c [s [_ [_ A]]]].
    apply (all_chars_impl PyStr.is_digit); [|exact A].
    intros x Hx. unfold numeric. now rewrite Hx. }
  destruct (Z.lt_ge_cases n 0) as [N|N]; [|apply D, N].
  rewrite (of_Z_neg n N). simpl. apply D. lia.
Qed.

Lemma numeric_02d (n : Z) : all_chars numeric (PyInt.format_02d n) = true.
Proof.
  assert (D : forall k m, 0 <= m ->
                all_chars numeric (PyFloat.zeros k ++ PyStr.of_Z m) = true).
  { intros k m Hm. rewrite all_chars_app, all_chars_zeros by reflexivity.
    apply numeric_of_Z. }
  unfold PyInt.format_02d, PyFloat.pad_digits.
  destruct (Z.ltb_spec n 0) as [N|N]; [|apply D, N].
  simpl. apply D. lia.
Qed.

Lemma split_char_none (c : ascii) (f : ascii -> bool) (s : string) :
  f c = false -> all_chars f s = true -> PyStr.split_char c s = [s].
Proof.
  intros Hc. induction s as [|a s IH]; simpl; [reflexivity|].
  intros A. apply andb_true_iff in A. destruct A as [A1 A2].
  destruct (Ascii.eqb_spec a c) as [->|_]; [congruence|].
  rewrite (IH A2). reflexivity.
Qed.

Lemma split_colon (a : string) (rest : string) :
  all_chars numeric a = true ->
  PyStr.split_char ":" (a ++ ":" ++ rest) = a :: PyStr.split_char ":" rest.
Proof.
  intros A. change (a ++ ":" ++ rest) with (a ++ String ":" rest).
  rewrite split_char_app, (split_char_none ":" numeric a eq_refl A). reflexivity.
Qed.

Lemma format_eta_mm_ss (m s : Z) :
  let text := PyInt.format_02d m ++ ":" ++ PyInt.format_02d s in
  _format_eta text = Ok text.
Proof.
  intros text. unfold _format_eta. subst text.
  rewrite split_colon by apply numeric_02d.
  rewrite (split_char_none ":" numeric _ eq_refl (numeric_02d s)).
  rewrite !int_of_02d. reflexivity.
Qed.

Lemma format_eta_h_mm_ss (h m s : Z) :
  let text := PyStr.of_Z h ++ ":" ++ PyInt.format_02d m ++ ":" ++ PyInt.format_02d s in
  _format_eta text = Ok text.
Proof.
  intros text. unfold _format_eta. subst text.
  rewrite split_colon by apply numeric_of_Z.
  rewrite split_colon by apply numeric_02d.
  rewrite (split_char_none ":" numeric _ eq_refl (numeric_02d s)).
  rewrite int_of_str, !int_of_02d. reflexivity.
Qed.

(** The three forms of the result of [_format_eta] *)
Lemma format_eta_forms (token : string) :
  _format_eta token = Ok token
  \/ (exists m s, _format_eta token = Ok (PyInt.format_02d m ++ ":" ++ PyInt.format_02d s))
  \/ (exists h m s,
        _format_eta token
        = Ok (PyStr.of_Z h ++ ":" ++ PyInt.format_02d m ++ ":" ++ PyInt.format_02d s)).
Proof.
  unfold _format_eta, try_except, rbind.
  destruct (PyStr.split_char ":" token) as [|a [|b [|c [|d l]]]];
    repeat (match goal with
            | |- context [PyInt.of_string ?x] => destruct (PyInt.of_string x)
            | |- context [PyFloat.of_string ?x] => destruct (PyFloat.of_string x)
            | |- context [PyFloat.to_int ?x] => destruct (PyFloat.to_int x)
            | |- context [3600 <=? ?x] => destruct (3600 <=? x)
            end; cbn beta iota);
    eauto 8.
Qed.

(** X5. [_format_eta] normalises: whatever the token, it returns a text
    (it never raises), and formatting that text again returns it unchanged. *)
Theorem format_eta_idempotent (token : string) :
  exists text, _format_eta token = Ok text /\ _format_eta text = Ok text.
Proof.
  destruct (format_eta_forms token) as [E | [[m [s E]] | [h [m [s E]]]]];
    eexists; (split; [exact E|]).
  - exact E.
  - apply format_eta_mm_ss.
  - apply format_eta_h_mm_ss.
Qed.

(* ------------------------------------------------------------------ *)
(** ** Size tokens *)

Lemma span_digits_spec (s : string) :
  forall d r, span_digits s = (d, r) ->
    s = d ++ r /\ all_chars PyStr.is_digit d = true
    /\ PyFloat.starts_with_digit r = false.
Proof.
  induction s as [|c s IH]; intros d r H; simpl in H.
  - inversion H; subst. repeat split.
  - destruct (PyStr.is_digit c) eqn:D.
    + destruct (span_digits s) as [d' r'] eqn:S. inversion H; subst.
      destruct (IH d' r eq_refl) as [E [A N]]. subst s. simpl. rewrite D. repeat split; auto.
    + inversion H; subst. simpl. rewrite D. repeat split.
Qed.

(** Reading a run of digits *)
Lemma digitpart_digits (s r : string) :
  all_chars PyStr.is_digit s = true ->
  forall acc cnt, exists acc',
    PyFloat.digitpart (s ++ r) acc cnt
    = PyFloat.digitpart r acc' (cnt + Z.of_nat (String.length s)).
Proof.
  induction s as [|c s IH]; intros A acc cnt.
  - exists acc. simpl. rewrite Z.add_0_r. reflexivity.
  - simpl in A. apply andb_true_iff in A. destruct A as [D A].
    destruct (IH A (acc * 10 + PyStr.digit_val c) (cnt + 1)) as [acc' E].
    exists acc'. cbn [append PyFloat.digitpart]. rewrite D, E.
    f_equal. cbn [String.length]. lia.
Qed.

Lemma digitpart_stop (r : string) (acc cnt : Z) :
  match r with
  | EmptyString => True
  | String c _ => PyStr.is_digit c = false /\ c <> "_"%char
  end ->
  PyFloat.digitpart r acc cnt = (acc, cnt, r).
Proof.
  destruct r as [|c r]; [reflexivity|]. intros [D U]. simpl. rewrite D.
  destruct (Ascii.eqb_spec c "_"); [contradiction | reflexivity].
Qed.

Lemma all_digits_head (s : string) :
  all_chars PyStr.is_digit s = true -> s <> "" -> PyFloat.starts_with_digit s = true.
Proof.
  destruct s as [|c s]; [congruence|]. simpl. intros A _.
  apply andb_true_iff in A. apply A.
Qed.

Lemma lower_digit (c : ascii) : PyStr.is_digit c = true -> PyStr.lower_char c = c.
Proof.
  unfold PyStr.is_digit, PyStr.lower_char. intros H.
  apply andb_true_iff in H. destruct H as [H1 H2].
  apply Nat.leb_le in H1. apply Nat.leb_le in H2.
  destruct (Nat.leb_spec 65 (nat_of_ascii c)); [lia | reflexivity].
Qed.

(** A text that starts with a digit is none of [inf], [infinity], [nan], has
    no sign and, when it is digits and dots only, no whitespace. *)
Lemma float_of_digits_head (c : ascii) (s : string) :
  PyStr.is_digit c = true ->
  PyFloat.read_sign (String c s) = (false, String c s)
  /\ String.eqb (PyStr.lower (String c s)) "inf" = false
  /\ String.eqb (PyStr.lower (String c s)) "infinity" = false
  /\ String.eqb (PyStr.lower (String c s)) "nan" = false.
Proof.
  intros D. simpl PyStr.lower. rewrite (lower_digit c D).
  destruct c as [[] [] [] [] [] [] [] []]; try discriminate D; repeat split.
Qed.


Lemma decimal_no_space (s : string) :
  all_chars decimal_char s = true ->
  all_chars (fun c => negb (PyStr.is_space c)) s = true.
Proof.
  apply all_chars_impl. intros x Hx. unfold decimal_char in Hx.
  apply orb_true_iff in Hx. destruct Hx as [Hx|Hx].
  - now rewrite digit_not_space.
  - apply Ascii.eqb_eq in Hx. subst x. reflexivity.
Qed.

Lemma digits_decimal (s : string) :
  all_chars PyStr.is_digit s = true -> all_chars decimal_char s = true.
Proof. apply all_chars_impl. intros x Hx. unfold decimal_char. now rewrite Hx. Qed.

(** [float] reads digits, and digits with a fraction. *)
Lemma float_of_decimal (ip fp : string) :
  all_chars PyStr.is_digit ip = true -> ip <> "" ->
  all_chars PyStr.is_digit fp = true ->
  (exists v, PyFloat.of_string ip = Ok v)
  /\ (fp <> "" -> exists v, PyFloat.of_string (ip ++ "." ++ fp) = Ok v).
Proof.
  intros A N B. destruct ip as [|c ip]; [congruence|].
  assert (D : PyStr.is_digit c = true) by (simpl in A; apply andb_true_iff in A; apply A).
  split.
  - unfold PyFloat.of_string.
    rewrite strip_id by (apply decimal_no_space, digits_decimal, A).
    destruct (float_of_digits_head c ip D) as [-> [-> [-> ->]]]. cbn [orb].
    unfold PyFloat.read_number. cbn [PyFloat.starts_with_digit]. rewrite D.
    destruct (digitpart_digits (String c ip) "" A 0 0) as [acc E].
    rewrite string_app_nil_r in E. rewrite E. cbn [PyFloat.digitpart].
    cbn [PyFloat.read_exponent]. eauto.
  - intros NF. unfold PyFloat.of_string.
    rewrite strip_id.
    2:{ apply decimal_no_space. rewrite all_chars_app. simpl.
        rewrite (digits_decimal _ B). simpl in A. apply andb_true_iff in A.
        destruct A as [A1 A2]. unfold decimal_char at 1. rewrite A1.
        rewrite (digits_decimal _ A2). reflexivity. }
    change ((String c ip) ++ "." ++ fp) with (String c (ip ++ "." ++ fp)).
    destruct (float_of_digits_head c (ip ++ "." ++ fp) D) as [-> [-> [-> ->]]]. cbn [orb].
    unfold PyFloat.read_number. cbn [PyFloat.starts_with_digit]. rewrite D.
    change (String c (ip ++ "." ++ fp)) with ((String c ip) ++ "." ++ fp).
    destruct (digitpart_digits (String c ip) ("." ++ fp) A 0 0) as [acc E].
    rewrite E. rewrite digitpart_stop by (split; [reflexivity | discriminate]).
    cbn [append]. rewrite (all_digits_head fp B NF).
    destruct (digitpart_digits fp "" B acc 0) as [acc2 E2].
    rewrite string_app_nil_r in E2. rewrite E2. cbn [PyFloat.digitpart].
    cbn [PyFloat.read_exponent]. eauto.
Qed.

(** What the pattern of a size token matches: a number that [float] reads and
    one of the units K, M, G with B or iB. *)
Lemma re_match_size_spec (token g1 unit : string) :
  re_match_size token = Some (g1, unit) ->
  (exists v, PyFloat.of_string g1 = Ok v)
  /\ (unit = "KB" \/ unit = "KiB" \/ unit = "MB" \/ unit = "MiB"
      \/ unit = "GB" \/ unit = "GiB").
Proof.
  unfold re_match_size.
  destruct (span_digits token) as [ip r1] eqn:S1.
  destruct (span_digits_spec _ _ _ S1) as [_ [A1 _]].
  destruct ip as [|c ip]; [discriminate|].
  assert (N1 : String c ip <> "") by discriminate.
  set (p := match r1 with
            | String "." r1' =>
                let '(fp, r3) := span_digits r1' in
                match fp with
                | "" => (String c ip, r1)
                | String _ _ => (String c ip ++ "." ++ fp, r3)
                end
            | _ => (String c ip, r1)
            end).
  assert (P : exists v, PyFloat.of_string (fst p) = Ok v).
  { subst p. destruct r1 as [|x r1']; [apply (float_of_decimal _ "" A1 N1 eq_refl)|].
    destruct (Ascii.eqb_spec x "."); [subst x|].
    2:{ destruct x as [[] [] [] [] [] [] [] []];
        try apply (float_of_decimal _ "" A1 N1 eq_refl). congruence. }
    destruct (span_digits r1') as [fp r3] eqn:S2.
    destruct (span_digits_spec _ _ _ S2) as [_ [A2 _]].
    destruct fp as [|y fp]; [apply (float_of_decimal _ "" A1 N1 eq_refl)|].
    apply (float_of_decimal _ _ A1 N1 A2). discriminate. }
  destruct p as [num r2]. cbn [fst] in P.
  destruct r2 as [|u r4]; [discriminate|].
  destruct (Ascii.eqb_spec u "K") as [->|NK]; cbn [orb].
  { destruct r4 as [|a [|b r5]]; try discriminate.
    - destruct a as [[] [] [] [] [] [] [] []]; try discriminate.
      intros E; inversion E; subst; auto.
    - destruct a as [[] [] [] [] [] [] [] []]; try discriminate;
      try (intros E; inversion E; subst; auto; fail).
      destruct b as [[] [] [] [] [] [] [] []]; try discriminate.
      intros E; inversion E; subst; auto. }
  destruct (Ascii.eqb_spec u "M") as [->|NM]; cbn [orb].
  { destruct r4 as [|a [|b r5]]; try discriminate.
    - destruct a as [[] [] [] [] [] [] [] []]; try discriminate.
      intros E; inversion E; subst; auto.
    - destruct a as [[] [] [] [] [] [] [] []]; try discriminate;
      try (intros E; inversion E; subst; auto; fail).
      destruct b as [[] [] [] [] [] [] [] []]; try discriminate.
      intros E; inversion E; subst; auto 6. }
  destruct (Ascii.eqb_spec u "G") as [->|NG]; cbn [orb]; [|discriminate].
  destruct r4 as [|a [|b r5]]; try discriminate.
  - destruct a as [[] [] [] [] [] [] [] []]; try discriminate.
    intros E; inversion E; subst; auto 8.
  - destruct a as [[] [] [] [] [] [] [] []]; try discriminate;
    try (intros E; inversion E; subst; auto 8; fail).
    destruct b as [[] [] [] [] [] [] [] []]; try discriminate.
    intros E; inversion E; subst; auto 8.
Qed.


(** X6. The two helpers for size tokens accept the same tokens.  For a token
    that does not match the pattern, the text is empty and the byte count is
    [None].  For a token that matches, the number is always one that [float]
    reads, the text is that number followed by KB (no decimals), MB or GB
    (two decimals), never the bare B of the helper's last branch, and the
    byte count is the number times 1024, 1024^2 or 1024^3, never times 1. *)
Theorem size_helpers_agree (token : string) :
  match re_match_size token with
  | None =>
      _humanize_yt_dlp_size token = Ok "" /\ _size_token_to_bytes token = Ok None
  | Some (number, unit) =>
      exists value decimals suffix power,
        PyFloat.of_string number = Ok value
        /\ _humanize_yt_dlp_size token = Ok (PyFloat.format_f decimals value ++ suffix)
        /\ _size_token_to_bytes token = Ok (Some (PyFloat.fmul value (f1024 power)))
        /\ ((PyStr.startswith unit "K" = true
             /\ decimals = 0%nat /\ suffix = " KB" /\ power = 1)
            \/ (PyStr.startswith unit "M" = true
                /\ decimals = 2%nat /\ suffix = " MB" /\ power = 2)
            \/ (PyStr.startswith unit "G" = true
                /\ decimals = 2%nat /\ suffix = " GB" /\ power = 3))
  end.
Proof.
  destruct (re_match_size token) as [[number unit]|] eqn:R.
  2:{ split; [apply humanize_no_match | apply bytes_no_match]; exact R. }
  destruct (re_match_size_spec _ _ _ R) as [[value V] U].
  unfold _humanize_yt_dlp_size, _size_token_to_bytes. rewrite R, V. cbn [rbind].
  exists value.
  destruct U as [U|[U|[U|[U|[U|U]]]]]; subst unit; cbn;
    [ exists 0%nat, " KB", 1 | exists 0%nat, " KB", 1
    | exists 2%nat, " MB", 2 | exists 2%nat, " MB", 2
    | exists 2%nat, " GB", 3 | exists 2%nat, " GB", 3 ];
    (split; [reflexivity|]); (split; [reflexivity|]); (split; [reflexivity|]);
    auto 10.
Qed.

(* ------------------------------------------------------------------ *)
(** ** Resolutions: modes, format listings, format texts *)

Lemma isdigit_of_Z (n : Z) : 0 <= n -> isdigit (PyStr.of_Z n) = true.
Proof.
  intros H. destruct (of_Z_digits n H) as [c [s [E [_ A]]]].
  unfold isdigit. rewrite A, E. reflexivity.
Qed.

Lemma isdigit_minus (s : string) : isdigit ("-" ++ s) = false.
Proof. reflexivity. Qed.

Lemma split_written_mode (n : Z) :
  0 <= n -> PyStr.split_char "_" ("video_" ++ PyStr.of_Z n) = ["video"; PyStr.of_Z n].
Proof.
  intros H. change ("video_" ++ PyStr.of_Z n) with ("video" ++ String "_" (PyStr.of_Z n)).
  rewrite split_char_app.
  destruct (of_Z_digits n H) as [_ [_ [_ [_ A]]]].
  rewrite (split_char_none "_" PyStr.is_digit _ eq_refl A). reflexivity.
Qed.

Lemma prefix_app (p r : string) : String.prefix p (p ++ r) = true.
Proof.
  induction p as [|a p IH]; simpl; [destruct r; reflexivity|].
  destruct (ascii_dec a a); [exact IH | congruence].
Qed.

Lemma startswith_app (p r : string) : PyStr.startswith (p ++ r) p = true.
Proof. apply prefix_app. Qed.

Lemma extract_mode_never_raises (mode : string) :
  exists r, _extract_resolution_from_mode mode = Ok r.
Proof. apply try_except_ok. eauto. Qed.

Lemma extract_video_mode (n : Z) :
  0 <= n -> _extract_resolution_from_mode ("video_" ++ PyStr.of_Z n) = Ok (Some n).
Proof.
  intros H. unfold _extract_resolution_from_mode.
  rewrite startswith_app, (split_written_mode n H). cbn [index nth_error rbind].
  rewrite (isdigit_of_Z n H), int_of_str. reflexivity.
Qed.

(** X7. The resolution of a mode is read back from the mode that the page
    writes for it: for every [n >= 0], [_extract_resolution_from_mode] of
    ["video_<n>"] is [n], and the format selector that the worker computes
    for that mode bounds the height by [n].  A mode that does not start with
    ["video_"] (the audio modes), ["video_best"], and a mode written for a
    negative number have no resolution; the function never raises. *)
Theorem resolution_of_written_mode (n : Z) :
  (0 <= n ->
   _extract_resolution_from_mode ("video_" ++ PyStr.of_Z n) = Ok (Some n)
   /\ exists selector,
        fmt ("video_" ++ PyStr.of_Z n) = Ok selector
        /\ PyStr.startswith selector
             ("bestvideo[height<=" ++ PyStr.of_Z n ++ "][ext=mp4]+bestaudio[ext=m4a]/") = true)
  /\ (n < 0 -> _extract_resolution_from_mode ("video_" ++ PyStr.of_Z n) = Ok None)
  /\ _extract_resolution_from_mode "video_best" = Ok None
  /\ (forall mode,
        PyStr.startswith mode "video_" = false ->
        _extract_resolution_from_mode mode = Ok None)
  /\ (forall mode, exists r, _extract_resolution_from_mode mode = Ok r).
Proof.
  split; [|split; [|split; [|split]]].
  - intros H. split.
    + apply extract_video_mode, H.
    + unfold fmt.
      assert (NB : String.eqb ("video_" ++ PyStr.of_Z n) "video_best" = false).
      { destruct (of_Z_digits n H) as [c [s [E [D _]]]]. rewrite E. simpl.
        destruct c as [[] [] [] [] [] [] [] []]; try discriminate D; reflexivity. }
      rewrite NB, startswith_app, (split_written_mode n H). cbn [index nth_error rbind].
      eexists; split; [reflexivity|].
      change "][ext=mp4]+bestaudio[ext=m4a]/bestvideo[height<="
        with ("][ext=mp4]+bestaudio[ext=m4a]/" ++ "bestvideo[height<=").
      rewrite <- !string_app_assoc. rewrite !string_app_assoc.
      rewrite <- (string_app_assoc "bestvideo[height<=" (PyStr.of_Z n)).
      rewrite <- (string_app_assoc ("bestvideo[height<=" ++ PyStr.of_Z n)).
      apply startswith_app.
  - intros H. rewrite (of_Z_neg n H).
    unfold _extract_resolution_from_mode.
    rewrite startswith_app.
    change ("video_" ++ "-" ++ PyStr.of_Z (- n))
      with ("video" ++ String "_" ("-" ++ PyStr.of_Z (- n))).
    rewrite split_char_app.
    assert (P : 0 <= - n) by lia.
    destruct (of_Z_digits (- n) P) as [_ [_ [_ [_ A]]]].
    rewrite (split_char_none "_" numeric ("-" ++ PyStr.of_Z (- n)) eq_refl).
    2:{ simpl. apply (all_chars_impl PyStr.is_digit); [|exact A].
        intros x Hx. unfold numeric. now rewrite Hx. }
    reflexivity.
  - reflexivity.
  - intros mode H. unfold _extract_resolution_from_mode. rewrite H. reflexivity.
  - apply extract_mode_never_raises.
Qed.

Lemma resolution_of_written_mode_witness :
  _extract_resolution_from_mode ("video_" ++ PyStr.of_Z 720) = Ok (Some 720)
  /\ _extract_resolution_from_mode ("video_" ++ PyStr.of_Z (-1)) = Ok None
  /\ _extract_resolution_from_mode "mp3_320" = Ok None.
Proof.
  split; [exact (proj1 (proj1 (resolution_of_written_mode 720) ltac:(lia)))|].
  split; [exact (proj1 (proj2 (resolution_of_written_mode (-1))) ltac:(lia))|].
  exact (proj1 (proj2 (proj2 (proj2 (resolution_of_written_mode 0)))) "mp3_320" eq_refl).
Defined.

Lemma raise_to_max (m res : Z) : raise_to m res = Z.max m res.
Proof. unfold raise_to. destruct (Z.ltb_spec m res); lia. Qed.

Lemma accumulates_keep {A} (f : Z -> A -> result Z) (x : A) :
  (forall m, f m x = Ok m) -> accumulates f x.
Proof.
  intros H. exists 0. split; [lia|]. split; [apply H|].
  intros m Hm. rewrite H. f_equal. lia.
Qed.

Lemma accumulates_value {A} (f : Z -> A -> result Z) (x : A) (res : Z) :
  (forall m, f m x = Ok (raise_to m res)) -> accumulates f x.
Proof.
  intros H. exists (Z.max 0 res). split; [lia|]. split.
  - rewrite H, raise_to_max. reflexivity.
  - intros m Hm. rewrite H, raise_to_max. f_equal. lia.
Qed.

(** A token leaves the greatest resolution as it is or raises it to its
    own. *)
Lemma scan_part_cases (part : string) :
  (forall m, scan_part m part = Ok m)
  \/ (exists res, forall m, scan_part m part = Ok (raise_to m res)).
Proof.
  unfold scan_part.
  destruct (PyStr.contains "x" part && (str_count "x" part =? 1))%bool.
  - destruct (PyStr.split_char "x" part) as [|width [|height [|z l]]]; auto.
    destruct (isdigit width && isdigit height)%bool; auto.
    destruct (PyInt.of_string height) as [res|e]; [right; exists res|]; auto.
  - destruct (PyStr.endswith part "p" && isdigit (PyStr.drop_last 1 part))%bool; auto.
    destruct (PyInt.of_string (PyStr.drop_last 1 part)) as [res|e];
      [right; exists res|]; auto.
Qed.

Lemma scan_part_accumulates (part : string) : accumulates scan_part part.
Proof.
  destruct (scan_part_cases part) as [H | [res H]].
  - apply accumulates_keep, H.
  - apply (accumulates_value _ _ res), H.
Qed.

Section Accumulate.

Context {A : Type} (body : Z -> A -> result Z).
Hypothesis body_accumulates : forall x, accumulates body x.

Lemma scan_all_accumulates (l : list A) : accumulates (scan_all body) l.
Proof.
  induction l as [|x l IH].
  - apply accumulates_keep. reflexivity.
  - destruct (body_accumulates x) as [v [Hv [E0 E]]].
    destruct IH as [u [Hu [F0 F]]].
    exists (Z.max v u). split; [lia|]. split.
    + simpl. rewrite E0. cbn [rbind]. rewrite (F v Hv). reflexivity.
    + intros m Hm. simpl. rewrite (E m Hm). cbn [rbind].
      rewrite F by lia. f_equal. lia.
Qed.

Lemma scan_all_app (l1 l2 : list A) (m : Z) :
  scan_all body m (l1 ++ l2) = let? m' := scan_all body m l1 in scan_all body m' l2.
Proof.
  revert m. induction l1 as [|x l1 IH]; intros m; simpl; [reflexivity|].
  destruct (body m x); simpl; [apply IH | reflexivity].
Qed.

End Accumulate.

Lemma scan_line_accumulates (line : string) : accumulates scan_line line.
Proof.
  destruct (PyStr.contains "x" line && any_char PyStr.is_digit line)%bool eqn:L.
  - destruct (scan_all_accumulates scan_part scan_part_accumulates (PyStr.split line))
      as [v [Hv [E0 E]]].
    exists v. unfold scan_line. rewrite L. auto.
  - apply accumulates_keep. intros m. unfold scan_line. rewrite L. reflexivity.
Qed.

Lemma scan_lines_accumulates (lines : list string) :
  accumulates (scan_all scan_line) lines.
Proof. apply scan_all_accumulates, scan_line_accumulates. Qed.

(** The greatest resolution of a listing, 0 when it shows none *)
Lemma parse_max_resolution_eval (formats_output mode : string) :
  exists v,
    0 <= v
    /\ scan_all scan_line 0 (PyStr.split_char newline formats_output) = Ok v
    /\ _parse_max_resolution formats_output mode
       = Ok (if 0 <? v then Some v else None).
Proof.
  destruct (scan_lines_accumulates (PyStr.split_char newline formats_output))
    as [v [Hv [E _]]].
  exists v. split; [exact Hv|]. split; [exact E|].
  unfold _parse_max_resolution. rewrite E. reflexivity.
Qed.

Lemma prefix_char (c a : ascii) (s : string) :
  String.prefix (String c "") (String a s) = Ascii.eqb c a.
Proof.
  simpl. destruct (ascii_dec c a) as [->|N].
  - rewrite Ascii.eqb_refl. destruct s; reflexivity.
  - symmetry. apply Ascii.eqb_neq, N.
Qed.

(** [c in s] for one character *)
Lemma contains_char_false (c : ascii) (f : ascii -> bool) (s : string) :
  f c = false -> all_chars f s = true -> PyStr.contains (String c "") s = false.
Proof.
  intros Hc. induction s as [|a s IH]; intros A; [reflexivity|].
  simpl in A. apply andb_true_iff in A. destruct A as [A1 A2].
  cbn [PyStr.contains]. rewrite prefix_char, (IH A2).
  destruct (Ascii.eqb_spec c a) as [->|_]; [congruence | reflexivity].
Qed.

Lemma contains_app (needle a b : string) :
  PyStr.contains needle (a ++ needle ++ b) = true.
Proof.
  induction a as [|x a IH]; cbn [append].
  - destruct (needle ++ b) eqn:E; cbn [PyStr.contains]; rewrite <- E, prefix_app; reflexivity.
  - cbn [PyStr.contains]. rewrite IH. apply orb_true_r.
Qed.

Lemma str_count_none (c : ascii) (f : ascii -> bool) (s : string) :
  f c = false -> all_chars f s = true -> str_count c s = 0.
Proof.
  intros Hc. induction s as [|a s IH]; intros A; [reflexivity|].
  simpl in A. apply andb_true_iff in A. destruct A as [A1 A2].
  simpl. rewrite (IH A2). destruct (Ascii.eqb_spec a c) as [->|_]; [congruence | reflexivity].
Qed.

Lemma str_count_app (c : ascii) (a b : string) :
  str_count c (a ++ b) = str_count c a + str_count c b.
Proof. induction a as [|x a IH]; simpl; [reflexivity | rewrite IH; lia]. Qed.

(** A text without whitespace is one token. *)
Lemma split_one_token (s : string) :
  s <> "" -> all_chars (fun c => negb (PyStr.is_space c)) s = true -> PyStr.split s = [s].
Proof.
  induction s as [|a s IH]; [congruence|]. intros _ A.
  simpl in A. apply andb_true_iff in A. destruct A as [A1 A2].
  apply negb_true_iff in A1. cbn [PyStr.split]. rewrite A1.
  destruct s as [|b s]; [reflexivity|].
  assert (B : PyStr.is_space b = false).
  { simpl in A2. apply andb_true_iff in A2. apply negb_true_iff, A2. }
  rewrite B, IH by (congruence || exact A2). reflexivity.
Qed.

Lemma any_char_head (f : ascii -> bool) (c : ascii) (s : string) :
  f c = true -> any_char f (String c s) = true.
Proof. intros H. unfold any_char. simpl. rewrite H. reflexivity. Qed.


Lemma digits_token (s : string) :
  all_chars PyStr.is_digit s = true -> all_chars token_char s = true.
Proof. apply all_chars_impl. intros x Hx. unfold token_char. now rewrite Hx. Qed.

Lemma token_no_space (s : string) :
  all_chars token_char s = true ->
  all_chars (fun c => negb (PyStr.is_space c)) s = true.
Proof.
  apply all_chars_impl. intros x Hx. unfold token_char in Hx.
  apply orb_true_iff in Hx. destruct Hx as [Hx|Hx].
  - apply orb_true_iff in Hx. destruct Hx as [Hx|Hx].
    + now rewrite digit_not_space.
    + apply Ascii.eqb_eq in Hx. subst x. reflexivity.
  - apply Ascii.eqb_eq in Hx. subst x. reflexivity.
Qed.

Lemma token_one_line (s : string) :
  all_chars token_char s = true -> PyStr.split_char newline s = [s].
Proof. apply (split_char_none newline token_char). reflexivity. Qed.

(** X8. [_parse_max_resolution] never raises, and a resolution that it
    returns is positive: a listing whose only heights are 0 has no
    resolution.  It reads a listing line by line: the result for two
    listings joined by a newline is the greater of the two results.  The
    token [WxH] counts with its height [H]; a token [Np] counts only on a
    line that has an ["x"] somewhere: alone on its line it is not seen. *)
Theorem parse_max_resolution_by_lines (first second mode : string) :
  (exists r, _parse_max_resolution first mode = Ok r
             /\ forall n, r = Some n -> 0 < n)
  /\ (exists r1 r2,
        _parse_max_resolution first mode = Ok r1
        /\ _parse_max_resolution second mode = Ok r2
        /\ _parse_max_resolution (first ++ String newline second) mode
           = Ok (best_of r1 r2))
  /\ (forall w h,
        0 <= w -> 0 <= h ->
        _parse_max_resolution (PyStr.of_Z w ++ "x" ++ PyStr.of_Z h) mode
        = Ok (if 0 <? h then Some h else None))
  /\ (forall n, 0 <= n -> _parse_max_resolution (PyStr.of_Z n ++ "p") mode = Ok None).
Proof.
  destruct (parse_max_resolution_eval first mode) as [v1 [H1 [S1 P1]]].
  destruct (parse_max_resolution_eval second mode) as [v2 [H2 [S2 P2]]].
  split; [|split; [|split]].
  - eexists; split; [exact P1|]. intros n.
    destruct (Z.ltb_spec 0 v1); [intros E; inversion E; subst; assumption | discriminate].
  - do 2 eexists. split; [exact P1|]. split; [exact P2|].
    unfold _parse_max_resolution. rewrite split_char_app.
    rewrite scan_all_app, S1. cbn [rbind].
    destruct (scan_lines_accumulates (PyStr.split_char newline second))
      as [u [Hu [E0 E]]].
    assert (u = v2) by congruence. subst u.
    rewrite (E v1 H1). cbn [try_except rbind]. f_equal.
    destruct (Z.ltb_spec 0 v1), (Z.ltb_spec 0 v2), (Z.ltb_spec 0 (Z.max v1 v2));
      simpl; try lia; try reflexivity; f_equal; lia.
  - intros w h Hw Hh.
    destruct (of_Z_digits w Hw) as [cw [sw [Ew [Dw Aw]]]].
    destruct (of_Z_digits h Hh) as [ch [sh [Eh [Dh Ah]]]].
    set (t := PyStr.of_Z w ++ "x" ++ PyStr.of_Z h).
    assert (T : all_chars token_char t = true).
    { subst t. rewrite !all_chars_app, (digits_token _ Aw), (digits_token _ Ah).
      reflexivity. }
    assert (NE : t <> "") by (subst t; rewrite Ew; discriminate).
    unfold _parse_max_resolution. rewrite (token_one_line t T).
    cbn [scan_all]. unfold scan_line.
    assert (X : PyStr.contains "x" t = true) by apply contains_app.
    assert (D : any_char PyStr.is_digit t = true).
    { subst t. rewrite Ew. apply any_char_head, Dw. }
    rewrite X, D. cbn [andb].
    rewrite (split_one_token t NE (token_no_space t T)). cbn [scan_all].
    unfold scan_part. rewrite X.
    assert (C : str_count "x" t = 1).
    { subst t. rewrite !str_count_app.
      rewrite (str_count_none "x" PyStr.is_digit _ eq_refl Aw).
      rewrite (str_count_none "x" PyStr.is_digit _ eq_refl Ah). reflexivity. }
    rewrite C. cbn [Z.eqb Pos.eqb andb].
    subst t. change (PyStr.of_Z w ++ "x" ++ PyStr.of_Z h)
      with (PyStr.of_Z w ++ String "x" (PyStr.of_Z h)).
    rewrite split_char_app.
    rewrite (split_char_none "x" PyStr.is_digit _ eq_refl Aw).
    rewrite (split_char_none "x" PyStr.is_digit _ eq_refl Ah).
    cbn [app]. rewrite (isdigit_of_Z w Hw), (isdigit_of_Z h Hh), int_of_str.
    cbn. rewrite raise_to_max. f_equal.
    destruct (Z.ltb_spec 0 h), (Z.ltb_spec 0 (Z.max 0 h)); try lia; try reflexivity.
    f_equal. lia.
  - intros n Hn.
    destruct (of_Z_digits n Hn) as [c [s [E [D A]]]].
    set (t := PyStr.of_Z n ++ "p").
    assert (T : all_chars PyStr.is_digit (PyStr.of_Z n) = true) by exact A.
    assert (P : all_chars (fun c => (PyStr.is_digit c || Ascii.eqb c "p")%bool) t = true).
    { subst t. rewrite all_chars_app. simpl. rewrite andb_true_r.
      apply (all_chars_impl PyStr.is_digit); [|exact A]. intros x Hx. now rewrite Hx. }
    unfold _parse_max_resolution.
    rewrite (split_char_none newline _ t eq_refl P).
    cbn [scan_all]. unfold scan_line.
    rewrite (contains_char_false "x" _ t eq_refl P). reflexivity.
Qed.

Lemma parse_max_resolution_by_lines_witness :
  _parse_max_resolution (PyStr.of_Z 1920 ++ "x" ++ PyStr.of_Z 1080) "video_2160"
  = Ok (Some 1080)
  /\ _parse_max_resolution (PyStr.of_Z 0 ++ "x" ++ PyStr.of_Z 0) "video_2160" = Ok None
  /\ _parse_max_resolution (PyStr.of_Z 1080 ++ "p") "video_2160" = Ok None.
Proof.
  destruct (parse_max_resolution_by_lines "" "" "video_2160") as [_ [_ [W P]]].
  split; [exact (W 1920 1080 ltac:(lia) ltac:(lia))|].
  split; [exact (W 0 0 ltac:(lia) ltac:(lia))|].
  exact (P 1080 ltac:(lia)).
Defined.

(* ------------------------------------------------------------------ *)
(** ** Starting a download *)




(** What [_start_download_worker] does *)
Lemma start_download_worker_eval (url output_dir mode : string) (no_playlist : bool)
    (p : page) :
  let w := __init__ url output_dir mode no_playlist (data_channel (the_card p)) in
  _start_download_worker url output_dir mode no_playlist p
  = ({| the_card := set_worker_url (Some url) (set_card_worker (Some w) (the_card p));
        page_disk := page_disk p;
        done := ((done p ++ [start_worker w]) ++ [start_duration_fetch url])%list |}, Ok tt).
Proof. reflexivity. Qed.








(* ------------------------------------------------------------------ *)
(** ** The format text of the card *)

Lemma prefix_nil (s : string) : String.prefix "" s = true.
Proof. destruct s; reflexivity. Qed.

Lemma contains_cons (needle : string) (c : ascii) (s : string) :
  PyStr.contains needle (String c s)
  = (String.prefix needle (String c s) || PyStr.contains needle s)%bool.
Proof. reflexivity. Qed.

(** A text without the separator is one part. *)
Lemma split_from_none (sep s : string) :
  PyStr.contains sep s = false -> split_from sep s 0 = [s].
Proof.
  induction s as [|c s IH]; intros H; [reflexivity|].
  rewrite contains_cons in H. apply orb_false_iff in H. destruct H as [H1 H2].
  cbn [split_from]. rewrite H1, (IH H2). reflexivity.
Qed.

(** The parts of a format text ["Video • MP4 •<rest>"] *)
Lemma split_video_format (rest : string) :
  PyStr.contains "•" rest = false ->
  str_split "•" ("Video • MP4 •" ++ rest) = ["Video "; " MP4 "; rest].
Proof.
  intros H. unfold str_split. cbn. rewrite prefix_nil, (split_from_none _ _ H).
  reflexivity.
Qed.

Lemma contains_video_format (rest : string) :
  PyStr.contains "•" ("Video • MP4 •" ++ rest) = true.
Proof.
  change ("Video • MP4 •" ++ rest) with ("Video " ++ "•" ++ (" MP4 •" ++ rest)).
  apply contains_app.
Qed.

Lemma rev_acc_app (a b acc : string) :
  PyStr.rev_acc (a ++ b) acc = PyStr.rev_acc b (PyStr.rev_acc a acc).
Proof. revert acc. induction a as [|c a IH]; intros acc; simpl; [reflexivity | apply IH]. Qed.

Lemma rev_last (s : string) (c : ascii) :
  PyStr.rev (s ++ String c "") = String c (PyStr.rev s).
Proof. unfold PyStr.rev. rewrite rev_acc_app. reflexivity. Qed.

(** [s.endswith(c)] looks at the last character. *)
Lemma endswith_last (s : string) (c d : ascii) :
  PyStr.endswith (s ++ String c "") (String d "") = Ascii.eqb d c.
Proof. unfold PyStr.endswith. rewrite rev_last. apply prefix_char. Qed.

Lemma strip_space_left (s : string) : PyStr.strip (String " " s) = PyStr.strip s.
Proof. reflexivity. Qed.

Lemma rstrip_last (s : string) (c : ascii) :
  PyStr.is_space c = false -> PyStr.rstrip (s ++ String c "") = s ++ String c "".
Proof.
  intros H. unfold PyStr.rstrip. rewrite rev_last. cbn [PyStr.lstrip]. rewrite H.
  rewrite <- rev_last. apply rev_involutive.
Qed.

(** [s[:-1]] of a text that has a last character *)
Lemma length_last (s : string) (c : ascii) :
  String.length (s ++ String c "") = S (String.length s).
Proof. induction s as [|a s IH]; simpl; [reflexivity | now rewrite IH]. Qed.

Lemma substring_app_front (s t : string) :
  String.substring 0 (String.length s) (s ++ t) = s.
Proof.
  induction s as [|a s IH]; simpl.
  - destruct t; reflexivity.
  - now rewrite IH.
Qed.

Lemma drop_last_one (s : string) (c : ascii) : PyStr.drop_last 1 (s ++ String c "") = s.
Proof.
  unfold PyStr.drop_last. rewrite length_last.
  replace (S (String.length s) - 1)%nat with (String.length s) by lia.
  apply substring_app_front.
Qed.


Lemma contains_bullet_plain (s : string) :
  all_chars plain_char s = true -> PyStr.contains "•" s = false.
Proof.
  induction s as [|a s IH]; intros A; [reflexivity|].
  simpl in A. apply andb_true_iff in A. destruct A as [A1 A2].
  rewrite contains_cons, (IH A2). unfold plain_char in A1. apply negb_true_iff in A1.
  cbn [String.prefix]. destruct (ascii_dec "226" a) as [<-|_]; [discriminate | reflexivity].
Qed.

Lemma digits_plain (s : string) :
  all_chars PyStr.is_digit s = true -> all_chars plain_char s = true.
Proof.
  apply all_chars_impl. intros x Hx. unfold plain_char.
  destruct (Ascii.eqb_spec x "226") as [->|_]; [discriminate | reflexivity].
Qed.

Lemma adjusted_note_plain (n : Z) : 0 <= n -> PyStr.contains "•" (adjusted_note n) = false.
Proof.
  intros H. destruct (of_Z_digits n H) as [_ [_ [_ [_ A]]]].
  apply contains_bullet_plain. unfold adjusted_note.
  rewrite !all_chars_app, (digits_plain _ A). reflexivity.
Qed.

Lemma resolution_text_plain (n : Z) :
  0 <= n -> PyStr.contains "•" (" " ++ PyStr.of_Z n ++ "p") = false.
Proof.
  intros H. destruct (of_Z_digits n H) as [_ [_ [_ [_ A]]]].
  apply contains_bullet_plain.
  rewrite !all_chars_app, (digits_plain _ A). reflexivity.
Qed.

(** The adjustment note is not read as a resolution. *)
Lemma extract_adjusted_note (n : Z) :
  0 <= n ->
  _extract_resolution_from_format ("Video • MP4 •" ++ adjusted_note n) = Ok None.
Proof.
  intros H. unfold _extract_resolution_from_format.
  rewrite contains_video_format, (split_video_format _ (adjusted_note_plain n H)).
  cbn [first_resolution]. 
  change (PyStr.strip "Video ") with "Video". change (PyStr.strip " MP4 ") with "MP4".
  change (PyStr.endswith "Video" "p") with false.
  change (PyStr.endswith "MP4" "p") with false. cbn [andb].
  change (adjusted_note n)
    with (String " " (String "A" ("justado a máxima calidad (" ++ PyStr.of_Z n ++ "p)"))).
  rewrite strip_space_left.
  unfold PyStr.strip. cbn [PyStr.lstrip]. change (PyStr.is_space "A") with false. cbv iota.
  change (String "A" ("justado a máxima calidad (" ++ PyStr.of_Z n ++ "p)"))
    with ("Ajustado a máxima calidad (" ++ PyStr.of_Z n ++ "p" ++ ")").
  rewrite <- (string_app_assoc (PyStr.of_Z n) "p" ")").
  rewrite <- (string_app_assoc "Ajustado a máxima calidad (" (PyStr.of_Z n ++ "p") ")").
  rewrite rstrip_last by reflexivity. rewrite endswith_last. reflexivity.
Qed.

(** The resolution written by [_update_worker_mode] is read back. *)
Lemma extract_resolution_text (n : Z) :
  0 <= n ->
  _extract_resolution_from_format ("Video • MP4 •" ++ " " ++ PyStr.of_Z n ++ "p")
  = Ok (Some n).
Proof.
  intros H. destruct (of_Z_digits n H) as [c [s [E [D A]]]].
  unfold _extract_resolution_from_format.
  rewrite contains_video_format, (split_video_format _ (resolution_text_plain n H)).
  cbn [first_resolution].
  change (PyStr.strip "Video ") with "Video". change (PyStr.strip " MP4 ") with "MP4".
  change (PyStr.endswith "Video" "p") with false.
  change (PyStr.endswith "MP4" "p") with false. cbn [andb].
  change (" " ++ PyStr.of_Z n ++ "p") with (String " " (PyStr.of_Z n ++ "p")).
  rewrite strip_space_left. rewrite strip_id.
  2:{ rewrite all_chars_app, (digits_no_space _ A). reflexivity. }
  rewrite endswith_last, drop_last_one. cbn [Ascii.eqb Bool.eqb andb].
  rewrite (isdigit_of_Z n H), int_of_str. reflexivity.
Qed.

Lemma update_format_eval (n : Z) (c : card) (rest : string) :
  data_format_info c = "Video • MP4 •" ++ rest ->
  PyStr.contains "•" rest = false ->
  _update_format_info_for_quality n c
  = set_worker_mode (video_mode n)
      (set_format_text ("Video • MP4 •" ++ adjusted_note n)
         (set_data_format_info ("Video • MP4 •" ++ adjusted_note n) c)).
Proof.
  intros F R. unfold _update_format_info_for_quality.
  rewrite F, contains_video_format, (split_video_format _ R). reflexivity.
Qed.

Lemma update_worker_mode_eval (n : Z) (c : card) (w : worker) (rest : string) :
  card_worker c = Some w ->
  data_format_info c = "Video • MP4 •" ++ rest ->
  PyStr.contains "•" rest = false ->
  _update_worker_mode n c
  = set_format_text ("Video • MP4 •" ++ " " ++ PyStr.of_Z n ++ "p")
      (set_data_format_info ("Video • MP4 •" ++ " " ++ PyStr.of_Z n ++ "p")
         (set_worker_mode (video_mode n) c)).
Proof.
  intros W F R. unfold _update_worker_mode. rewrite W. cbv zeta.
  assert (F' : data_format_info (set_worker_mode (video_mode n) c) = "Video • MP4 •" ++ rest).
  { unfold set_worker_mode. rewrite W. exact F. }
  rewrite F', contains_video_format, (split_video_format _ R). reflexivity.
Qed.

Lemma set_format_text_data (text : string) (c : card) :
  data_format_info (set_format_text text c) = data_format_info c
  /\ card_worker (set_format_text text c) = card_worker c.
Proof. unfold set_format_text. destruct (format_label c); split; reflexivity. Qed.

Lemma set_format_text_label (text : string) (c : card) :
  format_label (set_format_text text c) = option_map (fun _ => text) (format_label c).
Proof. unfold set_format_text. destruct (format_label c) eqn:L; cbn; rewrite ?L; reflexivity. Qed.

Lemma set_worker_mode_data (mode : string) (c : card) :
  data_format_info (set_worker_mode mode c) = data_format_info c
  /\ format_label (set_worker_mode mode c) = format_label c
  /\ option_map _mode (card_worker (set_worker_mode mode c))
     = option_map (fun _ => mode) (card_worker c).
Proof. unfold set_worker_mode. destruct (card_worker c) eqn:W; cbn; rewrite ?W; repeat split; reflexivity. Qed.

(** X10. For a card whose format text is one of the video labels
    ("Video • MP4 •" and a third part) and a resolution N >= 0:
    [_update_format_info_for_quality] leaves the note
    "Ajustado a máxima calidad (Np)" as third part, and
    [_extract_resolution_from_format] reads no resolution from that text.
    [_handle_quality_adjustment] does nothing more on a card without a
    worker; on a card with a worker it leaves "Video • MP4 • Np", on the
    label as well, from which the resolution N is read back, and the mode of
    the worker is "video_N", from which [_extract_resolution_from_mode]
    reads N too. *)
Theorem quality_adjustment_texts (c : card) (selected_res n : Z) (rest : string) :
  0 <= n ->
  data_format_info c = "Video • MP4 •" ++ rest ->
  PyStr.contains "•" rest = false ->
  let noted := _update_format_info_for_quality n c in
  let adjusted := _handle_quality_adjustment selected_res n c in
  data_format_info noted
  = "Video • MP4 • Ajustado a máxima calidad (" ++ PyStr.of_Z n ++ "p)"
  /\ _extract_resolution_from_format (data_format_info noted) = Ok None
  /\ (card_worker c = None -> adjusted = noted /\ card_worker adjusted = None)
  /\ (forall w, card_worker c = Some w ->
      data_format_info adjusted = "Video • MP4 • " ++ PyStr.of_Z n ++ "p"
      /\ _extract_resolution_from_format (data_format_info adjusted) = Ok (Some n)
      /\ option_map _mode (card_worker adjusted) = Some (video_mode n)
      /\ _extract_resolution_from_mode (video_mode n) = Ok (Some n)
      /\ format_label adjusted
         = option_map (fun _ => data_format_info adjusted) (format_label c)).
Proof.
  intros N F R noted adjusted.
  assert (E : noted = set_worker_mode (video_mode n)
      (set_format_text ("Video • MP4 •" ++ adjusted_note n)
         (set_data_format_info ("Video • MP4 •" ++ adjusted_note n) c)))
    by exact (update_format_eval n c rest F R).
  assert (D : data_format_info noted = "Video • MP4 •" ++ adjusted_note n).
  { rewrite E. rewrite (proj1 (set_worker_mode_data _ _)), (proj1 (set_format_text_data _ _)).
    reflexivity. }
  split; [exact D|]. split; [rewrite D; exact (extract_adjusted_note n N)|].
  split.
  - intros W. 
    assert (W' : card_worker noted = None).
    { rewrite E. unfold set_worker_mode.
      rewrite (proj2 (set_format_text_data _ _)). cbn. rewrite W.
      rewrite (proj2 (set_format_text_data _ _)). exact W. }
    split.
    + unfold adjusted, _handle_quality_adjustment. fold noted.
      unfold _update_worker_mode. rewrite W'. reflexivity.
    + unfold adjusted, _handle_quality_adjustment. fold noted.
      unfold _update_worker_mode. rewrite W'. exact W'.
  - intros w W.
    assert (W' : exists w', card_worker noted = Some w').
    { rewrite E. unfold set_worker_mode.
      rewrite (proj2 (set_format_text_data _ _)). cbn. rewrite W. eexists. reflexivity. }
    destruct W' as [w' W'].
    assert (A : adjusted = set_format_text ("Video • MP4 •" ++ " " ++ PyStr.of_Z n ++ "p")
      (set_data_format_info ("Video • MP4 •" ++ " " ++ PyStr.of_Z n ++ "p")
         (set_worker_mode (video_mode n) noted))).
    { exact (update_worker_mode_eval n noted w' (adjusted_note n) W' D (adjusted_note_plain n N)). }
    assert (DA : data_format_info adjusted = "Video • MP4 •" ++ " " ++ PyStr.of_Z n ++ "p").
    { rewrite A. unfold set_format_text.
      destruct (format_label _); reflexivity. }
    split; [exact DA|]. split; [rewrite DA; exact (extract_resolution_text n N)|].
    split.
    { rewrite A. rewrite (proj2 (set_format_text_data _ _)). cbn [card_worker set_data_format_info].
      rewrite (proj2 (proj2 (set_worker_mode_data _ _))), W'. reflexivity. }
    split; [exact (extract_video_mode n N)|].
    rewrite DA. rewrite A, E. rewrite !set_format_text_label. cbn [format_label set_data_format_info].
    rewrite !(proj1 (proj2 (set_worker_mode_data _ _))). rewrite set_format_text_label.
    cbn [format_label set_data_format_info]. destruct (format_label c); reflexivity.
Qed.

Lemma quality_adjustment_texts_witness :
  data_format_info (_handle_quality_adjustment 2160 1080 card_4k) = "Video • MP4 • 1080p"
  /\ _extract_resolution_from_format (data_format_info card_4k) = Ok None.
Proof.
  split; [|reflexivity].
  exact (proj1 (proj2 (proj2 (proj2
    (quality_adjustment_texts card_4k 2160 1080 " 4K" ltac:(lia) eq_refl eq_refl))) _ eq_refl)).
Defined.


(* ------------------------------------------------------------------ *)
(** ** The duplicate of the file of a download *)




















(* ------------------------------------------------------------------ *)
(** ** The card after the signals of a run *)


























(* ------------------------------------------------------------------ *)
(** ** The check of the formats in the background *)




(* ------------------------------------------------------------------ *)
(** ** The presets of the format box *)

Lemma in_presets (P : string -> string -> Prop) :
  (forall label mode, In (label, mode) _preset_map -> P label mode) <->
  Forall (fun lm => P (fst lm) (snd lm)) _preset_map.
Proof.
  rewrite Forall_forall. split.
  - intros H [label mode] I. exact (H _ _ I).
  - intros H label mode I. exact (H _ I).
Qed.

(** X14. For every entry of the format box: the label is looked up to its
    mode, and the command line of the worker is built without error: the
    common arguments with the format selector of the mode after [-f],
    followed by what the kind of the entry adds.  A video entry has the
    selector of the resolution of its mode and asks for an MP4 merge; the
    extension of the duplicate check is "mp4", and the resolution of the
    mode is the one read from the label, except for the labels "4K" and
    "2K", from which none is read.  An audio entry adds the extraction of
    audio in the format of the extension of the duplicate check ("vorbis"
    for "ogg") at the bit rate of its label, with the codec of that format;
    its selector is "bestaudio[ext=m4a]/bestaudio/best" for [m4a_best],
    the generic "b[ext=mp4]/b" for [m4a_320], [ogg_320] and [wma_320], and
    "bestaudio/best" otherwise.  Those three modes, and only they, get the
    generic selector. *)
Theorem preset_command_lines (label mode : string) (w : worker) :
  In (label, mode) _preset_map ->
  _mode w = mode ->
  let ext := _get_extension_from_mode mode in
  let bitrate :=
    List.hd "" (PyStr.split_char " " (PyStr.strip (List.nth 2 (str_split "•" label) ""))) in
  let common (selector : string) :=
    (["yt-dlp"; "-f"; selector; "--prefer-ffmpeg"; "-o";
      FS.join (_output w) "%(title)s.%(ext)s"; "--newline"; "--progress";
      "--no-overwrites"; "--restrict-filenames"; _url w]
     ++ (if _no_playlist w then ["--no-playlist"] else []))%list in
  mode_of_label _preset_map label = mode
  /\ exists selector,
       fmt mode = Ok selector
       /\ (selector = "b[ext=mp4]/b"
           <-> mode = "m4a_320" \/ mode = "ogg_320" \/ mode = "wma_320")
       /\ if PyStr.startswith mode "video_"
          then ext = "mp4"
               /\ args w = Ok (common selector ++ ["--merge-output-format"; "mp4"])%list
               /\ exists n,
                    _extract_resolution_from_mode mode = Ok (Some n)
                    /\ selector
                       = "bestvideo[height<=" ++ PyStr.of_Z n
                         ++ "][ext=mp4]+bestaudio[ext=m4a]/bestvideo[height<=" ++ PyStr.of_Z n
                         ++ "]+bestaudio/best[height<=" ++ PyStr.of_Z n
                         ++ "][ext=mp4]/best[height<=" ++ PyStr.of_Z n
                         ++ "]/best[ext=mp4]/best"
                    /\ (_extract_resolution_from_format label = Ok (Some n)
                        \/ (_extract_resolution_from_format label = Ok None /\ 1440 <= n))
          else args w
               = Ok (common selector
                     ++ extract_audio (if String.eqb ext "ogg" then "vorbis" else ext)
                          (bitrate ++ "k")
                          (if String.eqb ext "mp3" then "libmp3lame"
                           else if String.eqb ext "ogg" then "libvorbis"
                           else if String.eqb ext "wma" then "wmav2" else "aac"))%list
               /\ selector
                  = (if (String.eqb mode "m4a_320" || String.eqb mode "ogg_320"
                         || String.eqb mode "wma_320")%bool then "b[ext=mp4]/b"
                     else if String.eqb mode "m4a_best" then "bestaudio[ext=m4a]/bestaudio/best"
                     else "bestaudio/best").
Proof.
  intros I M. destruct w as [u o m np ch fsz cn pr ds rp lp sz]. cbn [_mode] in M. subst m.
  cbv zeta.
  unfold _preset_map in I. cbn [In] in I.
  repeat (destruct I as [I|I];
          [inversion I; subst label mode; clear I;
           split; [reflexivity|];
           eexists; split; [vm_compute; reflexivity|];
           split;
           [split;
            [intros H; first [discriminate H | left; reflexivity | right; left; reflexivity
                             | right; right; reflexivity]
            | intros [H|[H|H]]; first [discriminate H | reflexivity]]|];
           first [ split; [reflexivity|];
                   split; [destruct np; reflexivity|];
                   eexists; split; [vm_compute; reflexivity|];
                   split; [vm_compute; reflexivity|];
                   first [left; vm_compute; reflexivity
                         | right; split; [vm_compute; reflexivity | lia]]
                 | split; [destruct np; vm_compute; reflexivity | reflexivity] ]
          |]).
  destruct I.
Qed.

Lemma preset_command_lines_witness :
  In ("Audio • OGG • 192 kbps", "ogg_best") _preset_map
  /\ fmt "ogg_best" = Ok "bestaudio/best"
  /\ args (preset_worker "ogg_best")
     = Ok (["yt-dlp"; "-f"; "bestaudio/best"; "--prefer-ffmpeg"; "-o";
            "/home/user/Downloads/%(title)s.%(ext)s"; "--newline"; "--progress";
            "--no-overwrites"; "--restrict-filenames"; "https://youtu.be/clip";
            "--no-playlist"]
           ++ extract_audio "vorbis" "192k" "libvorbis")%list.
Proof.
  assert (I : In ("Audio • OGG • 192 kbps", "ogg_best") _preset_map)
    by (do 14 right; left; reflexivity).
  split; [exact I|].
  destruct (preset_command_lines "Audio • OGG • 192 kbps" "ogg_best" (preset_worker "ogg_best")
              I eq_refl) as [_ [selector [F [_ [A S]]]]].
  cbv in S. subst selector. split; [exact F | exact A].
Defined.


(* ------------------------------------------------------------------ *)
(** ** The name of the channel *)

Lemma rstrip_space (s : string) : PyStr.rstrip (s ++ " ") = PyStr.rstrip s.
Proof. unfold PyStr.rstrip. rewrite rev_last. reflexivity. Qed.

(** The marker does not start inside a name that does not contain it, when
    the marker follows the name after a blank. *)
Lemma topic_not_across (c : ascii) (s : string) :
  String.prefix "- Topic" (String c s) = false ->
  String.prefix "- Topic" (String c (s ++ " - Topic")) = false.
Proof.
  intros P.
  destruct s as [|c2 [|c3 [|c4 [|c5 [|c6 [|c7 s7]]]]]]; cbn [append String.prefix] in *;
    repeat match goal with
           | |- context [ascii_dec ?a ?b] => destruct (ascii_dec a b); [subst|reflexivity]
           end;
    try reflexivity; try discriminate.
  destruct s7; cbn in *; discriminate.
Qed.

Lemma replace_topic (base : string) :
  PyStr.contains "- Topic" base = false ->
  str_replace "- Topic" "" (base ++ " - Topic") = base ++ " ".
Proof.
  unfold str_replace. induction base as [|c s IH]; intros C; [reflexivity|].
  rewrite contains_cons in C. apply orb_false_iff in C. destruct C as [C1 C2].
  cbn [append replace_from]. rewrite (topic_not_across c s C1), (IH C2). reflexivity.
Qed.

Lemma visible_no_space (c : ascii) : visible_ascii c = true -> PyStr.is_space c = false.
Proof.
  unfold visible_ascii. intros H. apply andb_true_iff in H.
  destruct (PyStr.is_space c); [destruct H; discriminate | reflexivity].
Qed.

(** A text with visible ends is left as it is by [strip], also with a blank
    after it. *)
Lemma strip_ends_visible (s : string) :
  ends_visible s = true -> PyStr.strip (s ++ " ") = s.
Proof.
  unfold ends_visible, PyStr.strip. destruct s as [|c s]; [reflexivity|].
  destruct (PyStr.rev (String c s)) as [|d r] eqn:R.
  { intros _. apply (f_equal PyStr.rev) in R. rewrite rev_involutive in R. discriminate. }
  intros H. apply andb_true_iff in H. destruct H as [Hc Hd].
  cbn [append PyStr.lstrip]. rewrite (visible_no_space c Hc).
  change (String c (s ++ " ")) with (String c s ++ " ").
  rewrite rstrip_space. unfold PyStr.rstrip. rewrite R. cbn [PyStr.lstrip].
  rewrite (visible_no_space d Hd), <- R. apply rev_involutive.
Qed.

(** X15. The name of a channel that does not contain the marker "- Topic" is
    returned as it is, white space at its ends included.  With the marker
    appended after a blank to a name that does not contain it, the name
    itself is returned, when the name is empty or begins and ends with an
    ASCII character that is no white space. *)
Theorem clean_channel_topic (name base : string) :
  (PyStr.contains "- Topic" name = false -> clean_channel_name name = name)
  /\ (PyStr.contains "- Topic" base = false -> ends_visible base = true ->
      clean_channel_name (base ++ " - Topic") = base).
Proof.
  unfold clean_channel_name. split.
  - intros C. rewrite C, andb_false_r. reflexivity.
  - intros C V.
    assert (T : PyStr.truthy (base ++ " - Topic") = true) by (destruct base; reflexivity).
    assert (K : PyStr.contains "- Topic" (base ++ " - Topic") = true).
    { replace (base ++ " - Topic") with ((base ++ " ") ++ "- Topic" ++ "").
      - apply contains_app.
      - rewrite string_app_assoc. reflexivity. }
    rewrite T, K. cbn [andb]. rewrite (replace_topic base C).
    apply strip_ends_visible, V.
Qed.

Lemma clean_channel_topic_witness :
  clean_channel_name " Artist " = " Artist "
  /\ clean_channel_name "Jay-Z - Topic" = "Jay-Z".
Proof.
  destruct (clean_channel_topic " Artist " "Jay-Z") as [A B].
  split; [exact (A eq_refl) | exact (B eq_refl eq_refl)].
Defined.

